(** * Assets service: orchestrator and event dispatcher

    A shallow embedding of the asset orchestrator
    ([internal/core/services], two implementations), of the adapters it
    is wired to (object store, metadata repository, cache), of the gRPC
    entry point, of the Kafka event consumer and of the user-created
    event handler, followed by the properties of the specification that
    concern them. *)

From Stdlib Require Import ZArith Lia.
From Stdlib.Strings Require Import Byte Ascii String.
From stdpp Require Import base option strings gmap list pretty sorting.

Local Open Scope string_scope.
Local Open Scope Z_scope.

(** ** Go values *)

(** A Go [[]byte]. *)
Abbreviation bytes := (list Byte.byte).

(** Go [error] values, as far as the code builds them: [errors.New] and
    [fmt.Errorf] without a wrapped cause, [fmt.Errorf("...: %w", err)],
    [domain.DomainError], gRPC [status.Errorf] without and with a cause
    formatted by [%v], and the errors the external clients (MinIO, SQL
    driver, Redis, Kafka) hand back, which the code never inspects. *)
Inductive error : Type :=
| errors_New (msg : string)
| fmt_Errorf_w (msg : string) (cause : error)
| DomainError (Code : string) (Message : string) (Err : error)
| status_Errorf (code : string) (msg : string)
| status_Errorf_v (code : string) (msg : string) (cause : error)
| client_error (origin : string) (detail : string).

(** What a Go call yields: a value, a non-nil [error], or a run-time
    panic (the only one the modelled code can raise is a nil pointer
    dereference). A pointer is an [option]: [None] is nil. *)
Inductive result (A : Type) : Type :=
| Ok (a : A)
| Err (e : error)
| Panic (reason : string).
Arguments Ok {A} a.
Arguments Err {A} e.
Arguments Panic {A} reason.

Definition nil_dereference : string :=
  "invalid memory address or nil pointer dereference".

(** [*p] *)
Definition deref {A : Type} (p : option A) : result A :=
  match p with
  | Some a => Ok a
  | None => Panic nil_dereference
  end.

Definition rbind {A B : Type} (r : result A) (k : A -> result B) : result B :=
  match r with
  | Ok a => k a
  | Err e => Err e
  | Panic m => Panic m
  end.

(** Go's short-circuit [&&] and [||] over operands that may panic: the
    right operand is evaluated only when the left one does not decide. *)
Definition sc_and (a b : result bool) : result bool :=
  rbind a (fun x => if x then b else Ok false).
Definition sc_or (a b : result bool) : result bool :=
  rbind a (fun x => if x then Ok true else b).

Declare Scope go_scope.
Delimit Scope go_scope with go.
Notation "a &&& b" := (sc_and a b) (at level 40, left associativity) : go_scope.
Notation "a ||| b" := (sc_or a b) (at level 50, left associativity) : go_scope.

(** [p != nil] and [*p != ""] *)
Definition not_nil {A : Type} (p : option A) : result bool :=
  Ok (match p with Some _ => true | None => false end).
Definition deref_nonempty (p : option string) : result bool :=
  rbind (deref p) (fun s => Ok (negb (String.eqb s ""))).

(** Whether a result is a value, and the code of a [DomainError]. *)
Definition is_ok {A : Type} (r : result A) : bool :=
  match r with Ok _ => true | _ => false end.
Definition err_code {A : Type} (r : result A) : option string :=
  match r with
  | Err (DomainError c _ _) => Some c
  | _ => None
  end.

(** ** [internal/core/domain] *)

Module domain.

(** [UserError] is a Go string type; these are the codes the
    orchestrator and its adapters use. *)
Definition UserError := string.

Definition UnauthorizedError : UserError := "unauthorized_error".
Definition ResourceNotFoundError : UserError := "resource_not_found_error".
Definition UnableToDeleteError : UserError := "unable_to_delete_error".
Definition UnableToFetchError : UserError := "unable_to_fetch_error".
Definition InvalidInputError : UserError := "invalid_input_error".
Definition UnableToMarshalError : UserError := "unable_to_marshal_error".
Definition CacheConnectionError : UserError := "cache_connection_error".
Definition UnableToUploadError : UserError := "unable_to_upload_error".

(** [NewDomainError(code, message, err)]: a nil cause is replaced by
    [errors.New("Asset not found")]. *)
Definition NewDomainError (code : UserError) (message : string)
    (err : option error) : error :=
  match err with
  | None => DomainError code message (errors_New "Asset not found")
  | Some e => DomainError code message e
  end.

(** [Asset]: one row of the [assets] table. Timestamps are Unix seconds. *)
Record Asset : Type := {
  ID : string;
  URL : string;
  PublicURL : string;
  Filename : string;
  FileSize : Z;
  Metadata : string;
  Secure : bool;
  StorageKey : option string;
  StorageProvider : option string;
  ResourceID : option string;
  ResourceType : option string;
  ContentType : string;
  UserID : option string;
  AccessLevel : string;
  AllowedRoles : list string;
  IsEncrypted : bool;
  EncryptionKey : option string;
  LastAccessedAt : option Z;
  DeletedAt : option Z;
  Tags : list string;
  CreatedAt : Z;
  UpdatedAt : Z;
  Active : bool;
  FileHash : string
}.

(** [CreateAssetDto] *)
Record CreateAssetDto : Type := {
  dto_URL : string;
  dto_PublicURL : option string;
  dto_Filename : string;
  dto_FileSize : Z;
  dto_Metadata : string;
  dto_Secure : bool;
  dto_FileHash : string;
  dto_StorageKey : option string;
  dto_StorageProvider : option string;
  dto_ResourceID : option string;
  dto_ResourceType : option string;
  dto_ContentType : string;
  dto_UserID : option string;
  dto_AccessLevel : string;
  dto_AllowedRoles : list string;
  dto_IsEncrypted : bool;
  dto_EncryptionKey : option string;
  dto_Tags : list string
}.

(** [EventType] is a Go string type; [EventMetadata]; [DomainEvent], whose
    [Data] document ([map[string]interface{}]) is kept as its JSON text. *)
Definition EventType := string.

Record EventMetadata : Type := {
  Source : string;
  CorrelationID : string;
  CausationID : string;
  meta_UserID : string
}.

Record DomainEvent : Type := {
  ev_ID : string;
  ev_Type : EventType;
  ev_AggregateID : string;
  ev_Version : Z;
  ev_Data : string;
  ev_Metadata : EventMetadata;
  ev_Timestamp : Z
}.

End domain.

Import domain.

(** ** [internal/ports]: the interfaces the orchestrator is written against

    A port method is a transition of the state [S] of the world outside
    the orchestrator; a Go [error] return is an [option error] ([None] is
    nil), a [(T, error)] return a sum. *)

Inductive Level : Type := LDebug | LInfo | LWarn | LError.

Module ports.

Record Logger (S : Type) : Type := {
  Log : Level -> string -> S -> S
}.

Record AssetsRepository (S : Type) : Type := {
  CreateAsset : CreateAssetDto -> S -> (error + Asset) * S;
  GetAssetByID : string -> S -> (error + Asset) * S;
  DeleteAsset : string -> S -> option error * S
}.

Record StoragesService (S : Type) : Type := {
  UploadFile : string -> bytes -> string -> S -> (error + string) * S;
  DeleteFile : string -> S -> option error * S
}.

Record CacheService (S : Type) : Type := {
  Set_ : string -> Asset -> Z -> S -> option error * S;
  Get : string -> S -> (error + Asset) * S;
  Delete : string -> S -> option error * S
}.

Record EventPublisher (S : Type) : Type := {
  PublishAvatarUpdated : string -> string -> S -> option error * S
}.

Arguments Log {S} _ _ _ _.
Arguments CreateAsset {S} _ _ _.
Arguments GetAssetByID {S} _ _ _.
Arguments DeleteAsset {S} _ _ _.
Arguments UploadFile {S} _ _ _ _ _.
Arguments DeleteFile {S} _ _ _.
Arguments Set_ {S} _ _ _ _ _.
Arguments Get {S} _ _ _.
Arguments Delete {S} _ _ _.
Arguments PublishAvatarUpdated {S} _ _ _ _.

End ports.

(** The service struct: both implementations have the same four fields. *)
Record AssetsService (S : Type) : Type := {
  assetsRepo : ports.AssetsRepository S;
  storageService : ports.StoragesService S;
  cacheService : ports.CacheService S;
  logger : ports.Logger S
}.
Arguments assetsRepo {S} _.
Arguments storageService {S} _.
Arguments cacheService {S} _.
Arguments logger {S} _.

(** What the orchestrator takes from the Go runtime and libraries during
    one call: the clock, a fresh UUID, SHA-256 in hex, and [encoding/json]
    on the metadata document ([custom_metadata_ok] tells whether the
    caller's metadata unmarshals into a map, [marshal_metadata] is
    [json.Marshal] of the merged map). *)
Record Runtime : Type := {
  time_Now_Unix : Z;
  uuid_New : string;
  sha256_hex : bytes -> string;
  custom_metadata_ok : string -> bool;
  marshal_metadata : string -> Z -> string -> option string -> error + string
}.

(** ** [internal/core/services/assets_service.go] *)

Module assets_service.

Section service.
Context {S : Type}.
Variable s : AssetsService S.
Variable rt : Runtime.

(** [fmt.Sprintf("%d_%s", timestamp, createDto.Filename)] *)
Definition uniqueSlug (timestamp : Z) (filename : string) : string :=
  pretty timestamp +:+ "_" +:+ filename.

(** The two conditions of the key derivation, with Go's evaluation order. *)
Definition has_type_and_id (createDto : CreateAssetDto) : result bool :=
  (not_nil (dto_ResourceType createDto)
   &&& deref_nonempty (dto_ResourceType createDto)
   &&& not_nil (dto_ResourceID createDto)
   &&& deref_nonempty (dto_ResourceID createDto))%go.

Definition has_type_only (createDto : CreateAssetDto) : result bool :=
  (not_nil (dto_ResourceType createDto)
   &&& deref_nonempty (dto_ResourceType createDto)
   &&& (not_nil (dto_ResourceID createDto)
        ||| deref_nonempty (dto_ResourceID createDto)))%go.

(** Lines 51-56: [fileKey] starts as the empty string and is assigned in
    the two branches only. *)
Definition fileKey (createDto : CreateAssetDto) (uniqueSlug : string)
    : result string :=
  rbind (has_type_and_id createDto) (fun both =>
  if both then
    rbind (deref (dto_ResourceType createDto)) (fun rtype =>
    rbind (deref (dto_ResourceID createDto)) (fun rid =>
    Ok (rtype +:+ "/" +:+ rid +:+ "/" +:+ uniqueSlug)))
  else
    rbind (has_type_only createDto) (fun only =>
    if only then
      rbind (deref (dto_ResourceType createDto)) (fun rtype =>
      Ok (rtype +:+ "/" +:+ uniqueSlug))
    else Ok "")).

(** The DTO handed to the repository (lines 102-120). *)
Definition assetDto (createDto : CreateAssetDto) (fileKey assetURL publicUrl
    metadataJSON fileHash : string) (fileSize : Z) : CreateAssetDto :=
  {| dto_StorageKey := Some fileKey;
     dto_StorageProvider := Some "minio";
     dto_URL := assetURL;
     dto_PublicURL := Some publicUrl;
     dto_Filename := dto_Filename createDto;
     dto_ContentType := dto_ContentType createDto;
     dto_FileSize := fileSize;
     dto_UserID := dto_UserID createDto;
     dto_Metadata := metadataJSON;
     dto_FileHash := fileHash;
     dto_Secure := dto_Secure createDto;
     dto_Tags := dto_Tags createDto;
     dto_AccessLevel := dto_AccessLevel createDto;
     dto_IsEncrypted := dto_IsEncrypted createDto;
     dto_ResourceID := dto_ResourceID createDto;
     dto_ResourceType := dto_ResourceType createDto;
     dto_EncryptionKey := dto_EncryptionKey createDto;
     dto_AllowedRoles := [] |}.

(** Lines 80-89: the caller's metadata is merged when it unmarshals, and
    ignored with a warning when it does not. *)
Definition customMetadata (createDto : CreateAssetDto) : option string :=
  if String.eqb (dto_Metadata createDto) "" then None
  else if custom_metadata_ok rt (dto_Metadata createDto)
       then Some (dto_Metadata createDto)
       else None.

Definition warn_customMetadata (createDto : CreateAssetDto) (w : S) : S :=
  if String.eqb (dto_Metadata createDto) "" then w
  else if custom_metadata_ok rt (dto_Metadata createDto) then w
       else ports.Log (logger s) LWarn
              "Failed to unmarshal custom metadata, ignoring" w.

(** [UploadAsset] *)
Definition UploadAsset (createDto : CreateAssetDto) (fileData : bytes)
    (w : S) : result Asset * S :=
  let w := ports.Log (logger s) LInfo "Uploading asset" w in
  let assetID := uuid_New rt in
  let timestamp := time_Now_Unix rt in
  let slug := uniqueSlug timestamp (dto_Filename createDto) in
  match fileKey createDto slug with
  | Panic m => (Panic m, w)
  | Err e => (Err e, w)
  | Ok fileKey =>
    let w := ports.Log (logger s) LInfo "Generated file key for storage" w in
    let '(up, w) := ports.UploadFile (storageService s) fileKey fileData
                      (dto_ContentType createDto) w in
    match up with
    | inl err =>
      let w := ports.Log (logger s) LError "Failed to upload file to storage" w in
      (Err (fmt_Errorf_w "failed to upload file to storage" err), w)
    | inr assetURL =>
      let w := ports.Log (logger s) LInfo "File uploaded to storage" w in
      let fileHash := sha256_hex rt fileData in
      let custom := customMetadata createDto in
      let w := warn_customMetadata createDto w in
      match marshal_metadata rt fileHash (time_Now_Unix rt) fileKey custom with
      | inl err =>
        (Err (NewDomainError UnableToMarshalError "Failed to marshal metadata"
                (Some err)), w)
      | inr metadataJSON =>
        let publicUrl := "assets/" +:+ assetID in
        let fileSize := Z.of_nat (length fileData) in
        let dto := assetDto createDto fileKey assetURL publicUrl metadataJSON
                     fileHash fileSize in
        let '(saved, w) := ports.CreateAsset (assetsRepo s) dto w in
        match saved with
        | inl err =>
          let w := ports.Log (logger s) LError "Failed to save asset metadata" w in
          let '(deleteErr, w) := ports.DeleteFile (storageService s) fileKey w in
          let w := match deleteErr with
                   | Some _ => ports.Log (logger s) LError
                                 "Failed to rollback file upload" w
                   | None => w
                   end in
          (Err (NewDomainError UnableToMarshalError
                  "Failed to save asset metadata" (Some err)), w)
        | inr savedAsset =>
          let cacheKey := "asset:" +:+ assetID in
          let '(cerr, w) := ports.Set_ (cacheService s) cacheKey savedAsset 0 w in
          let w := match cerr with
                   | Some _ => ports.Log (logger s) LError "Failed to cache asset" w
                   | None => w
                   end in
          let w := ports.Log (logger s) LInfo "Asset uploaded successfully" w in
          (Ok savedAsset, w)
        end
      end
    end
  end.

(** [GetAssetByID]: the cache is read under the bare asset id. *)
Definition GetAssetByID (assetID : string) (w : S) : result Asset * S :=
  let w := ports.Log (logger s) LInfo "Getting asset by ID" w in
  let '(hit, w) := ports.Get (cacheService s) assetID w in
  match hit with
  | inr asset => (Ok asset, w)
  | inl _ =>
    let '(got, w) := ports.GetAssetByID (assetsRepo s) assetID w in
    match got with
    | inl err =>
      let w := ports.Log (logger s) LError "Failed to get asset by ID" w in
      (Err (NewDomainError ResourceNotFoundError "Asset not found" (Some err)), w)
    | inr asset => (Ok asset, w)
    end
  end.

(** [DeleteAsset]: the storage deletion is a TODO comment (lines 193-194);
    the row is soft-deleted right after the ownership check. *)
Definition DeleteAsset (assetID userID : string) (w : S) : result unit * S :=
  let w := ports.Log (logger s) LInfo "Deleting asset" w in
  let '(got, w) := ports.GetAssetByID (assetsRepo s) assetID w in
  match got with
  | inl err =>
    let w := ports.Log (logger s) LError "Failed to get asset for deletion" w in
    (Err (NewDomainError ResourceNotFoundError "Asset not found" (Some err)), w)
  | inr asset =>
    if match UserID asset with
       | Some owner => negb (String.eqb owner userID)
       | None => false
       end
    then
      let w := ports.Log (logger s) LWarn "Unauthorized delete attempt" w in
      (Err (NewDomainError UnauthorizedError "Asset does not belong to user" None), w)
    else
      let '(derr, w) := ports.DeleteAsset (assetsRepo s) assetID w in
      match derr with
      | Some err =>
        let w := ports.Log (logger s) LError "Failed to delete asset" w in
        (Err (NewDomainError UnableToDeleteError "Failed to delete asset" (Some err)), w)
      | None =>
        let w := ports.Log (logger s) LInfo "Asset deleted successfully" w in
        (Ok tt, w)
      end
  end.

End service.

End assets_service.

(** ** The second implementation of the service (src/unnamed/part_008)

    It takes the storage key and the metadata document from two methods
    of [CreateAssetDto], [GetStoreKey] and [GetMetadata], whose bodies
    are not part of the sources at hand: they are parameters here. *)

Module part_008.

Section service.
Context {S : Type}.
Variable s : AssetsService S.
Variable rt : Runtime.
Variable GetStoreKey : CreateAssetDto -> string.
Variable GetMetadata : CreateAssetDto -> string -> string -> string.

Definition assetDto (createDto : CreateAssetDto) (fileKey assetURL
    metadataJSON fileHash : string) (fileSize : Z) : CreateAssetDto :=
  {| dto_StorageKey := Some fileKey;
     dto_StorageProvider := Some "minio";
     dto_URL := assetURL;
     dto_PublicURL := None;
     dto_Filename := dto_Filename createDto;
     dto_ContentType := dto_ContentType createDto;
     dto_FileSize := fileSize;
     dto_UserID := dto_UserID createDto;
     dto_Metadata := metadataJSON;
     dto_FileHash := fileHash;
     dto_Secure := dto_Secure createDto;
     dto_Tags := dto_Tags createDto;
     dto_AccessLevel := dto_AccessLevel createDto;
     dto_IsEncrypted := dto_IsEncrypted createDto;
     dto_ResourceID := dto_ResourceID createDto;
     dto_ResourceType := dto_ResourceType createDto;
     dto_EncryptionKey := dto_EncryptionKey createDto;
     dto_AllowedRoles := [] |}.

(** [UploadAsset] *)
Definition UploadAsset (createDto : CreateAssetDto) (fileData : bytes)
    (w : S) : result Asset * S :=
  let fileHash := sha256_hex rt fileData in
  let fileSize := Z.of_nat (length fileData) in
  let fileKey := GetStoreKey createDto in
  let metadataJSON := GetMetadata createDto fileKey fileHash in
  let w := ports.Log (logger s) LInfo "Uploading asset" w in
  let '(up, w) := ports.UploadFile (storageService s) fileKey fileData
                    (dto_ContentType createDto) w in
  match up with
  | inl err =>
    let w := ports.Log (logger s) LError "Failed to upload file to storage" w in
    (Err (NewDomainError UnableToMarshalError "failed to upload file to storag"
            (Some err)), w)
  | inr assetURL =>
    let w := ports.Log (logger s) LInfo "File uploaded to storage" w in
    let dto := assetDto createDto fileKey assetURL metadataJSON fileHash
                 fileSize in
    let '(saved, w) := ports.CreateAsset (assetsRepo s) dto w in
    match saved with
    | inl err =>
      let w := ports.Log (logger s) LError "Failed to save asset metadata" w in
      let '(deleteErr, w) := ports.DeleteFile (storageService s) fileKey w in
      let w := match deleteErr with
               | Some _ => ports.Log (logger s) LError
                             "Failed to rollback file upload" w
               | None => w
               end in
      (Err (NewDomainError UnableToMarshalError "Failed to save asset metadata"
              (Some err)), w)
    | inr asset =>
      let cacheKey := "assets:" +:+ ID asset in
      let '(cerr, w) := ports.Set_ (cacheService s) cacheKey asset 0 w in
      let w := match cerr with
               | Some _ => ports.Log (logger s) LError "Failed to cache asset" w
               | None => w
               end in
      let w := ports.Log (logger s) LInfo "Asset uploaded successfully" w in
      (Ok asset, w)
    end
  end.

(** [GetAssetByID]: cache-aside read with write-back. *)
Definition GetAssetByID (assetID : string) (w : S) : result Asset * S :=
  let w := ports.Log (logger s) LInfo "Getting asset by ID" w in
  let cacheKey := "assets:" +:+ assetID in
  let '(hit, w) := ports.Get (cacheService s) cacheKey w in
  match hit with
  | inr asset => (Ok asset, w)
  | inl _ =>
    let '(got, w) := ports.GetAssetByID (assetsRepo s) assetID w in
    match got with
    | inl err =>
      let w := ports.Log (logger s) LError "Failed to get asset by ID" w in
      (Err (NewDomainError ResourceNotFoundError "Asset not found" (Some err)), w)
    | inr asset =>
      let '(cerr, w) := ports.Set_ (cacheService s) cacheKey asset 0 w in
      let w := match cerr with
               | Some _ => ports.Log (logger s) LError "Failed to cache asset" w
               | None => w
               end in
      (Ok asset, w)
    end
  end.

(** [DeleteAsset]: ownership check, storage delete, cache delete, then the
    soft delete of the row. [*asset.StorageKey] dereferences a pointer
    that is nil when the row has no storage key. *)
Definition DeleteAsset (assetID userID : string) (w : S) : result unit * S :=
  let w := ports.Log (logger s) LInfo "Deleting asset" w in
  let '(got, w) := ports.GetAssetByID (assetsRepo s) assetID w in
  match got with
  | inl err =>
    let w := ports.Log (logger s) LError "Failed to get asset for deletion" w in
    (Err (NewDomainError ResourceNotFoundError "Asset not found" (Some err)), w)
  | inr asset =>
    if match UserID asset with
       | Some owner => negb (String.eqb owner userID)
       | None => false
       end
    then
      let w := ports.Log (logger s) LWarn "Unauthorized delete attempt" w in
      (Err (NewDomainError UnauthorizedError "Asset does not belong to user" None), w)
    else
      match deref (StorageKey asset) with
      | Panic m => (Panic m, w)
      | Err e => (Err e, w)
      | Ok storageKey =>
        let '(serr, w) := ports.DeleteFile (storageService s) storageKey w in
        match serr with
        | Some err =>
          let w := ports.Log (logger s) LError
                     "Failed to delete file from storage" w in
          (Err (NewDomainError UnableToDeleteError
                  "Failed to delete file from storage" (Some err)), w)
        | None =>
          let cacheKey := "assets:" +:+ assetID in
          let '(cerr, w) := ports.Delete (cacheService s) cacheKey w in
          let w := match cerr with
                   | Some _ => ports.Log (logger s) LError
                                 "Failed to delete asset from cache" w
                   | None => w
                   end in
          let '(derr, w) := ports.DeleteAsset (assetsRepo s) assetID w in
          match derr with
          | Some err =>
            let w := ports.Log (logger s) LError "Failed to delete asset" w in
            (Err (NewDomainError UnableToDeleteError "Failed to delete asset"
                    (Some err)), w)
          | None =>
            let w := ports.Log (logger s) LInfo "Asset deleted successfully" w in
            (Ok tt, w)
          end
        end
      end
  end.

End service.

End part_008.

(** ** The adapters, over an in-memory world

    The object store is a map from keys to objects, the [assets] table a
    map from ids to rows, the cache a map from cache keys to assets. Every
    adapter call is recorded in [calls], oldest first. A [Backend] fixes
    what lies outside the code: which client calls fail and with what
    error, the MinIO configuration, the UUIDs and the clock of the
    database. *)

Inductive Port : Type :=
| PutObject | RemoveObject
| SqlInsert | SqlSelect | SqlUpdate
| RedisSet | RedisGet | RedisDel
| KafkaWrite.

Inductive Call : Type :=
| call_UploadFile (key : string)
| call_DeleteFile (key : string)
| call_CreateAsset (storage_key : option string)
| call_GetAssetByID (id : string)
| call_DeleteAsset (id : string)
| call_cache_Set (key : string)
| call_cache_Get (key : string)
| call_cache_Delete (key : string)
| call_PublishAvatarUpdated (userID avatarURL : string).

Record Object : Type := {
  obj_data : bytes;
  obj_content_type : string
}.

Record World : Type := {
  objects : gmap string Object;
  rows : gmap string Asset;
  cache : gmap string Asset;
  published : list (string * string);
  calls : list Call;
  logs : list (Level * string);
  db_seq : nat
}.

Record Backend : Type := {
  faults : Port -> option error;
  UseSSL : bool;
  Endpoint : string;
  bucketName : string;
  gen_random_uuid : nat -> string;
  db_NOW : Z
}.

Definition record_call (c : Call) (w : World) : World :=
  {| objects := objects w; rows := rows w; cache := cache w;
     published := published w; calls := calls w ++ [c]; logs := logs w;
     db_seq := db_seq w |}.

Definition set_objects (o : gmap string Object) (w : World) : World :=
  {| objects := o; rows := rows w; cache := cache w;
     published := published w; calls := calls w; logs := logs w;
     db_seq := db_seq w |}.

Definition set_rows (r : gmap string Asset) (n : nat) (w : World) : World :=
  {| objects := objects w; rows := r; cache := cache w;
     published := published w; calls := calls w; logs := logs w;
     db_seq := n |}.

Definition set_cache (c : gmap string Asset) (w : World) : World :=
  {| objects := objects w; rows := rows w; cache := c;
     published := published w; calls := calls w; logs := logs w;
     db_seq := db_seq w |}.

Definition add_published (e : string * string) (w : World) : World :=
  {| objects := objects w; rows := rows w; cache := cache w;
     published := published w ++ [e]; calls := calls w; logs := logs w;
     db_seq := db_seq w |}.

Definition add_log (l : Level) (msg : string) (w : World) : World :=
  {| objects := objects w; rows := rows w; cache := cache w;
     published := published w; calls := calls w; logs := logs w ++ [(l, msg)];
     db_seq := db_seq w |}.

Module minio.

(** [strings.TrimPrefix(key, "/")] *)
Definition TrimPrefix_slash (key : string) : string :=
  match key with
  | String c rest => if Ascii.eqb c "/"%char then rest else key
  | EmptyString => key
  end.

Definition generateFileURL (b : Backend) (key : string) : string :=
  let protocol := if UseSSL b then "https" else "http" in
  protocol +:+ "://" +:+ Endpoint b +:+ "/" +:+ bucketName b +:+ "/"
    +:+ TrimPrefix_slash key.

Definition UploadFile (b : Backend) (key : string) (data : bytes)
    (contentType : string) (w : World) : (error + string) * World :=
  let w := add_log LInfo "Uploading file to MinIO" w in
  let w := record_call (call_UploadFile key) w in
  match faults b PutObject with
  | Some err =>
    (inl (NewDomainError UnableToUploadError "failed to upload file" (Some err)),
     add_log LError "Failed to upload file to MinIO" w)
  | None =>
    (inr (generateFileURL b key),
     add_log LInfo "File uploaded successfully"
       (set_objects
          (<[key := {| obj_data := data; obj_content_type := contentType |}]>
             (objects w)) w))
  end.

Definition DeleteFile (b : Backend) (key : string) (w : World)
    : option error * World :=
  let w := add_log LInfo "Deleting file from MinIO" w in
  let w := record_call (call_DeleteFile key) w in
  match faults b RemoveObject with
  | Some err =>
    (Some (NewDomainError UnableToDeleteError "failed to delete file" (Some err)),
     add_log LError "Failed to delete file from MinIO" w)
  | None =>
    (None, add_log LInfo "File deleted successfully"
             (set_objects (delete key (objects w)) w))
  end.

Definition service (b : Backend) : ports.StoragesService World :=
  {| ports.UploadFile := UploadFile b; ports.DeleteFile := DeleteFile b |}.

End minio.

Module postgres.

(** A row is visible to the queries when [active = true AND deleted_at IS
    NULL]. *)
Definition visible (a : Asset) : bool :=
  Active a && match DeletedAt a with None => true | Some _ => false end.

(** The row an [INSERT ... RETURNING] yields: the columns of the DTO, the
    column defaults of the migration, and [public_url] from the
    [set_public_url] trigger. *)
Definition inserted_row (b : Backend) (id : string) (dto : CreateAssetDto)
    : Asset :=
  {| ID := id;
     URL := dto_URL dto;
     PublicURL := "/assets/" +:+ id;
     Filename := dto_Filename dto;
     FileSize := dto_FileSize dto;
     Metadata := dto_Metadata dto;
     Secure := dto_Secure dto;
     StorageKey := dto_StorageKey dto;
     StorageProvider := dto_StorageProvider dto;
     ResourceID := dto_ResourceID dto;
     ResourceType := dto_ResourceType dto;
     ContentType := dto_ContentType dto;
     UserID := dto_UserID dto;
     AccessLevel := dto_AccessLevel dto;
     AllowedRoles := dto_AllowedRoles dto;
     IsEncrypted := dto_IsEncrypted dto;
     EncryptionKey := dto_EncryptionKey dto;
     LastAccessedAt := None;
     DeletedAt := None;
     Tags := dto_Tags dto;
     CreatedAt := db_NOW b;
     UpdatedAt := db_NOW b;
     Active := true;
     FileHash := dto_FileHash dto |}.

Definition CreateAsset (b : Backend) (asset : CreateAssetDto) (w : World)
    : (error + Asset) * World :=
  let w := record_call (call_CreateAsset (dto_StorageKey asset)) w in
  match faults b SqlInsert with
  | Some err =>
    (inl (fmt_Errorf_w "failed to create asset" err),
     add_log LError "Failed to create asset" w)
  | None =>
    let id := gen_random_uuid b (db_seq w) in
    match rows w !! id with
    | Some _ =>
      (inl (fmt_Errorf_w "failed to create asset"
              (client_error "pq" "duplicate key value")),
       add_log LError "Failed to create asset" w)
    | None =>
      let row := inserted_row b id asset in
      (inr row, set_rows (<[id := row]> (rows w)) (Datatypes.S (db_seq w)) w)
    end
  end.

Definition GetAssetByID (b : Backend) (assetID : string) (w : World)
    : (error + Asset) * World :=
  let w := record_call (call_GetAssetByID assetID) w in
  match faults b SqlSelect with
  | Some err =>
    (inl (fmt_Errorf_w "failed to get asset" err),
     add_log LError "Failed to get asset by ID" w)
  | None =>
    match rows w !! assetID with
    | Some a => if visible a then (inr a, w)
                else (inl (errors_New "asset not found"), w)
    | None => (inl (errors_New "asset not found"), w)
    end
  end.

Definition soft_deleted (b : Backend) (a : Asset) : Asset :=
  {| ID := ID a; URL := URL a; PublicURL := PublicURL a;
     Filename := Filename a; FileSize := FileSize a; Metadata := Metadata a;
     Secure := Secure a; StorageKey := StorageKey a;
     StorageProvider := StorageProvider a; ResourceID := ResourceID a;
     ResourceType := ResourceType a; ContentType := ContentType a;
     UserID := UserID a; AccessLevel := AccessLevel a;
     AllowedRoles := AllowedRoles a; IsEncrypted := IsEncrypted a;
     EncryptionKey := EncryptionKey a; LastAccessedAt := LastAccessedAt a;
     DeletedAt := Some (db_NOW b); Tags := Tags a; CreatedAt := CreatedAt a;
     UpdatedAt := db_NOW b; Active := Active a; FileHash := FileHash a |}.

Definition DeleteAsset (b : Backend) (assetID : string) (w : World)
    : option error * World :=
  let w := record_call (call_DeleteAsset assetID) w in
  match faults b SqlUpdate with
  | Some err =>
    (Some (fmt_Errorf_w "failed to delete asset" err),
     add_log LError "Failed to delete asset" w)
  | None =>
    match rows w !! assetID with
    | Some a =>
      if visible a
      then (None, set_rows (<[assetID := soft_deleted b a]> (rows w)) (db_seq w) w)
      else (Some (errors_New "asset not found"), w)
    | None => (Some (errors_New "asset not found"), w)
    end
  end.

Definition repository (b : Backend) : ports.AssetsRepository World :=
  {| ports.CreateAsset := CreateAsset b;
     ports.GetAssetByID := GetAssetByID b;
     ports.DeleteAsset := DeleteAsset b |}.

End postgres.

Module redis.

(** Modelled from the spec: the Redis cache adapter
    ([redis.NewRedisCacheService]) is not among the sources; section 6 of
    the specification gives its contract, [set(key, value, ttl) -> () |
    error], [get(key, &dest) -> () | Miss | error], [delete(key) -> () |
    error]. A miss is reported as an error, a TTL of 0 never expires. *)
Definition Set_ (b : Backend) (key : string) (value : Asset) (ttl : Z)
    (w : World) : option error * World :=
  let w := record_call (call_cache_Set key) w in
  match faults b RedisSet with
  | Some err => (Some err, w)
  | None => (None, set_cache (<[key := value]> (cache w)) w)
  end.

(** Modelled from the spec: [get(key, &dest) -> () | Miss | error] of the
    Redis cache adapter, which is not among the sources. *)
Definition Get (b : Backend) (key : string) (w : World)
    : (error + Asset) * World :=
  let w := record_call (call_cache_Get key) w in
  match faults b RedisGet with
  | Some err => (inl err, w)
  | None =>
    match cache w !! key with
    | Some a => (inr a, w)
    | None => (inl (errors_New "cache miss"), w)
    end
  end.

(** Modelled from the spec: [delete(key) -> () | error] of the Redis
    cache adapter, which is not among the sources. *)
Definition Delete (b : Backend) (key : string) (w : World)
    : option error * World :=
  let w := record_call (call_cache_Delete key) w in
  match faults b RedisDel with
  | Some err => (Some err, w)
  | None => (None, set_cache (delete key (cache w)) w)
  end.

Definition service (b : Backend) : ports.CacheService World :=
  {| ports.Set_ := Set_ b; ports.Get := Get b; ports.Delete := Delete b |}.

End redis.

Module world.

Definition log_service : ports.Logger World := {| ports.Log := add_log |}.

(** Modelled from the spec: [PublishAvatarUpdated] is declared in
    [ports.EventPublisher] and its body is not among the sources;
    [publish(topic, envelope) -> () | error]. *)
Definition PublishAvatarUpdated (b : Backend) (userID avatarURL : string)
    (w : World) : option error * World :=
  let w := record_call (call_PublishAvatarUpdated userID avatarURL) w in
  match faults b KafkaWrite with
  | Some err => (Some (fmt_Errorf_w "failed to publish event" err), w)
  | None => (None, add_published (userID, avatarURL) w)
  end.

Definition publisher (b : Backend) : ports.EventPublisher World :=
  {| ports.PublishAvatarUpdated := PublishAvatarUpdated b |}.

(** [NewAssetsService(assetsRepo, storageService, cacheService, logger)] *)
Definition NewAssetsService (b : Backend) : AssetsService World :=
  {| assetsRepo := postgres.repository b;
     storageService := minio.service b;
     cacheService := redis.service b;
     logger := log_service |}.

(** The calls an operation adds to the record. *)
Definition new_calls (before after : World) : list Call :=
  drop (length (calls before)) (calls after).

(** The three stores. *)
Definition stores (w : World)
    : gmap string Object * gmap string Asset * gmap string Asset :=
  (objects w, rows w, cache w).

Definition is_storage_delete (c : Call) : bool :=
  match c with call_DeleteFile _ => true | _ => false end.
Definition is_repo_delete (c : Call) : bool :=
  match c with call_DeleteAsset _ => true | _ => false end.

(** [preceded_by p q false l]: every call of [l] that satisfies [q] has a
    call that satisfies [p] strictly before it ([seen] tells whether one
    was met already). *)
Fixpoint preceded_by (p q : Call -> bool) (seen : bool) (l : list Call)
    : bool :=
  match l with
  | [] => true
  | c :: l' =>
    (if q c then seen else true) && preceded_by p q (seen || p c) l'
  end.

End world.

(** ** The gRPC entry point (src/unnamed/part_005) *)

Module grpc.

Record UploadAssetRequest : Type := {
  req_Filename : string;
  req_ContentType : string;
  req_UserId : string;
  req_FileData : bytes;
  req_ResourceId : string;
  req_ResouceType : string;
  req_Metadata : option string
}.

Section server.
Context {S : Type}.
Variable logger : ports.Logger S.
(** [ports.AssetsService.UploadAsset] *)
Variable UploadAsset : CreateAssetDto -> bytes -> S -> result Asset * S.

Definition createDto (req : UploadAssetRequest) : CreateAssetDto :=
  {| dto_Filename := req_Filename req;
     dto_ContentType := req_ContentType req;
     dto_FileSize := Z.of_nat (length (req_FileData req));
     dto_UserID := Some (req_UserId req);
     dto_Metadata := default "" (req_Metadata req);
     dto_Secure := false;
     dto_Tags := [];
     dto_AccessLevel := "private";
     dto_AllowedRoles := [];
     dto_IsEncrypted := false;
     dto_EncryptionKey := None;
     dto_StorageProvider := None;
     dto_ResourceID :=
       if String.eqb (req_ResourceId req) "" then None
       else Some (req_ResourceId req);
     dto_ResourceType :=
       if String.eqb (req_ResouceType req) "" then None
       else Some (req_ResouceType req);
     dto_URL := ""; dto_PublicURL := None; dto_FileHash := "";
     dto_StorageKey := None |}.

(** [Server.UploadAsset]: the request is validated before the service is
    called. The request's metadata map is taken as already marshalled
    ([json.Marshal] of a string map does not fail). *)
Definition Server_UploadAsset (req : UploadAssetRequest) (w : S)
    : result Asset * S :=
  let w := ports.Log logger LInfo "gRPC UploadAsset called" w in
  if String.eqb (req_Filename req) "" || String.eqb (req_UserId req) ""
     || Nat.eqb (length (req_FileData req)) 0
  then (Err (status_Errorf "InvalidArgument"
               "filename, user_id, and file_data are required"), w)
  else
    let w := ports.Log logger LInfo "Resource2" w in
    let '(r, w) := UploadAsset (createDto req) (req_FileData req) w in
    match r with
    | Err err =>
      let w := ports.Log logger LError "Failed to upload asset" w in
      (Err (status_Errorf_v "Internal" "failed to upload asset" err), w)
    | Panic m => (Panic m, w)
    | Ok asset => (Ok asset, w)
    end.

End server.

End grpc.

(** ** [internal/core/events] *)

Module events.

Record UserCreatedEvent : Type := {
  uc_UserID : string;
  uc_Name : string;
  uc_Email : option string;
  uc_Phone : option string;
  uc_Locale : option string;
  uc_Country : option string;
  uc_DeviceID : option string;
  uc_NotificationToken : option string;
  uc_UserType : string
}.

End events.

(** ** [internal/adapters/kafka]: event consumer and event handlers *)

Module kafka.

(** [kafka.Message] *)
Record Message : Type := {
  Topic : string;
  Partition : Z;
  Offset : Z;
  Value : bytes;
  Time : Z
}.

(** [ports.EventHandler]: [Handle(ctx, event) error] over the state [A] the
    handlers act on. *)
Record EventHandler (A : Type) : Type := {
  Handle : DomainEvent -> A -> result unit * A
}.
Arguments Handle {A} _ _ _.

(** What [reader.FetchMessage] returns: a message, [context.Canceled], or
    another error. *)
Inductive Fetch : Type :=
| Fetched (m : Message)
| Canceled
| FetchFailed (err : error).

(** The [kafka.Reader] of one topic together with the consumer's context,
    over a state [R] the handlers have no access to. *)
Record Reader (R : Type) : Type := {
  Done : R -> bool;
  FetchMessage : R -> Fetch * R;
  CommitMessages : Message -> R -> option error * R
}.
Arguments Done {R} _ _.
Arguments FetchMessage {R} _ _.
Arguments CommitMessages {R} _ _ _.

(** [EventConsumer]: the handler registry and the logger. *)
Record EventConsumer (A : Type) : Type := {
  handlers : gmap EventType (EventHandler A);
  c_logger : ports.Logger A
}.
Arguments handlers {A} _.
Arguments c_logger {A} _.

(** [RegisterHandler] *)
Definition RegisterHandler {A : Type} (eventType : EventType)
    (handler : EventHandler A) (c : EventConsumer A) : EventConsumer A :=
  {| handlers := <[eventType := handler]> (handlers c);
     c_logger := c_logger c |}.

Section consumer.
Context {A R : Type}.
(** [json.Unmarshal(message.Value, &domainEvent)] *)
Variable json_Unmarshal : bytes -> error + DomainEvent.
Variable c : EventConsumer A.
Variable reader : Reader R.

(** [handleMessage] *)
Definition handleMessage (message : Message) (a : A) : result unit * A :=
  let a := ports.Log (c_logger c) LInfo "Received message" a in
  match json_Unmarshal (Value message) with
  | inl err =>
    let a := ports.Log (c_logger c) LError "Failed to unmarshal domain event" a in
    (Err (fmt_Errorf_w "failed to unmarshal domain event" err), a)
  | inr domainEvent =>
    let a := ports.Log (c_logger c) LInfo "Parsed domain event" a in
    match handlers c !! ev_Type domainEvent with
    | None =>
      let a := ports.Log (c_logger c) LInfo "No handler found for event type" a in
      (Ok tt, a)
    | Some handler =>
      let a := ports.Log (c_logger c) LInfo "Handling event" a in
      let '(r, a) := Handle handler domainEvent a in
      match r with
      | Err err =>
        (Err (fmt_Errorf_w ("handler failed for event " +:+ ev_Type domainEvent)
                err), a)
      | Panic m => (Panic m, a)
      | Ok _ =>
        let a := ports.Log (c_logger c) LInfo "Event handled successfully" a in
        (Ok tt, a)
      end
    end
  end.

(** How one pass through the body of the [for] loop of [consumeMessages]
    ends: the loop goes on, the goroutine returns, or a handler panic
    takes the process down. *)
Inductive Step : Type :=
| Continue
| Returned
| Crashed (reason : string).

(** One pass through the loop body. [time.Sleep] after a failed fetch
    leaves the state as it is. *)
Definition iteration (st : A * R) : Step * (A * R) :=
  let '(a, r) := st in
  if Done reader r then
    (Returned, (ports.Log (c_logger c) LInfo "Stopping message consumption" a, r))
  else
    let '(f, r) := FetchMessage reader r in
    match f with
    | Canceled => (Returned, (a, r))
    | FetchFailed err =>
      (Continue, (ports.Log (c_logger c) LError "Failed to fetch message" a, r))
    | Fetched message =>
      let '(h, a) := handleMessage message a in
      match h with
      | Err err =>
        (Continue, (ports.Log (c_logger c) LError "Failed to handle message" a, r))
      | Panic m => (Crashed m, (a, r))
      | Ok _ =>
        let '(cerr, r) := CommitMessages reader message r in
        let a := match cerr with
                 | Some _ => ports.Log (c_logger c) LError
                               "Failed to commit message" a
                 | None => a
                 end in
        (Continue, (a, r))
      end
    end.

(** [consumeMessages]: the loop, run for at most [fuel] passes. *)
Fixpoint consumeMessages (fuel : nat) (st : A * R) : Step * (A * R) :=
  match fuel with
  | O => (Continue, st)
  | Datatypes.S fuel' =>
    match iteration st with
    | (Continue, st') => consumeMessages fuel' st'
    | stop => stop
    end
  end.

End consumer.

(** The calls made on the reader. *)
Inductive ReaderCall : Type :=
| call_Fetch
| call_Commit (m : Message).

(** Modelled from the spec: the [kafka.Reader] is a client of the broker
    and not part of the sources. Section 4.2 of the specification gives
    the contract the dispatcher relies on: fetch blocks for the next
    message, a message that is not committed is fetched again from the
    same un-advanced offset, a commit advances the offset past the
    message. [pending] holds the messages of the partition, [committed]
    the committed offset as an index into it, [fetch_errors] the transient
    fetch errors still to come, [commit_fault] the error of a failing
    commit, [reads] the calls made, oldest first. *)
Record ReaderState : Type := {
  pending : list Message;
  committed : nat;
  cancelled : bool;
  fetch_errors : list error;
  commit_fault : option error;
  reads : list ReaderCall
}.

(** Modelled from the spec: [FetchMessage] of the reader. It delivers
    the message at the committed offset and does not advance. When the
    context is cancelled, or when no message is left (the call then
    blocks until the context is cancelled), it returns
    [context.Canceled]. *)
Definition mem_Fetch (r : ReaderState) : Fetch * ReaderState :=
  if cancelled r then
    (Canceled,
     {| pending := pending r; committed := committed r; cancelled := true;
        fetch_errors := fetch_errors r; commit_fault := commit_fault r;
        reads := reads r ++ [call_Fetch] |})
  else
    match fetch_errors r with
    | err :: rest =>
      (FetchFailed err,
       {| pending := pending r; committed := committed r; cancelled := false;
          fetch_errors := rest; commit_fault := commit_fault r;
          reads := reads r ++ [call_Fetch] |})
    | [] =>
      match pending r !! committed r with
      | Some m =>
        (Fetched m,
         {| pending := pending r; committed := committed r;
            cancelled := false; fetch_errors := [];
            commit_fault := commit_fault r;
            reads := reads r ++ [call_Fetch] |})
      | None =>
        (Canceled,
         {| pending := pending r; committed := committed r;
            cancelled := true; fetch_errors := [];
            commit_fault := commit_fault r;
            reads := reads r ++ [call_Fetch] |})
      end
    end.

(** Modelled from the spec: [CommitMessages] of the reader. It moves the
    committed offset past the message unless the commit itself fails. *)
Definition mem_Commit (m : Message) (r : ReaderState)
    : option error * ReaderState :=
  match commit_fault r with
  | Some err =>
    (Some err,
     {| pending := pending r; committed := committed r;
        cancelled := cancelled r; fetch_errors := fetch_errors r;
        commit_fault := commit_fault r;
        reads := reads r ++ [call_Commit m] |})
  | None =>
    (None,
     {| pending := pending r; committed := Datatypes.S (Z.to_nat (Offset m));
        cancelled := cancelled r; fetch_errors := fetch_errors r;
        commit_fault := commit_fault r;
        reads := reads r ++ [call_Commit m] |})
  end.

Definition mem_reader : Reader ReaderState :=
  {| Done := cancelled; FetchMessage := mem_Fetch; CommitMessages := mem_Commit |}.

Definition new_reads (before after : ReaderState) : list ReaderCall :=
  drop (length (reads before)) (reads after).

Definition is_commit_of (m : Message) (c : ReaderCall) : Prop :=
  c = call_Commit m.

End kafka.

(** ** The event handlers (second part of src/internal/adapters/logger/logger.go,
    package [kafka]) *)

Module handlers.

Section handler.
Context {S : Type}.
(** The fields of [AssetsHandler]; of [ports.AssetsService] the handler
    uses [UploadAsset] only. *)
Variable UploadAsset : CreateAssetDto -> bytes -> S -> result Asset * S.
Variable eventPublisher : ports.EventPublisher S.
Variable logger : ports.Logger S.
(** [domain.EventTypeUserCreated] and [domain.GetDefaultAvatar()] are
    declared outside the sources at hand. *)
Variable EventTypeUserCreated : EventType.
Variable GetDefaultAvatar : bytes.
(** [json.Marshal(event.Data)] and [json.Unmarshal(data,
    &userCreatedEvent)] *)
Variable json_Marshal : string -> error + bytes.
Variable json_Unmarshal : bytes -> error + events.UserCreatedEvent.

(** The JSON text [{"description":"Welcome avatar for new user"}]. *)
Definition welcome_metadata : string :=
  let q := String (Ascii.ascii_of_nat 34) EmptyString in
  "{" +:+ q +:+ "description" +:+ q +:+ ":" +:+ q
    +:+ "Welcome avatar for new user" +:+ q +:+ "}".

Definition createDto (userID : string) (fileData : bytes) : CreateAssetDto :=
  {| dto_Filename := "avatar.png";
     dto_ContentType := "image/png";
     dto_FileSize := Z.of_nat (length fileData);
     dto_UserID := Some userID;
     dto_Metadata := welcome_metadata;
     dto_Secure := false;
     dto_Tags := [];
     dto_AccessLevel := "public";
     dto_AllowedRoles := [];
     dto_IsEncrypted := false;
     dto_EncryptionKey := None;
     dto_StorageProvider := None;
     dto_ResourceID := None;
     dto_ResourceType := Some "users";
     dto_URL := ""; dto_PublicURL := None; dto_FileHash := "";
     dto_StorageKey := None |}.

(** [handleUserCreated] *)
Definition handleUserCreated (event : DomainEvent) (w : S) : result unit * S :=
  let w := ports.Log logger LInfo "Processing user created event" w in
  match json_Marshal (ev_Data event) with
  | inl err =>
    (Err err, ports.Log logger LError "Failed to marshal event data" w)
  | inr data =>
    match json_Unmarshal data with
    | inl err =>
      (Err err, ports.Log logger LError "Failed to unmarshal event data" w)
    | inr userCreatedEvent =>
      if String.eqb (events.uc_UserID userCreatedEvent) "" then
        (Ok tt, ports.Log logger LError "User created event missing UserID" w)
      else
        let w := ports.Log logger LInfo
                   "User created event processed successfully" w in
        let fileData := GetDefaultAvatar in
        let dto := createDto (events.uc_UserID userCreatedEvent) fileData in
        let '(up, w) := UploadAsset dto fileData w in
        match up with
        | Panic m => (Panic m, w)
        | Err err =>
          let w := ports.Log logger LError "Failed to upload asset" w in
          (Err (status_Errorf_v "Internal" "failed to upload asset" err), w)
        | Ok asset =>
          let '(perr, w) := ports.PublishAvatarUpdated eventPublisher
                              (events.uc_UserID userCreatedEvent) (URL asset) w in
          match perr with
          | Some err =>
            let w := ports.Log logger LError
                       "Failed to publish avatar updated event" w in
            (Err (status_Errorf_v "Internal"
                    "failed to publish avatar updated event" err), w)
          | None =>
            (Ok tt, ports.Log logger LInfo
                      "Welcome avatar asset created successfully" w)
          end
        end
    end
  end.

(** [AssetsHandler.Handle] *)
Definition Handle (event : DomainEvent) (w : S) : result unit * S :=
  let w := ports.Log logger LInfo "Handling events" w in
  if String.eqb (ev_Type event) EventTypeUserCreated then
    let '(r, w) := handleUserCreated event w in
    match r with
    | Err err =>
      (Err err, ports.Log logger LError "Failed to handle user created event" w)
    | Panic m => (Panic m, w)
    | Ok _ =>
      (Ok tt, ports.Log logger LInfo "User created event handled successfully" w)
    end
  else
    (Ok tt, ports.Log logger LDebug "Unhandled activity log event type" w).

Definition assetsHandler : kafka.EventHandler S := {| kafka.Handle := Handle |}.

(** [EventHandlers.RegisterHandlers] *)
Definition RegisterHandlers (consumer : kafka.EventConsumer S)
    : kafka.EventConsumer S :=
  kafka.RegisterHandler EventTypeUserCreated assetsHandler consumer.

End handler.

End handlers.

(** ** Concrete inputs used by the examples below *)

Module fixtures.

Definition rt0 : Runtime :=
  {| time_Now_Unix := 1700000000;
     uuid_New := "0b8f3c1e";
     sha256_hex := fun data => "sha256-of-" +:+ pretty (length data) +:+ "-bytes";
     custom_metadata_ok := fun _ => true;
     marshal_metadata := fun hash ts key custom => inr ("{meta:" +:+ key +:+ "}") |}.

Definition backend (f : Port -> option error) : Backend :=
  {| faults := f;
     UseSSL := false;
     Endpoint := "minio:9000";
     bucketName := "assets";
     gen_random_uuid := fun n => "row-" +:+ pretty n;
     db_NOW := 1700000005 |}.

Definition no_fault : Port -> option error := fun _ => None.

Definition broken (p : Port) : error :=
  match p with
  | PutObject | RemoveObject => client_error "minio" "connection refused"
  | SqlInsert | SqlSelect | SqlUpdate => client_error "pq" "connection reset"
  | RedisSet | RedisGet | RedisDel => client_error "redis" "i/o timeout"
  | KafkaWrite => client_error "kafka" "leader not available"
  end.

(** The ports of [ps] fail, the others work. *)
Definition failing (ps : list Port) : Port -> option error :=
  fun p =>
    if existsb (fun q => match p, q with
                         | PutObject, PutObject | RemoveObject, RemoveObject
                         | SqlInsert, SqlInsert | SqlSelect, SqlSelect
                         | SqlUpdate, SqlUpdate | RedisSet, RedisSet
                         | RedisGet, RedisGet | RedisDel, RedisDel
                         | KafkaWrite, KafkaWrite => true
                         | _, _ => false
                         end) ps
    then Some (broken p) else None.

Definition empty_world : World :=
  {| objects := ∅; rows := ∅; cache := ∅; published := []; calls := [];
     logs := []; db_seq := 0 |}.

(** A 12-byte payload. *)
Definition payload : bytes :=
  [x89; x50; x4e; x47; x0d; x0a; x1a; x0a; x00; x00; x00; x0d]%byte.

Definition request (filename contentType : string)
    (resourceType resourceID owner : option string) : CreateAssetDto :=
  {| dto_URL := ""; dto_PublicURL := None; dto_Filename := filename;
     dto_FileSize := 12; dto_Metadata := ""; dto_Secure := false;
     dto_FileHash := ""; dto_StorageKey := None; dto_StorageProvider := None;
     dto_ResourceID := resourceID; dto_ResourceType := resourceType;
     dto_ContentType := contentType; dto_UserID := owner;
     dto_AccessLevel := "public"; dto_AllowedRoles := [];
     dto_IsEncrypted := false; dto_EncryptionKey := None; dto_Tags := [] |}.

(** The scenario of the specification: [avatar.png], no resource
    association. *)
Definition avatar_request : CreateAssetDto :=
  request "avatar.png" "image/png" None None None.

Definition document_request : CreateAssetDto :=
  request "report.pdf" "application/pdf" (Some "orders") (Some "42") (Some "alice").

(** A request with an empty filename and an empty content-type. *)
Definition blank_request : CreateAssetDto :=
  request "" "" (Some "orders") (Some "42") (Some "alice").

(** A key method and a metadata method for the second implementation. *)
Definition GetStoreKey (dto : CreateAssetDto) : string :=
  "k/" +:+ dto_Filename dto.
Definition GetMetadata (dto : CreateAssetDto) (key hash : string) : string :=
  "{meta:" +:+ key +:+ "}".

(** An example codec for message bodies and event data: a body is the
    event type, followed for a user-created event by a colon and the
    user id; the data of a user-created event is the user id. *)
Definition text (s : string) : bytes := list_byte_of_string s.

Definition event (type data : string) : DomainEvent :=
  {| ev_ID := "evt-1"; ev_Type := type; ev_AggregateID := "agg-1";
     ev_Version := 1; ev_Data := data;
     ev_Metadata := {| Source := "users-service"; CorrelationID := "corr-1";
                       CausationID := "cause-1"; meta_UserID := "" |};
     ev_Timestamp := 1700000000 |}.

Definition json_Unmarshal_event (body : bytes) : error + DomainEvent :=
  let s := string_of_list_byte body in
  if String.eqb s "user.created:" then inr (event "user.created" "")
  else if String.eqb s "user.created:user-1"
       then inr (event "user.created" "user-1")
  else if String.eqb s "order.created" then inr (event "order.created" "")
  else inl (errors_New "invalid character looking for beginning of value").

Definition json_Marshal (data : string) : error + bytes := inr (text data).

Definition json_Unmarshal_user (data : bytes) : error + events.UserCreatedEvent :=
  inr {| events.uc_UserID := string_of_list_byte data; events.uc_Name := "";
         events.uc_Email := None; events.uc_Phone := None;
         events.uc_Locale := None; events.uc_Country := None;
         events.uc_DeviceID := None; events.uc_NotificationToken := None;
         events.uc_UserType := "customer" |}.

Definition message (offset : Z) (body : string) : kafka.Message :=
  {| kafka.Topic := "users.events"; kafka.Partition := 0;
     kafka.Offset := offset; kafka.Value := text body;
     kafka.Time := 1700000000 |}.

(** A reader with three messages and nothing committed: a user-created
    event without user id, a body that does not parse, and a
    user-created event for [user-1]. *)
Definition reader0 : kafka.ReaderState :=
  {| kafka.pending := [message 0 "user.created:"; message 1 "{";
                       message 2 "user.created:user-1"];
     kafka.committed := 0; kafka.cancelled := false;
     kafka.fetch_errors := []; kafka.commit_fault := None;
     kafka.reads := [] |}.

End fixtures.

(** ** The two implementations over the in-memory world *)

Module run.

Definition upload1 (b : Backend) (rt : Runtime) (createDto : CreateAssetDto)
    (fileData : bytes) (w : World) : result Asset * World :=
  assets_service.UploadAsset (world.NewAssetsService b) rt createDto fileData w.

Definition get1 (b : Backend) (assetID : string) (w : World)
    : result Asset * World :=
  assets_service.GetAssetByID (world.NewAssetsService b) assetID w.

Definition delete1 (b : Backend) (assetID userID : string) (w : World)
    : result unit * World :=
  assets_service.DeleteAsset (world.NewAssetsService b) assetID userID w.

Definition upload2 (b : Backend) (rt : Runtime)
    (GetStoreKey : CreateAssetDto -> string)
    (GetMetadata : CreateAssetDto -> string -> string -> string)
    (createDto : CreateAssetDto) (fileData : bytes) (w : World)
    : result Asset * World :=
  part_008.UploadAsset (world.NewAssetsService b) rt GetStoreKey GetMetadata
    createDto fileData w.

Definition get2 (b : Backend) (assetID : string) (w : World)
    : result Asset * World :=
  part_008.GetAssetByID (world.NewAssetsService b) assetID w.

Definition delete2 (b : Backend) (assetID userID : string) (w : World)
    : result unit * World :=
  part_008.DeleteAsset (world.NewAssetsService b) assetID userID w.

(** The gRPC entry point in front of the second implementation. *)
Definition grpc_upload2 (b : Backend) (rt : Runtime)
    (GetStoreKey : CreateAssetDto -> string)
    (GetMetadata : CreateAssetDto -> string -> string -> string)
    (req : grpc.UploadAssetRequest) (w : World) : result Asset * World :=
  grpc.Server_UploadAsset world.log_service
    (upload2 b rt GetStoreKey GetMetadata) req w.

End run.

(** ** A world with one uploaded asset *)

Module scenario.

(** The upload of [fixtures.document_request] by the second
    implementation into the empty world, nothing failing. *)
Definition uploaded : result Asset * World :=
  run.upload2 (fixtures.backend fixtures.no_fault) fixtures.rt0
    fixtures.GetStoreKey fixtures.GetMetadata fixtures.document_request
    fixtures.payload fixtures.empty_world.

Definition after_upload : World := snd uploaded.

(** The row it created: id [row-0], owner [alice], key [k/report.pdf]. *)
Definition report : Asset :=
  postgres.inserted_row (fixtures.backend fixtures.no_fault) "row-0"
    (part_008.assetDto fixtures.document_request "k/report.pdf"
       "http://minio:9000/assets/k/report.pdf" "{meta:k/report.pdf}"
       "sha256-of-12-bytes" 12).

(** The same world with an empty cache. *)
Definition cold : World := set_cache ∅ after_upload.

(** The consumer as the event handlers register with it, in front of
    either implementation of the service. *)
Definition consumer
    (UploadAsset : CreateAssetDto -> bytes -> World -> result Asset * World)
    : kafka.EventConsumer World :=
  handlers.RegisterHandlers UploadAsset
    (world.publisher (fixtures.backend fixtures.no_fault)) world.log_service
    "user.created" fixtures.payload fixtures.json_Marshal
    fixtures.json_Unmarshal_user
    {| kafka.handlers := ∅; kafka.c_logger := world.log_service |}.

Definition consumer1 : kafka.EventConsumer World :=
  consumer (run.upload1 (fixtures.backend fixtures.no_fault) fixtures.rt0).

Definition consumer2 : kafka.EventConsumer World :=
  consumer (run.upload2 (fixtures.backend fixtures.no_fault) fixtures.rt0
              fixtures.GetStoreKey fixtures.GetMetadata).

End scenario.

(** ** Predicates used in the statements *)

Module outcome.

(** What an upload whose metadata write failed with [e] leaves behind:
    the error returned, the calls made, no new row, and the object under
    [key] according to the outcome of the compensating delete. *)
Definition compensated (b : Backend) (w : World) (e : error)
    (createDto : CreateAssetDto) (fileData : bytes) (key : string)
    (r : result Asset * World) : Prop :=
  fst r = Err (DomainError UnableToMarshalError "Failed to save asset metadata"
                 (fmt_Errorf_w "failed to create asset" e)) /\
  world.new_calls w (snd r)
  = [call_UploadFile key; call_CreateAsset (Some key); call_DeleteFile key] /\
  rows (snd r) = rows w /\
  (faults b RemoveObject = None -> objects (snd r) !! key = None) /\
  (forall d, faults b RemoveObject = Some d ->
     objects (snd r) !! key
     = Some {| obj_data := fileData;
               obj_content_type := dto_ContentType createDto |} /\
     (LError, "Failed to rollback file upload") ∈ logs (snd r)).

(** A refused delete: the unauthorized error, the repository read as the
    only call, and the three stores as they were. *)
Definition refused (w : World) (assetID : string) (r : result unit * World)
    : Prop :=
  fst r = Err (DomainError UnauthorizedError "Asset does not belong to user"
                 (errors_New "Asset not found")) /\
  world.new_calls w (snd r) = [call_GetAssetByID assetID] /\
  world.stores (snd r) = world.stores w.

(** A delete aborted by the object store: the storage-delete error, the
    repository read and the storage delete as the only calls, the table
    as it was, and the row still returned by the repository. *)
Definition storage_delete_failed (b : Backend) (w : World)
    (assetID key : string) (asset : Asset) (d : error)
    (r : result unit * World) : Prop :=
  fst r = Err (DomainError UnableToDeleteError "Failed to delete file from storage"
                 (DomainError UnableToDeleteError "failed to delete file" d)) /\
  world.new_calls w (snd r) = [call_GetAssetByID assetID; call_DeleteFile key] /\
  rows (snd r) = rows w /\
  cache (snd r) = cache w /\
  fst (postgres.GetAssetByID b assetID (snd r)) = inr asset.

(** The requesting user passes the ownership check of [DeleteAsset]. *)
Definition owner_ok (asset : Asset) (userID : string) : Prop :=
  UserID asset = None \/ UserID asset = Some userID.

(** The row [id] is present and visible to the queries. *)
Definition stored (w : World) (assetID : string) (asset : Asset) : Prop :=
  rows w !! assetID = Some asset /\ postgres.visible asset = true.

(** A delete that soft-deleted the row without touching the object
    store: success, the repository read and the repository delete as the
    only calls, the objects as they were, the row marked deleted. *)
Definition row_deleted_object_kept (b : Backend) (w : World)
    (assetID : string) (asset : Asset) (r : result unit * World) : Prop :=
  fst r = Ok tt /\
  world.new_calls w (snd r)
  = [call_GetAssetByID assetID; call_DeleteAsset assetID] /\
  objects (snd r) = objects w /\
  rows (snd r) !! assetID = Some (postgres.soft_deleted b asset).

(** The cache read under [key] does not serve a hit: the client fails or
    the key is absent. *)
Definition cache_missed (b : Backend) (w : World) (key : string) : Prop :=
  faults b RedisGet <> None \/ cache w !! key = None.

(** No visible row under [assetID]. *)
Definition not_stored (w : World) (assetID : string) : Prop :=
  rows w !! assetID = None \/
  exists a, rows w !! assetID = Some a /\ postgres.visible a = false.

(** A read served from the repository with no write-back: the asset, the
    cache read and the repository read as the only calls, the cache as
    it was. *)
Definition read_without_write_back (w : World) (assetID key : string)
    (asset : Asset) (r : result Asset * World) : Prop :=
  fst r = Ok asset /\
  world.new_calls w (snd r) = [call_cache_Get key; call_GetAssetByID assetID] /\
  cache (snd r) = cache w.

(** A read served from the repository and written back: the asset, the
    three calls in order, and the asset in the cache unless the cache
    write fails. *)
Definition read_with_write_back (b : Backend) (w : World)
    (assetID key : string) (asset : Asset) (r : result Asset * World) : Prop :=
  fst r = Ok asset /\
  world.new_calls w (snd r)
  = [call_cache_Get key; call_GetAssetByID assetID; call_cache_Set key] /\
  (faults b RedisSet = None -> cache (snd r) !! key = Some asset) /\
  (forall c, faults b RedisSet = Some c ->
     cache (snd r) = cache w /\ (LError, "Failed to cache asset") ∈ logs (snd r)).

(** The requests the gRPC entry point rejects. *)
Definition rejected (req : grpc.UploadAssetRequest) : Prop :=
  grpc.req_Filename req = "" \/ grpc.req_UserId req = "" \/
  grpc.req_FileData req = [].

(** An upload that starts with the object-store write under [key] and
    does not answer [invalid_input_error]. *)
Definition written_unchecked (w : World) (key : string)
    (r : result Asset * World) : Prop :=
  head (world.new_calls w (snd r)) = Some (call_UploadFile key) /\
  err_code (fst r) <> Some InvalidInputError.

(** Two backends that differ in the outcomes of the cache calls only,
    and two worlds that differ in the cache, in the record of calls and
    in the log only. *)
Definition is_cache_port (p : Port) : bool :=
  match p with
  | RedisSet | RedisGet | RedisDel => true
  | _ => false
  end.

Definition same_backend_but_cache (b1 b2 : Backend) : Prop :=
  (forall p, is_cache_port p = false -> faults b1 p = faults b2 p) /\
  UseSSL b1 = UseSSL b2 /\ Endpoint b1 = Endpoint b2 /\
  bucketName b1 = bucketName b2 /\
  gen_random_uuid b1 = gen_random_uuid b2 /\ db_NOW b1 = db_NOW b2.

Definition same_world_but_cache (w1 w2 : World) : Prop :=
  objects w1 = objects w2 /\ rows w1 = rows w2 /\ db_seq w1 = db_seq w2.

(** Two sets of ports in lockstep up to a relation [R] on their states:
    a log line on either side keeps [R], the cache keeps [R] whatever it
    is asked and whatever it answers; the object store and the
    repository keep [R] and give equal answers to equal requests. *)
Record lockstep {S1 S2 : Type} (R : S1 -> S2 -> Prop)
    (s1 : AssetsService S1) (s2 : AssetsService S2) : Prop := {
  ls_Log_l : forall l m w1 w2, R w1 w2 ->
    R (ports.Log (logger s1) l m w1) w2;
  ls_Log_r : forall l m w1 w2, R w1 w2 ->
    R w1 (ports.Log (logger s2) l m w2);
  ls_Set : forall k1 a1 t1 k2 a2 t2 w1 w2, R w1 w2 ->
    R (snd (ports.Set_ (cacheService s1) k1 a1 t1 w1))
      (snd (ports.Set_ (cacheService s2) k2 a2 t2 w2));
  ls_Get : forall k1 k2 w1 w2, R w1 w2 ->
    R (snd (ports.Get (cacheService s1) k1 w1))
      (snd (ports.Get (cacheService s2) k2 w2));
  ls_Delete : forall k1 k2 w1 w2, R w1 w2 ->
    R (snd (ports.Delete (cacheService s1) k1 w1))
      (snd (ports.Delete (cacheService s2) k2 w2));
  ls_UploadFile : forall key data ct w1 w2, R w1 w2 ->
    fst (ports.UploadFile (storageService s1) key data ct w1)
    = fst (ports.UploadFile (storageService s2) key data ct w2) /\
    R (snd (ports.UploadFile (storageService s1) key data ct w1))
      (snd (ports.UploadFile (storageService s2) key data ct w2));
  ls_DeleteFile : forall key w1 w2, R w1 w2 ->
    fst (ports.DeleteFile (storageService s1) key w1)
    = fst (ports.DeleteFile (storageService s2) key w2) /\
    R (snd (ports.DeleteFile (storageService s1) key w1))
      (snd (ports.DeleteFile (storageService s2) key w2));
  ls_CreateAsset : forall dto w1 w2, R w1 w2 ->
    fst (ports.CreateAsset (assetsRepo s1) dto w1)
    = fst (ports.CreateAsset (assetsRepo s2) dto w2) /\
    R (snd (ports.CreateAsset (assetsRepo s1) dto w1))
      (snd (ports.CreateAsset (assetsRepo s2) dto w2));
  ls_GetAssetByID : forall id w1 w2, R w1 w2 ->
    fst (ports.GetAssetByID (assetsRepo s1) id w1)
    = fst (ports.GetAssetByID (assetsRepo s2) id w2) /\
    R (snd (ports.GetAssetByID (assetsRepo s1) id w1))
      (snd (ports.GetAssetByID (assetsRepo s2) id w2));
  ls_DeleteAsset : forall id w1 w2, R w1 w2 ->
    fst (ports.DeleteAsset (assetsRepo s1) id w1)
    = fst (ports.DeleteAsset (assetsRepo s2) id w2) /\
    R (snd (ports.DeleteAsset (assetsRepo s1) id w1))
      (snd (ports.DeleteAsset (assetsRepo s2) id w2))
}.

(** Equal returned values and related states. *)
Definition agree {S1 S2 A : Type} (R : S1 -> S2 -> Prop)
    (r1 : result A * S1) (r2 : result A * S2) : Prop :=
  fst r1 = fst r2 /\ R (snd r1) (snd r2).

(** Two executions with the same returned value and the same objects
    and rows afterwards. *)
Definition same_result {A : Type} (r1 r2 : result A * World) : Prop :=
  agree same_world_but_cache r1 r2.

(** The state in which [handleMessage] invokes a handler: after its
    three log lines. *)
Definition dispatch_state {A : Type} (c : kafka.EventConsumer A) (a : A) : A :=
  ports.Log (kafka.c_logger c) LInfo "Handling event"
    (ports.Log (kafka.c_logger c) LInfo "Parsed domain event"
       (ports.Log (kafka.c_logger c) LInfo "Received message" a)).

(** Handling succeeds: the body deserializes into an envelope, and
    either no handler is registered for its type or the registered
    handler returns nil. *)
Definition handling_succeeds {A : Type}
    (json_Unmarshal : bytes -> error + DomainEvent)
    (c : kafka.EventConsumer A) (m : kafka.Message) (a : A) : Prop :=
  exists ev,
    json_Unmarshal (kafka.Value m) = inr ev /\
    (kafka.handlers c !! ev_Type ev = None \/
     exists h, kafka.handlers c !! ev_Type ev = Some h /\
               fst (kafka.Handle h ev (dispatch_state c a)) = Ok tt).

(** One pass of the consume loop over a fetched message [m]: the commit
    is attempted exactly when handling succeeded; after a handling error
    the loop goes on, the committed offset is where it was, and the next
    fetch delivers [m] again. *)
Definition commit_iff_handled {A : Type}
    (json_Unmarshal : bytes -> error + DomainEvent)
    (c : kafka.EventConsumer A) (m : kafka.Message) (a : A)
    (r : kafka.ReaderState) : Prop :=
  let h := fst (kafka.handleMessage json_Unmarshal c m a) in
  let st := kafka.iteration json_Unmarshal c kafka.mem_reader (a, r) in
  let r' := snd (snd st) in
  (h = Ok tt <-> handling_succeeds json_Unmarshal c m a) /\
  (kafka.call_Commit m ∈ kafka.new_reads r r' <-> h = Ok tt) /\
  (h = Ok tt -> kafka.commit_fault r = None ->
   kafka.committed r' = Datatypes.S (Z.to_nat (kafka.Offset m))) /\
  (forall e, h = Err e ->
     fst st = kafka.Continue /\
     kafka.new_reads r r' = [kafka.call_Fetch] /\
     kafka.committed r' = kafka.committed r /\
     fst (kafka.mem_Fetch r') = kafka.Fetched m).

(** A user-created envelope whose decoded user id is empty. *)
Definition anonymous_user_created (EventTypeUserCreated : EventType)
    (json_Marshal : string -> error + bytes)
    (json_Unmarshal : bytes -> error + events.UserCreatedEvent)
    (event : DomainEvent) : Prop :=
  ev_Type event = EventTypeUserCreated /\
  exists data uce,
    json_Marshal (ev_Data event) = inr data /\
    json_Unmarshal data = inr uce /\
    events.uc_UserID uce = "".

(** The handler treated the envelope as a no-op: [handleUserCreated] and
    [Handle] return nil, and all they did to the state is write their
    log lines. *)
Definition handled_as_no_op {S : Type} (log : ports.Logger S) (w : S)
    (inner outer : result unit * S) : Prop :=
  inner
  = (Ok tt,
     ports.Log log LError "User created event missing UserID"
       (ports.Log log LInfo "Processing user created event"
          (ports.Log log LInfo "Handling events" w))) /\
  outer
  = (Ok tt,
     ports.Log log LInfo "User created event handled successfully" (snd inner)).

(** One pass of the consume loop committed [m]. *)
Definition committed_by_pass {A : Type}
    (json : bytes -> error + DomainEvent) (c : kafka.EventConsumer A)
    (m : kafka.Message) (a : A) (r : kafka.ReaderState) : Prop :=
  let st := kafka.iteration json c kafka.mem_reader (a, r) in
  fst (kafka.handleMessage json c m a) = Ok tt /\
  fst st = kafka.Continue /\
  kafka.new_reads r (snd (snd st)) = [kafka.call_Fetch; kafka.call_Commit m] /\
  (kafka.commit_fault r = None ->
   kafka.committed (snd (snd st)) = Datatypes.S (Z.to_nat (kafka.Offset m))).

(** An upload that went through: it returned an asset, the object store
    holds the bytes and the content type of the request under [key], and
    the table holds the asset under an id that was free before. *)
Definition stored_unchecked (w : World) (key : string)
    (createDto : CreateAssetDto) (fileData : bytes)
    (r : result Asset * World) : Prop :=
  exists asset,
    fst r = Ok asset /\
    objects (snd r) !! key
    = Some {| obj_data := fileData;
              obj_content_type := dto_ContentType createDto |} /\
    rows w !! ID asset = None /\
    rows (snd r) !! ID asset = Some asset.

(** The gRPC entry point handed the request to the service: the DTO it
    built, the state after its two log lines, and the answer of the
    service passed on. *)
Definition handed_to_service {S : Type} (log : ports.Logger S)
    (service : CreateAssetDto -> bytes -> S -> result Asset * S)
    (req : grpc.UploadAssetRequest) (ws : S) (r : result Asset * S) : Prop :=
  let up := service (grpc.createDto req) (grpc.req_FileData req)
              (ports.Log log LInfo "Resource2"
                 (ports.Log log LInfo "gRPC UploadAsset called" ws)) in
  r = match fst up with
      | Err err =>
        (Err (status_Errorf_v "Internal" "failed to upload asset" err),
         ports.Log log LError "Failed to upload asset" (snd up))
      | Panic m => (Panic m, snd up)
      | Ok asset => (Ok asset, snd up)
      end.

End outcome.

(** ** The list query of the repository and of the service *)

Module listing.

(** The rows [WHERE user_id = $1 AND active = true AND deleted_at IS NULL]
    selects. *)
Definition owned_by (userID : string) (a : Asset) : Prop :=
  UserID a = Some userID /\ postgres.visible a = true.

#[global] Instance owned_by_dec (userID : string) (a : Asset) :
  Decision (owned_by userID a).
Proof. unfold owned_by. apply _. Defined.

(** [ORDER BY created_at DESC] *)
Definition newer_first (a b : Asset) : Prop := CreatedAt b <= CreatedAt a.

#[global] Instance newer_first_dec (a b : Asset) : Decision (newer_first a b).
Proof. unfold newer_first. apply _. Defined.

(** The rows of the user, newest first; rows with equal [created_at] come
    in the order the table yields them. *)
Definition select_by_user (w : World) (userID : string) : list Asset :=
  merge_sort newer_first
    (filter (owned_by userID) (snd <$> map_to_list (rows w))).

(** [AssetsRepository.GetAssetsByUserID]: the count query, then the page
    query with [LIMIT $2 OFFSET $3]; PostgreSQL refuses a negative limit
    or offset. *)
Definition repo_GetAssetsByUserID (b : Backend) (userID : string)
    (limit offset : Z) (w : World) : (error + list Asset * Z) * World :=
  match faults b SqlSelect with
  | Some err =>
    (inl (fmt_Errorf_w "failed to count assets" err),
     add_log LError "Failed to count assets" w)
  | None =>
    let totalCount := Z.of_nat (length (select_by_user w userID)) in
    if (limit <? 0) || (offset <? 0) then
      (inl (fmt_Errorf_w "failed to get assets"
              (client_error "pq" "LIMIT and OFFSET must not be negative")),
       add_log LError "Failed to get assets by user ID" w)
    else
      (inr (take (Z.to_nat limit)
              (drop (Z.to_nat offset) (select_by_user w userID)),
            totalCount), w)
  end.

Section service.
Context {S : Type}.
Variable logger : ports.Logger S.
(** [ports.AssetsRepository.GetAssetsByUserID] *)
Variable assetsRepo_GetAssetsByUserID :
  string -> Z -> Z -> S -> (error + list Asset * Z) * S.

(** [AssetsService.GetAssetsByUserID], the same in both implementations:
    a pass-through that renames every repository error. *)
Definition GetAssetsByUserID (userID : string) (limit offset : Z) (w : S)
    : result (list Asset * Z) * S :=
  let w := ports.Log logger LInfo "Getting assets by user ID" w in
  let '(r, w) := assetsRepo_GetAssetsByUserID userID limit offset w in
  match r with
  | inl err =>
    let w := ports.Log logger LError "Failed to get assets by user ID" w in
    (Err (NewDomainError ResourceNotFoundError "Failed to get assets" (Some err)),
     w)
  | inr page => (Ok page, w)
  end.

End service.

(** The service over the in-memory world. *)
Definition list_assets (b : Backend) (userID : string) (limit offset : Z)
    (w : World) : result (list Asset * Z) * World :=
  GetAssetsByUserID world.log_service (repo_GetAssetsByUserID b) userID limit
    offset w.

End listing.

(** ** The other methods of the gRPC server (src/unnamed/part_005) *)

Module grpc_server.

Section server.
Context {S : Type}.
Variable logger : ports.Logger S.
(** The methods of [ports.AssetsService]. *)
Variable GetAssetByID : string -> S -> result Asset * S.
Variable GetAssetsByUserID :
  string -> Z -> Z -> S -> result (list Asset * Z) * S.
Variable DeleteAsset : string -> string -> S -> result unit * S.

(** [Server.GetAsset]: every error of the service is answered with the
    code [NotFound]. *)
Definition GetAsset (assetId : string) (w : S) : result Asset * S :=
  let w := ports.Log logger LInfo "gRPC GetAsset called" w in
  let '(r, w) := GetAssetByID assetId w in
  match r with
  | Err err =>
    let w := ports.Log logger LError "Failed to get asset by ID" w in
    (Err (status_Errorf_v "NotFound" "asset not found" err), w)
  | Panic m => (Panic m, w)
  | Ok asset => (Ok asset, w)
  end.

(** [Server.GetAssetsByUser] *)
Definition GetAssetsByUser (userId : string) (limit offset : Z) (w : S)
    : result (list Asset * Z) * S :=
  let w := ports.Log logger LInfo "gRPC GetAssetsByUser called" w in
  let '(r, w) := GetAssetsByUserID userId limit offset w in
  match r with
  | Err err =>
    let w := ports.Log logger LError "Failed to get assets by user ID" w in
    (Err (status_Errorf_v "Internal" "failed to get assets" err), w)
  | Panic m => (Panic m, w)
  | Ok page => (Ok page, w)
  end.

(** [Server.DeleteAsset]: every error of the service is answered with
    the code [Internal]. *)
Definition DeleteAsset_rpc (assetId userId : string) (w : S)
    : result unit * S :=
  let w := ports.Log logger LInfo "gRPC DeleteAsset called" w in
  let '(r, w) := DeleteAsset assetId userId w in
  match r with
  | Err err =>
    let w := ports.Log logger LError "Failed to delete asset" w in
    (Err (status_Errorf_v "Internal" "failed to delete asset" err), w)
  | Panic m => (Panic m, w)
  | Ok _ => (Ok tt, w)
  end.

End server.

End grpc_server.

(** The gRPC server in front of either implementation, over the
    in-memory world. *)
Module rpc.

Definition GetAsset1 (b : Backend) : string -> World -> result Asset * World :=
  grpc_server.GetAsset world.log_service (run.get1 b).
Definition GetAsset2 (b : Backend) : string -> World -> result Asset * World :=
  grpc_server.GetAsset world.log_service (run.get2 b).

Definition DeleteAsset1 (b : Backend)
    : string -> string -> World -> result unit * World :=
  grpc_server.DeleteAsset_rpc world.log_service (run.delete1 b).
Definition DeleteAsset2 (b : Backend)
    : string -> string -> World -> result unit * World :=
  grpc_server.DeleteAsset_rpc world.log_service (run.delete2 b).

Definition UploadAsset1 (b : Backend) (rt : Runtime)
    : grpc.UploadAssetRequest -> World -> result Asset * World :=
  grpc.Server_UploadAsset world.log_service (run.upload1 b rt).


Definition GetAssetsByUser (b : Backend)
    : string -> Z -> Z -> World -> result (list Asset * Z) * World :=
  grpc_server.GetAssetsByUser world.log_service (listing.list_assets b).

End rpc.

(** ** Outcomes of the compositions *)

Module lifecycle.

(** A world with one row that has no storage key: the repository's
    [CreateAsset] on a DTO whose [StorageKey] is nil. *)
Definition keyless : World :=
  snd (postgres.CreateAsset (fixtures.backend fixtures.no_fault)
         fixtures.document_request fixtures.empty_world).

Definition keyless_row : Asset :=
  postgres.inserted_row (fixtures.backend fixtures.no_fault) "row-0"
    fixtures.document_request.

(** The row the upload of [fixtures.document_request] by
    [assets_service.go] creates in the empty world. *)
Definition report1 : Asset :=
  postgres.inserted_row (fixtures.backend fixtures.no_fault) "row-0"
    (assets_service.assetDto fixtures.document_request
       "orders/42/1700000000_report.pdf"
       "http://minio:9000/assets/orders/42/1700000000_report.pdf"
       "assets/0b8f3c1e" "{meta:orders/42/1700000000_report.pdf}"
       "sha256-of-12-bytes" 12).


(** The row a second upload of [fixtures.document_request] by
    [assets_service.go], of no bytes and in the same second, creates. *)
Definition report1_again : Asset :=
  postgres.inserted_row (fixtures.backend fixtures.no_fault) "row-1"
    (assets_service.assetDto fixtures.document_request
       "orders/42/1700000000_report.pdf"
       "http://minio:9000/assets/orders/42/1700000000_report.pdf"
       "assets/0b8f3c1e" "{meta:orders/42/1700000000_report.pdf}"
       "sha256-of-0-bytes" 0).


(** [DeleteAsset] answered not-found: the error, the repository read as
    the only call, the stores as before. *)
Definition delete_not_found (w : World) (assetID : string)
    (r : result unit * World) : Prop :=
  fst r = Err (DomainError ResourceNotFoundError "Asset not found"
                 (errors_New "asset not found")) /\
  world.new_calls w (snd r) = [call_GetAssetByID assetID] /\
  world.stores (snd r) = world.stores w.

(** An upload that failed at the object store: the error, the storage
    write under [key] as the only call, the stores as before. *)
Definition upload_stopped_at_storage (w : World) (key : string) (e : error)
    (r : result Asset * World) : Prop :=
  fst r = Err e /\
  world.new_calls w (snd r) = [call_UploadFile key] /\
  world.stores (snd r) = world.stores w.

(** What a returned asset [a] means for the world [w'] the upload of
    [data] under [key] leaves: the object is stored under the asset's
    storage key with the bytes and the content type of the request, the
    row is in the table under the asset's id, visible, and carries the
    size and the hash of the bytes, the owner of the request, the URL of
    the object and the public URL of the row. *)
Definition uploaded_as (b : Backend) (rt : Runtime) (dto : CreateAssetDto)
    (data : bytes) (key : string) (w w' : World) (a : Asset) : Prop :=
  StorageKey a = Some key /\
  objects w' !! key
  = Some {| obj_data := data; obj_content_type := dto_ContentType dto |} /\
  rows w !! ID a = None /\
  rows w' !! ID a = Some a /\
  postgres.visible a = true /\
  FileSize a = Z.of_nat (length data) /\
  FileHash a = sha256_hex rt data /\
  UserID a = dto_UserID dto /\
  URL a = minio.generateFileURL b key /\
  PublicURL a = "/assets/" +:+ ID a.

End lifecycle.

(** ** The list query before and after a change of the table *)

Module totals.

(** What the list query tells after a successful delete of [assetID],
    asked with the same arguments before ([w]) and after ([w']): the
    total of the row's owner is one lower, every other total is the
    same, and the row is on no page. *)
Definition after_delete (b : Backend) (w w' : World) (assetID : string) : Prop :=
  forall (u : string) (limit offset : Z) (p p' : list Asset) (t t' : Z)
    (asset : Asset),
    rows w !! assetID = Some asset ->
    fst (listing.list_assets b u limit offset w) = Ok (p, t) ->
    fst (listing.list_assets b u limit offset w') = Ok (p', t') ->
    t' = (if decide (UserID asset = Some u) then t - 1 else t) /\
    forall a, a ∈ p' -> rows w' !! assetID <> Some a.

(** What the list query tells after a successful upload that returned
    [a]: the total of the asset's owner is one higher, every other total
    is the same, and a page that starts at 0 and is long enough for the
    new total has the asset on it. *)
Definition after_upload (b : Backend) (w w' : World) (a : Asset) : Prop :=
  forall (u : string) (limit offset : Z) (p p' : list Asset) (t t' : Z),
    fst (listing.list_assets b u limit offset w) = Ok (p, t) ->
    fst (listing.list_assets b u limit offset w') = Ok (p', t') ->
    t' = (if decide (UserID a = Some u) then t + 1 else t) /\
    (UserID a = Some u -> offset = 0 -> t' <= limit -> a ∈ p').

End totals.

Module requests.

(** A gRPC upload that names a resource type and no resource id. *)
Definition typed_without_id : grpc.UploadAssetRequest :=
  {| grpc.req_Filename := "report.pdf";
     grpc.req_ContentType := "application/pdf";
     grpc.req_UserId := "alice"; grpc.req_FileData := fixtures.payload;
     grpc.req_ResourceId := ""; grpc.req_ResouceType := "orders";
     grpc.req_Metadata := None |}.

End requests.

(** ** The dynamic queries of the repository (src/unnamed/part_006) *)

Module query.

(** A value handed to the SQL driver as a query argument. *)
Inductive Arg : Type :=
| ArgString (s : string)
| ArgInt (n : Z)
| ArgBool (b : bool)
| ArgJSON (raw : string)
| ArgArray (l : list string).

(** [UpdateAssetDto]: a pointer field is an [option]; [Metadata],
    [AllowedRoles] and [Tags] are slices, nil when absent. *)
Record UpdateAssetDto : Type := {
  upd_ID : string;
  upd_URL : option string;
  upd_PublicURL : option string;
  upd_Filename : option string;
  upd_FileSize : option Z;
  upd_Metadata : option string;
  upd_Secure : option bool;
  upd_StorageKey : option string;
  upd_StorageProvider : option string;
  upd_ResourceID : option string;
  upd_ResourceType : option string;
  upd_ContentType : option string;
  upd_UserID : option string;
  upd_AccessLevel : option string;
  upd_AllowedRoles : option (list string);
  upd_IsEncrypted : option bool;
  upd_EncryptionKey : option string;
  upd_Tags : option (list string);
  upd_FileHash : string
}.

(** [AssetFilter] *)
Record AssetFilter : Type := {
  flt_UserID : option string;
  flt_ContentType : option string;
  flt_ResourceType : option string;
  flt_ResourceID : option string;
  flt_AccessLevel : option string;
  flt_Secure : option bool;
  flt_IsEncrypted : option bool;
  flt_StorageProvider : option string;
  flt_Tags : list string;
  flt_Limit : Z;
  flt_Offset : Z
}.

(** The three variables the two functions thread through their [if]
    blocks: the clauses, the arguments and the next placeholder number. *)
Record Builder : Type := {
  parts : list string;
  args : list Arg;
  argIndex : Z
}.

(** One block
    [if x != nil { parts = append(parts, fmt.Sprintf(format, argIndex));
    args = append(args, x); argIndex++ }], where [format] is the text
    before [%d]. *)
Definition add_if (format : string) (x : option Arg) (q : Builder) : Builder :=
  match x with
  | None => q
  | Some a =>
    {| parts := (parts q ++ [format +:+ pretty (argIndex q)])%list;
       args := (args q ++ [a])%list;
       argIndex := argIndex q + 1 |}
  end.

(** The blocks of [UpdateAsset] (lines 234-323), in order. *)
Definition update_blocks (asset : UpdateAssetDto) : list (string * option Arg) :=
  [ ("url = $", ArgString <$> upd_URL asset);
    ("public_url = $", ArgString <$> upd_PublicURL asset);
    ("filename = $", ArgString <$> upd_Filename asset);
    ("file_size = $", ArgInt <$> upd_FileSize asset);
    ("metadata = $", ArgJSON <$> upd_Metadata asset);
    ("secure = $", ArgBool <$> upd_Secure asset);
    ("storage_key = $", ArgString <$> upd_StorageKey asset);
    ("storage_provider = $", ArgString <$> upd_StorageProvider asset);
    ("resource_id = $", ArgString <$> upd_ResourceID asset);
    ("resource_type = $", ArgString <$> upd_ResourceType asset);
    ("content_type = $", ArgString <$> upd_ContentType asset);
    ("user_id = $", ArgString <$> upd_UserID asset);
    ("access_level = $", ArgString <$> upd_AccessLevel asset);
    ("allowed_roles = $", ArgArray <$> upd_AllowedRoles asset);
    ("is_encrypted = $", ArgBool <$> upd_IsEncrypted asset);
    ("encryption_key = $", ArgString <$> upd_EncryptionKey asset);
    ("tags = $", ArgArray <$> upd_Tags asset);
    ("file_hash = $",
     if String.eqb (upd_FileHash asset) "" then None
     else Some (ArgString (upd_FileHash asset))) ].

(** The blocks of [GetAssetsByFilter] (lines 412-456), in order. *)
Definition filter_blocks (filter : AssetFilter) : list (string * option Arg) :=
  [ ("user_id = $", ArgString <$> flt_UserID filter);
    ("content_type = $", ArgString <$> flt_ContentType filter);
    ("resource_type = $", ArgString <$> flt_ResourceType filter);
    ("resource_id = $", ArgString <$> flt_ResourceID filter);
    ("access_level = $", ArgString <$> flt_AccessLevel filter);
    ("secure = $", ArgBool <$> flt_Secure filter);
    ("is_encrypted = $", ArgBool <$> flt_IsEncrypted filter);
    ("storage_provider = $", ArgString <$> flt_StorageProvider filter);
    ("tags && $",
     if (0 <? Z.of_nat (length (flt_Tags filter)))
     then Some (ArgArray (flt_Tags filter)) else None) ].

Definition run_blocks (blocks : list (string * option Arg)) (q : Builder)
    : Builder :=
  fold_left (fun q block => add_if (fst block) (snd block) q) blocks q.

(** [UpdateAsset], up to the query: the [SET] clauses, and [finalArgs],
    the id in front of the arguments. [$1] is the id of the [WHERE]
    clause, so the numbering starts at 2. *)
Definition UpdateAsset_build (asset : UpdateAssetDto) : Builder :=
  run_blocks (update_blocks asset)
    {| parts := ["updated_at = NOW()"]; args := []; argIndex := 2 |}.

Definition UpdateAsset_setParts (asset : UpdateAssetDto) : list string :=
  parts (UpdateAsset_build asset).

Definition UpdateAsset_finalArgs (asset : UpdateAssetDto) : list Arg :=
  ArgString (upd_ID asset) :: args (UpdateAsset_build asset).

(** [GetAssetsByFilter], up to the queries: the [WHERE] clauses and the
    arguments of the count query, the arguments of the page query, and
    the placeholder numbers of [LIMIT] and [OFFSET]. *)
Definition GetAssetsByFilter_build (filter : AssetFilter) : Builder :=
  run_blocks (filter_blocks filter)
    {| parts := ["active = true"; "deleted_at IS NULL"]; args := [];
       argIndex := 1 |}.

Definition GetAssetsByFilter_whereClauses (filter : AssetFilter) : list string :=
  parts (GetAssetsByFilter_build filter).

Definition GetAssetsByFilter_limitArgs (filter : AssetFilter) : list Arg :=
  (args (GetAssetsByFilter_build filter)
   ++ [ArgInt (flt_Limit filter); ArgInt (flt_Offset filter)])%list.

Definition GetAssetsByFilter_limit_placeholder (filter : AssetFilter) : Z :=
  argIndex (GetAssetsByFilter_build filter).

Definition GetAssetsByFilter_offset_placeholder (filter : AssetFilter) : Z :=
  argIndex (GetAssetsByFilter_build filter) + 1.

(** The argument the driver binds to the placeholder [$n]: the [n]-th
    of the argument list, counted from 1. *)
Definition bound_to (arguments : list Arg) (n : Z) : option Arg :=
  if n <=? 0 then None else arguments !! Z.to_nat (n - 1).

(** The blocks whose condition holds, each with its argument. *)
Definition taken (blocks : list (string * option Arg)) : list (string * Arg) :=
  omap (fun block => pair (fst block) <$> snd block) blocks.

End query.

(** ** [internal/core/domain/validations.go] *)

Module validations.

(** What the code reads off a [validator.FieldError]; the value is kept
    as its text. *)
Record FieldError : Type := {
  fe_Field : string;
  fe_Tag : string;
  fe_Param : string;
  fe_Kind : string;
  fe_Value : string
}.

(** [ValidationError]; an omitted [Value] is [None]. *)
Record ValidationError : Type := {
  Code : string;
  Message : string;
  Params : list string;
  Value : option string
}.

Section validation.
(** [strings.ToLower] and [strings.Split(param, " ")] *)
Variable ToLower : string -> string.
Variable Split_space : string -> list string.

(** [strings.Join(values, ", ")] *)
Fixpoint Join_comma (values : list string) : string :=
  match values with
  | [] => ""
  | [v] => v
  | v :: rest => v +:+ ", " +:+ Join_comma rest
  end.

(** [GetValidationError] *)
Definition GetValidationError (e : FieldError) : ValidationError :=
  let tag := fe_Tag e in
  let param := fe_Param e in
  let value := fe_Value e in
  if String.eqb tag "required" then
    {| Code := "required"; Message := "This field is required";
       Params := []; Value := None |}
  else if String.eqb tag "min" then
    if String.eqb (fe_Kind e) "string" then
      {| Code := "min";
         Message := "Minimum length is " +:+ param +:+ " characters";
         Params := [param]; Value := Some value |}
    else
      {| Code := "min"; Message := "Minimum value is " +:+ param;
         Params := [param]; Value := None |}
  else if String.eqb tag "max" then
    if String.eqb (fe_Kind e) "string" then
      {| Code := "max";
         Message := "Maximum length is " +:+ param +:+ " characters";
         Params := [param]; Value := Some value |}
    else
      {| Code := "max"; Message := "Maximum value is " +:+ param;
         Params := [param]; Value := Some value |}
  else if String.eqb tag "email" then
    {| Code := "email"; Message := "Please enter a valid email address";
       Params := []; Value := Some value |}
  else if String.eqb tag "numeric" then
    {| Code := "numeric"; Message := "This field must contain only numbers";
       Params := []; Value := Some value |}
  else if String.eqb tag "alpha" then
    {| Code := "alpha"; Message := "This field must contain only letters";
       Params := []; Value := Some value |}
  else if String.eqb tag "alphanum" then
    {| Code := "alphanum";
       Message := "This field must contain only letters and numbers";
       Params := []; Value := Some value |}
  else if String.eqb tag "len" then
    {| Code := "len";
       Message := "This field must be exactly " +:+ param +:+ " characters long";
       Params := [param]; Value := Some value |}
  else if String.eqb tag "oneof" then
    let values := Split_space param in
    {| Code := "oneof";
       Message := "This field must be one of: " +:+ Join_comma values;
       Params := values; Value := Some value |}
  else if String.eqb tag "gte" then
    {| Code := "gte";
       Message := "This field must be greater than or equal to " +:+ param;
       Params := [param]; Value := Some value |}
  else if String.eqb tag "lte" then
    {| Code := "lte";
       Message := "This field must be less than or equal to " +:+ param;
       Params := [param]; Value := Some value |}
  else if String.eqb tag "gt" then
    {| Code := "gt"; Message := "This field must be greater than " +:+ param;
       Params := [param]; Value := Some value |}
  else if String.eqb tag "lt" then
    {| Code := "lt"; Message := "This field must be less than " +:+ param;
       Params := [param]; Value := Some value |}
  else if String.eqb tag "phone" then
    {| Code := "phone";
       Message := "Please enter a valid phone number in the format +9665XXXXXXXX";
       Params := []; Value := Some value |}
  else if String.eqb tag "url" then
    {| Code := "url"; Message := "Please enter a valid URL";
       Params := [param]; Value := Some value |}
  else if String.eqb tag "md5" then
    {| Code := "md5"; Message := "This field must be a valid MD5 hash";
       Params := []; Value := Some value |}
  else if String.eqb tag "uuid" then
    {| Code := "uuid"; Message := "This field must be a valid UUID";
       Params := []; Value := Some value |}
  else if String.eqb tag "datetime" then
    {| Code := "datetime"; Message := "This field must be a valid date and time";
       Params := []; Value := Some value |}
  else if String.eqb tag "json" then
    {| Code := "json"; Message := "This field must be a valid JSON object";
       Params := []; Value := Some value |}
  else if String.eqb tag "ip" then
    {| Code := "ip"; Message := "This field must be a valid IP address";
       Params := []; Value := Some value |}
  else
    {| Code := tag;
       Message := "Validation failed for '" +:+ tag +:+ "' rule";
       Params := []; Value := Some value |}.

(** One pass through the body of the loop of [GetValidationErrors]. *)
Definition collect (validationErrors : gmap string (list ValidationError))
    (e : FieldError) : gmap string (list ValidationError) :=
  let fieldName := ToLower (fe_Field e) in
  let validationError := GetValidationError e in
  let validationErrors :=
    match validationErrors !! fieldName with
    | None => <[fieldName := []]> validationErrors
    | Some _ => validationErrors
    end in
  <[fieldName := (default [] (validationErrors !! fieldName)
                  ++ [validationError])%list]> validationErrors.

(** [GetValidationErrors] *)
Definition GetValidationErrors (errs : list FieldError)
    : gmap string (list ValidationError) :=
  fold_left collect errs ∅.

End validation.

End validations.

(** ** Inputs for the examples of the queries and the validations *)

Module samples.

(** An update of the filename and the tags of [row-0]. *)
Definition rename : query.UpdateAssetDto :=
  {| query.upd_ID := "row-0"; query.upd_URL := None;
     query.upd_PublicURL := None; query.upd_Filename := Some "final.pdf";
     query.upd_FileSize := None; query.upd_Metadata := None;
     query.upd_Secure := None; query.upd_StorageKey := None;
     query.upd_StorageProvider := None; query.upd_ResourceID := None;
     query.upd_ResourceType := None; query.upd_ContentType := None;
     query.upd_UserID := None; query.upd_AccessLevel := None;
     query.upd_AllowedRoles := None; query.upd_IsEncrypted := None;
     query.upd_EncryptionKey := None; query.upd_Tags := Some ["final"];
     query.upd_FileHash := "" |}.

(** The PDFs of [alice], ten per page, second page. *)
Definition pdfs_of_alice : query.AssetFilter :=
  {| query.flt_UserID := Some "alice";
     query.flt_ContentType := Some "application/pdf";
     query.flt_ResourceType := None; query.flt_ResourceID := None;
     query.flt_AccessLevel := None; query.flt_Secure := None;
     query.flt_IsEncrypted := None; query.flt_StorageProvider := None;
     query.flt_Tags := []; query.flt_Limit := 10; query.flt_Offset := 10 |}.

(** ASCII lower case, for field names in ASCII. *)
Definition lower_ascii (c : ascii) : ascii :=
  let n := Ascii.nat_of_ascii c in
  if (65 <=? n)%nat && (n <=? 90)%nat then Ascii.ascii_of_nat (n + 32) else c.

Fixpoint ToLower (s : string) : string :=
  match s with
  | EmptyString => EmptyString
  | String c rest => String (lower_ascii c) (ToLower rest)
  end.

Definition Split_space (s : string) : list string := [s].

Definition failed (field tag param kind value : string)
    : validations.FieldError :=
  {| validations.fe_Field := field; validations.fe_Tag := tag;
     validations.fe_Param := param; validations.fe_Kind := kind;
     validations.fe_Value := value |}.

(** Three failures, two of them on the same field under two spellings. *)
Definition failures : list validations.FieldError :=
  [ failed "Filename" "required" "" "string" "";
    failed "FileSize" "min" "1" "int64" "0";
    failed "filename" "max" "255" "string" "x" ].

End samples.

(** ** The user-created handler over the in-memory world *)

Module welcome.

(** [AssetsHandler.Handle] wired to the publisher and the logger of the
    world, in front of each implementation of the service. *)
Definition Handle1 (b : Backend) (rt : Runtime)
    (EventTypeUserCreated : EventType) (GetDefaultAvatar : bytes)
    (json_Marshal : string -> error + bytes)
    (json_Unmarshal : bytes -> error + events.UserCreatedEvent)
    : DomainEvent -> World -> result unit * World :=
  handlers.Handle (run.upload1 b rt) (world.publisher b) world.log_service
    EventTypeUserCreated GetDefaultAvatar json_Marshal json_Unmarshal.

Definition Handle2 (b : Backend) (rt : Runtime)
    (GetStoreKey : CreateAssetDto -> string)
    (GetMetadata : CreateAssetDto -> string -> string -> string)
    (EventTypeUserCreated : EventType) (GetDefaultAvatar : bytes)
    (json_Marshal : string -> error + bytes)
    (json_Unmarshal : bytes -> error + events.UserCreatedEvent)
    : DomainEvent -> World -> result unit * World :=
  handlers.Handle (run.upload2 b rt GetStoreKey GetMetadata)
    (world.publisher b) world.log_service
    EventTypeUserCreated GetDefaultAvatar json_Marshal json_Unmarshal.

(** A user-created envelope that decodes to the user id [userID]. *)
Definition user_created (EventTypeUserCreated : EventType)
    (json_Marshal : string -> error + bytes)
    (json_Unmarshal : bytes -> error + events.UserCreatedEvent)
    (event : DomainEvent) (userID : string) : Prop :=
  ev_Type event = EventTypeUserCreated /\
  exists data uce,
    json_Marshal (ev_Data event) = inr data /\
    json_Unmarshal data = inr uce /\
    events.uc_UserID uce = userID.

(** The handler created the welcome avatar of [userID]: it returned
    nil, the avatar is in the object store under [key], a visible row of
    the user points to it, and the avatar-updated event carries the
    user and the URL of the object; the four adapter calls in order. *)
Definition avatar_created (b : Backend) (avatar : bytes) (userID key : string)
    (w : World) (r : result unit * World) : Prop :=
  let id := gen_random_uuid b (db_seq w) in
  fst r = Ok tt /\
  objects (snd r) !! key
  = Some {| obj_data := avatar; obj_content_type := "image/png" |} /\
  (exists a, rows (snd r) !! id = Some a /\ UserID a = Some userID /\
             StorageKey a = Some key /\ postgres.visible a = true) /\
  published (snd r)
  = (published w ++ [(userID, minio.generateFileURL b key)])%list /\
  world.new_calls w (snd r)
  = [call_UploadFile key; call_CreateAsset (Some key);
     call_cache_Set ("assets:" +:+ id);
     call_PublishAvatarUpdated userID (minio.generateFileURL b key)].

(** The handler went down with a nil dereference before any adapter was
    called. *)
Definition crashed_untouched (w : World) (r : result unit * World) : Prop :=
  fst r = Panic nil_dereference /\
  world.new_calls w (snd r) = [] /\
  world.stores (snd r) = world.stores w /\
  published (snd r) = published w.

End welcome.

Module welcome_failure.

(** The handler failed at the publication: the error of the handler,
    the avatar and its row in place, nothing published, and no storage
    delete among the calls. *)
Definition avatar_kept_unpublished (b : Backend) (avatar : bytes)
    (userID key : string) (w : World) (r : result unit * World) : Prop :=
  let id := gen_random_uuid b (db_seq w) in
  (exists cause,
     fst r = Err (status_Errorf_v "Internal"
                    "failed to publish avatar updated event" cause)) /\
  objects (snd r) !! key
  = Some {| obj_data := avatar; obj_content_type := "image/png" |} /\
  (exists a, rows (snd r) !! id = Some a /\ UserID a = Some userID /\
             postgres.visible a = true) /\
  published (snd r) = published w /\
  world.new_calls w (snd r)
  = [call_UploadFile key; call_CreateAsset (Some key);
     call_cache_Set ("assets:" +:+ id);
     call_PublishAvatarUpdated userID (minio.generateFileURL b key)].

End welcome_failure.

(** ** The Kafka event publisher (src/unnamed/part_004) *)

Module publisher.

(** [kafka.Message], as far as [publishEvent] fills it. *)
Record Message : Type := {
  Key : string;
  Value : bytes;
  Headers : list (string * string)
}.

(** [domain.LogActivityMetadata] *)
Record LogActivityMetadata : Type := {
  IP : string;
  Device : string;
  Location : string
}.

(** [events.LogActivityEvent]; [Metadata] is the marshalled metadata. *)
Record LogActivityEvent : Type := {
  la_ID : string;
  la_UserID : string;
  la_Action : string;
  la_Timestamp : string;
  la_Metadata : bytes
}.

(** [EventPublisher]: a [kafka.Writer] is known by its topic. *)
Record EventPublisher (S : Type) : Type := {
  writers : gmap string string;
  p_logger : ports.Logger S;
  Topics_ActivityLogs : string
}.
Arguments writers {S} _.
Arguments p_logger {S} _.
Arguments Topics_ActivityLogs {S} _.

(** [NewEventPublisher]: one writer per topic of the list, which holds
    [config.Topics.ActivityLogs] only. *)
Definition NewEventPublisher {S : Type} (config_Topics_ActivityLogs : string)
    (logger : ports.Logger S) : EventPublisher S :=
  let topics := [config_Topics_ActivityLogs] in
  {| writers := fold_left (fun writers topic => <[topic := topic]> writers)
                  topics ∅;
     p_logger := logger;
     Topics_ActivityLogs := config_Topics_ActivityLogs |}.

Section methods.
Context {S : Type}.
Variable p : EventPublisher S.
(** [writer.WriteMessages(ctx, message)] of the writer of a topic. *)
Variable WriteMessages : string -> Message -> S -> option error * S.
(** [json.Marshal] of the envelope and of the metadata. *)
Variable json_Marshal_event : DomainEvent -> error + bytes.
Variable json_Marshal_metadata : LogActivityMetadata -> error + bytes.
(** [generateEventID], [eventToMap] and [getCorrelationID] are declared
    outside the sources at hand; [generateEventID] is called twice. The
    clock gives the timestamp of the event and of the envelope. *)
Variable generateEventID_1 generateEventID_2 : string.
Variable eventToMap : LogActivityEvent -> string.
Variable getCorrelationID : string.
Variable time_Now_RFC3339 : string.
Variable time_Now : Z.

(** [domain.EventTypeLogActivity] *)
Definition EventTypeLogActivity : EventType := "log_activity".

(** [publishEvent] *)
Definition publishEvent (topic : string) (event : DomainEvent) (w : S)
    : option error * S :=
  match writers p !! topic with
  | None => (Some (errors_New ("no writer found for topic: " +:+ topic)), w)
  | Some writer =>
    match json_Marshal_event event with
    | inl err =>
      (Some (fmt_Errorf_w "failed to marshal event" err),
       ports.Log (p_logger p) LError "Failed to marshal event" w)
    | inr eventJSON =>
      let message :=
        {| Key := ev_AggregateID event;
           Value := eventJSON;
           Headers := [("event-type", ev_Type event);
                       ("event-id", ev_ID event);
                       ("correlation-id", CorrelationID (ev_Metadata event))] |} in
      let '(err, w) := WriteMessages writer message w in
      match err with
      | Some err =>
        (Some (fmt_Errorf_w "failed to publish event" err),
         ports.Log (p_logger p) LError "Failed to publish event" w)
      | None =>
        (None, ports.Log (p_logger p) LInfo "Event published successfully" w)
      end
    end
  end.

(** [LogActivity] *)
Definition LogActivity (userID action : string)
    (metadata : option LogActivityMetadata) (w : S) : option error * S :=
  let meta :=
    match metadata with
    | Some m => {| IP := IP m; Device := Device m; Location := Location m |}
    | None => {| IP := "assets-service"; Device := "server";
                 Location := "unknown" |}
    end in
  match json_Marshal_metadata meta with
  | inl err =>
    (Some (fmt_Errorf_w "failed to marshal metadata" err),
     ports.Log (p_logger p) LError "Failed to marshal metadata" w)
  | inr metadataJSON =>
    let event :=
      {| la_ID := generateEventID_1; la_UserID := userID; la_Action := action;
         la_Timestamp := time_Now_RFC3339; la_Metadata := metadataJSON |} in
    let domainEvent :=
      {| ev_ID := generateEventID_2;
         ev_Type := EventTypeLogActivity;
         ev_AggregateID := userID;
         ev_Version := 1;
         ev_Data := eventToMap event;
         ev_Metadata := {| Source := "auth-service";
                           CorrelationID := getCorrelationID;
                           CausationID := ""; meta_UserID := "" |};
         ev_Timestamp := time_Now |} in
    publishEvent (Topics_ActivityLogs p) domainEvent w
  end.

End methods.

(** The broker as a list of the messages written, by topic, oldest
    first, with the log; [write_fault] is the error of a failing write. *)
Record Outbox : Type := {
  sent : list (string * Message);
  out_logs : list (Level * string)
}.

Definition outbox_logger : ports.Logger Outbox :=
  {| ports.Log := fun l m o =>
       {| sent := sent o; out_logs := (out_logs o ++ [(l, m)])%list |} |}.

Definition outbox_Write (write_fault : option error) (topic : string)
    (m : Message) (o : Outbox) : option error * Outbox :=
  match write_fault with
  | Some err => (Some err, o)
  | None => (None, {| sent := (sent o ++ [(topic, m)])%list;
                      out_logs := out_logs o |})
  end.

End publisher.

(** ** The HTTP adapter ([internal/adapters/http/handler.go]) *)

Module http.

(** What a request is answered with: [responseWithError(w, status,
    err)], whose body is declared outside the sources at hand and which
    is kept as its arguments, or the object streamed by [Serve] with its
    content type. *)
Inductive Response : Type :=
| responseWithError (status : Z) (err : error)
| Streamed (contentType : string) (body : bytes).

Definition StatusBadRequest : Z := 400.
Definition StatusInternalServerError : Z := 500.

Section handler.
Context {S : Type}.
(** [ports.AssetsService.GetAssetByID] and [ports.StoragesService.Serve];
    [Serve] yields what it wrote to the response. *)
Variable GetAssetByID : string -> S -> result Asset * S.
Variable Serve : string -> S -> (error + Object) * S.

(** [handleGetAssetById], on the [id] of the route [/assets/{id}]. The
    services return a non-nil asset with a nil error, so the branch
    [asset == nil] is not taken. *)
Definition handleGetAssetById (id : string) (w : S) : result Response * S :=
  if String.eqb id "" then
    (Ok (responseWithError StatusBadRequest
           (NewDomainError ResourceNotFoundError "Missing asset ID" None)), w)
  else
    let '(r, w) := GetAssetByID id w in
    match r with
    | Panic m => (Panic m, w)
    | Err err => (Ok (responseWithError StatusBadRequest err), w)
    | Ok asset =>
      match StorageKey asset with
      | None =>
        (Ok (responseWithError StatusInternalServerError
               (NewDomainError UnableToFetchError
                  "Asset storage key is missing" None)), w)
      | Some key =>
        if String.eqb key "" then
          (Ok (responseWithError StatusInternalServerError
                 (NewDomainError UnableToFetchError
                    "Asset storage key is missing" None)), w)
        else
          let '(served, w) := Serve key w in
          match served with
          | inl err =>
            (Ok (responseWithError StatusInternalServerError err), w)
          | inr obj =>
            (Ok (Streamed (obj_content_type obj) (obj_data obj)), w)
          end
      end
    end.

End handler.

(** [MinIOStorage.Serve] over the in-memory object store: [GetObject]
    may fail ([get_fault]); [Stat] fails when no object is stored under
    the key; otherwise the content type goes to the headers and the
    bytes to the body. *)
Definition Serve (get_fault : option error) (key : string) (w : World)
    : (error + Object) * World :=
  match get_fault with
  | Some err =>
    (inl (NewDomainError UnableToFetchError "failed to get file" (Some err)),
     add_log LError "Failed to get file from MinIO" w)
  | None =>
    match objects w !! key with
    | None =>
      (inl (NewDomainError UnableToFetchError "failed to get file stat"
              (Some (client_error "minio" "The specified key does not exist."))),
       w)
    | Some obj => (inr obj, w)
    end
  end.

(** The route in front of each implementation of the service. *)
Definition get1 (b : Backend) (get_fault : option error)
    : string -> World -> result Response * World :=
  handleGetAssetById (run.get1 b) (Serve get_fault).

Definition get2 (b : Backend) (get_fault : option error)
    : string -> World -> result Response * World :=
  handleGetAssetById (run.get2 b) (Serve get_fault).

End http.

(** * Properties *)

(** ** Storage-key derivation of [assets_service.UploadAsset] *)

Section key_derivation.

Import assets_service.

Lemma fileKey_type_and_id (createDto : CreateAssetDto) (slug rtype rid : string) :
  dto_ResourceType createDto = Some rtype -> rtype <> "" ->
  dto_ResourceID createDto = Some rid -> rid <> "" ->
  fileKey createDto slug = Ok (rtype +:+ "/" +:+ rid +:+ "/" +:+ slug).
Proof.
  intros Ht Hne Hi Hne'. unfold fileKey, has_type_and_id. rewrite Ht, Hi.
  apply String.eqb_neq in Hne, Hne'.
  repeat (cbn; rewrite ?Hne, ?Hne'). reflexivity.
Qed.

Lemma fileKey_type_empty_id (createDto : CreateAssetDto) (slug rtype : string) :
  dto_ResourceType createDto = Some rtype -> rtype <> "" ->
  dto_ResourceID createDto = Some "" ->
  fileKey createDto slug = Ok (rtype +:+ "/" +:+ slug).
Proof.
  intros Ht Hne Hi. unfold fileKey, has_type_and_id, has_type_only.
  rewrite Ht, Hi. apply String.eqb_neq in Hne.
  repeat (cbn; rewrite ?Hne). reflexivity.
Qed.

Lemma fileKey_no_type (createDto : CreateAssetDto) (slug : string) :
  dto_ResourceType createDto = None \/ dto_ResourceType createDto = Some "" ->
  fileKey createDto slug = Ok "".
Proof.
  intros [H|H]; unfold fileKey, has_type_and_id, has_type_only; rewrite H;
    reflexivity.
Qed.

Lemma fileKey_type_nil_id (createDto : CreateAssetDto) (slug rtype : string) :
  dto_ResourceType createDto = Some rtype -> rtype <> "" ->
  dto_ResourceID createDto = None ->
  fileKey createDto slug = Panic nil_dereference.
Proof.
  intros Ht Hne Hi. unfold fileKey, has_type_and_id, has_type_only.
  rewrite Ht, Hi. apply String.eqb_neq in Hne.
  repeat (cbn; rewrite ?Hne). reflexivity.
Qed.

End key_derivation.

(** ** Reading the record of calls *)

Lemma new_calls_app (w w' : World) (l : list Call) :
  calls w' = (calls w ++ l)%list -> world.new_calls w w' = l.
Proof.
  intros H. unfold world.new_calls. rewrite H. apply drop_app_length.
Qed.

Lemma head_new_calls (w w' : World) (c : Call) (l : list Call) :
  calls w' = (calls w ++ c :: l)%list -> head (world.new_calls w w') = Some c.
Proof.
  intros H. rewrite (new_calls_app w w' (c :: l) H). reflexivity.
Qed.

(** Unfold the adapters of the in-memory world. *)
Ltac unfold_world :=
  unfold run.upload1, run.upload2, run.get1, run.get2, run.delete1,
    run.delete2, world.NewAssetsService, postgres.repository, minio.service,
    redis.service, world.log_service, world.publisher;
  cbn [assetsRepo storageService cacheService logger
       ports.Log ports.CreateAsset ports.GetAssetByID ports.DeleteAsset
       ports.UploadFile ports.DeleteFile ports.Set_ ports.Get ports.Delete
       ports.PublishAvatarUpdated].

Ltac unfold_adapters :=
  unfold minio.UploadFile, minio.DeleteFile, postgres.CreateAsset,
    postgres.GetAssetByID, postgres.DeleteAsset, redis.Set_, redis.Get,
    redis.Delete, world.PublishAvatarUpdated in *.

(** Close a goal about the calls an operation added, once the operation
    has been evaluated. *)
Ltac solve_calls :=
  apply new_calls_app; cbn; rewrite <- ?app_assoc; reflexivity.

(** Case analysis on what the backend and the stores answer. *)
Ltac world_case :=
  match goal with
  | |- context [match faults ?b ?p with _ => _ end] => destruct (faults b p)
  | |- context [match marshal_metadata ?r ?h ?t ?k ?c with _ => _ end] =>
    destruct (marshal_metadata r h t k c)
  | |- context [match @lookup _ _ _ _ ?k ?m with _ => _ end] =>
    destruct (@lookup _ _ _ _ k m)
  | |- context [if postgres.visible ?a then _ else _] =>
    destruct (postgres.visible a)
  | |- context [if custom_metadata_ok ?r ?m then _ else _] =>
    destruct (custom_metadata_ok r m)
  | |- context [match UserID ?a with _ => _ end] => destruct (UserID a)
  | |- context [if negb (String.eqb ?x ?y) then _ else _] =>
    destruct (String.eqb x y)
  | |- context [if String.eqb ?x ?y then _ else _] => destruct (String.eqb x y)
  | |- context [match StorageKey ?a with _ => _ end] => destruct (StorageKey a)
  end; cbn.
Ltac world_cases := cbn; repeat world_case.

(** C8 (the code at the failing input): [UploadAsset] of
    [assets_service.go] on a request whose resource type is present and
    non-empty and whose resource id is the nil pointer. The first
    condition of the key derivation is false at [ResourceID != nil]; the
    second one evaluates [ResourceID != nil || *ResourceID != ""], whose
    left operand is false, so the right operand dereferences the nil
    pointer: the key derivation panics, and the call panics after its
    first log line, before any port is called. *)
Theorem C8_UploadAsset_nil_resource_id_panics :
  forall (S : Type) (s : AssetsService S) (rt : Runtime)
    (createDto : CreateAssetDto) (fileData : bytes) (w : S) (rtype : string),
    dto_ResourceType createDto = Some rtype ->
    rtype <> "" ->
    dto_ResourceID createDto = None ->
    assets_service.has_type_only createDto = Panic nil_dereference /\
    assets_service.UploadAsset s rt createDto fileData w
    = (Panic nil_dereference, ports.Log (logger s) LInfo "Uploading asset" w).
Proof.
  intros S s rt createDto fileData w rtype Ht Hne Hi. split.
  - unfold assets_service.has_type_only. rewrite Ht, Hi.
    apply String.eqb_neq in Hne. repeat (cbn; rewrite ?Hne). reflexivity.
  - unfold assets_service.UploadAsset.
    rewrite (fileKey_type_nil_id _ _ rtype) by assumption. reflexivity.
Qed.

(** The request the user-created handler builds ([ResourceType] is
    ["users"], [ResourceID] is nil) is such an input. *)
Lemma C8_UploadAsset_nil_resource_id_panics_witness :
  assets_service.has_type_only
    (handlers.createDto "user-1" fixtures.payload) = Panic nil_dereference /\
  assets_service.UploadAsset
    (world.NewAssetsService (fixtures.backend fixtures.no_fault)) fixtures.rt0
    (handlers.createDto "user-1" fixtures.payload) fixtures.payload
    fixtures.empty_world
  = (Panic nil_dereference,
     add_log LInfo "Uploading asset" fixtures.empty_world).
Proof.
  apply (C8_UploadAsset_nil_resource_id_panics World
           (world.NewAssetsService (fixtures.backend fixtures.no_fault))
           fixtures.rt0 (handlers.createDto "user-1" fixtures.payload)
           fixtures.payload fixtures.empty_world "users").
  - reflexivity.
  - discriminate.
  - reflexivity.
Defined.

(** C6 (the code at the failing input): without a resource type (nil or
    empty) neither branch of the key derivation of [assets_service.go]
    assigns [fileKey], which keeps its initial value: the storage key is
    the empty string, it does not contain the filename, and the object is
    written under it. *)
Theorem C6_UploadAsset_empty_key_without_resource_type :
  forall (b : Backend) (rt : Runtime) (createDto : CreateAssetDto)
    (fileData : bytes) (w : World),
    dto_ResourceType createDto = None \/ dto_ResourceType createDto = Some "" ->
    assets_service.fileKey createDto
      (assets_service.uniqueSlug (time_Now_Unix rt) (dto_Filename createDto))
    = Ok "" /\
    head (world.new_calls w
            (snd (assets_service.UploadAsset (world.NewAssetsService b) rt
                    createDto fileData w)))
    = Some (call_UploadFile "").
Proof.
  intros b rt createDto fileData w H. split.
  - apply fileKey_no_type, H.
  - unfold assets_service.UploadAsset. rewrite (fileKey_no_type _ _ H).
    unfold assets_service.warn_customMetadata. unfold_world. unfold_adapters.
    world_cases;
      (eapply head_new_calls; cbn; rewrite <- ?app_assoc; cbn; reflexivity).
Qed.

Lemma C6_UploadAsset_empty_key_without_resource_type_witness :
  assets_service.fileKey fixtures.avatar_request
    (assets_service.uniqueSlug 1700000000 "avatar.png") = Ok "" /\
  head (world.new_calls fixtures.empty_world
          (snd (assets_service.UploadAsset
                  (world.NewAssetsService (fixtures.backend fixtures.no_fault))
                  fixtures.rt0 fixtures.avatar_request fixtures.payload
                  fixtures.empty_world)))
  = Some (call_UploadFile "").
Proof.
  apply (C6_UploadAsset_empty_key_without_resource_type
           (fixtures.backend fixtures.no_fault) fixtures.rt0
           fixtures.avatar_request fixtures.payload fixtures.empty_world).
  left. reflexivity.
Defined.

(** ** Upload: compensation after a failed metadata write *)




(** ** Delete: ownership, ordering, storage failure *)

(** C4: [DeleteAsset(id, userA)] on a row whose owner is set and differs
    from [userA] (empty or not) fails with [unauthorized_error]; the only
    port call is the repository read that loads the row, so there is no
    object-store delete, no repository mutation and no cache
    invalidation, and the three stores are as before. Both
    implementations. *)
Theorem C4_delete_by_non_owner_is_refused :
  forall (b : Backend) (w : World) (assetID userA owner : string)
    (asset : Asset),
    faults b SqlSelect = None ->
    outcome.stored w assetID asset ->
    UserID asset = Some owner ->
    owner <> userA ->
    outcome.refused w assetID (run.delete1 b assetID userA w) /\
    outcome.refused w assetID (run.delete2 b assetID userA w).
Proof.
  intros b w assetID userA owner asset Hsel [Hrow Hvis] Hown Hne.
  apply String.eqb_neq in Hne.
  unfold outcome.refused, run.delete1, run.delete2,
    assets_service.DeleteAsset, part_008.DeleteAsset.
  unfold_world. unfold_adapters. cbn. rewrite Hsel, Hrow. cbn.
  rewrite Hvis. cbn. rewrite Hown, Hne. cbn.
  repeat split; solve_calls.
Qed.

Lemma C4_delete_by_non_owner_is_refused_witness :
  outcome.refused scenario.after_upload "row-0"
    (run.delete1 (fixtures.backend fixtures.no_fault) "row-0" "mallory"
       scenario.after_upload) /\
  outcome.refused scenario.after_upload "row-0"
    (run.delete2 (fixtures.backend fixtures.no_fault) "row-0" "mallory"
       scenario.after_upload).
Proof.
  apply (C4_delete_by_non_owner_is_refused
           (fixtures.backend fixtures.no_fault) scenario.after_upload
           "row-0" "mallory" "alice" scenario.report).
  - reflexivity.
  - split; vm_compute; reflexivity.
  - reflexivity.
  - discriminate.
Defined.

Lemma owner_ok_check (asset : Asset) (userID : string) :
  outcome.owner_ok asset userID ->
  match UserID asset with
  | Some owner => negb (String.eqb owner userID)
  | None => false
  end = false.
Proof.
  intros [H|H]; rewrite H; [reflexivity|].
  rewrite String.eqb_refl. reflexivity.
Qed.

(** In the second implementation every repository delete has a storage
    delete before it, on every path of [DeleteAsset]. *)
Lemma delete2_storage_delete_comes_first (b : Backend) (w : World)
    (assetID userID : string) :
  world.preceded_by world.is_storage_delete world.is_repo_delete false
    (world.new_calls w (snd (run.delete2 b assetID userID w))) = true.
Proof.
  unfold run.delete2, part_008.DeleteAsset, deref.
  unfold_world. unfold_adapters.
  world_cases;
    erewrite new_calls_app by (cbn; rewrite <- ?app_assoc; reflexivity);
    reflexivity.
Qed.

(** In the second implementation a failing storage delete aborts the
    call with the storage-delete error; the row is not modified and the
    repository still returns it. *)
Lemma delete2_storage_failure_keeps_row (b : Backend) (w : World)
    (assetID userID key : string) (asset : Asset) (d : error) :
  faults b SqlSelect = None ->
  outcome.stored w assetID asset ->
  outcome.owner_ok asset userID ->
  StorageKey asset = Some key ->
  faults b RemoveObject = Some d ->
  outcome.storage_delete_failed b w assetID key asset d
    (run.delete2 b assetID userID w).
Proof.
  intros Hsel [Hrow Hvis] Hown Hkey Hrm.
  unfold outcome.storage_delete_failed, run.delete2, part_008.DeleteAsset.
  unfold_world. unfold_adapters. cbn. rewrite Hsel, Hrow. cbn.
  rewrite Hvis. cbn. rewrite (owner_ok_check _ _ Hown), Hkey. cbn.
  rewrite Hrm. cbn. rewrite ?Hsel, ?Hrow, ?Hvis.
  repeat split; solve_calls.
Qed.

(** C2 (the code at the failing input): [DeleteAsset] of [assets_service.go]
    on a visible row whose owner check passes. The storage deletion is a
    TODO comment: no object-store delete is attempted, whatever the state
    of the object store; the row is soft-deleted right away and the
    object stays in the store. *)
Theorem C2_delete1_skips_the_object_store :
  forall (b : Backend) (w : World) (assetID userID : string) (asset : Asset),
    faults b SqlSelect = None ->
    faults b SqlUpdate = None ->
    outcome.stored w assetID asset ->
    outcome.owner_ok asset userID ->
    outcome.row_deleted_object_kept b w assetID asset
      (run.delete1 b assetID userID w).
Proof.
  intros b w assetID userID asset Hsel Hupd [Hrow Hvis] Hown.
  unfold outcome.row_deleted_object_kept, run.delete1,
    assets_service.DeleteAsset.
  unfold_world. unfold_adapters. cbn. rewrite Hsel, Hrow. cbn.
  rewrite Hvis. cbn. rewrite (owner_ok_check _ _ Hown), Hupd. cbn.
  rewrite Hrow, Hvis. cbn.
  repeat split; try solve_calls. apply lookup_insert_eq.
Qed.

Lemma C2_delete1_skips_the_object_store_witness :
  let b := fixtures.backend (fixtures.failing [RemoveObject]) in
  outcome.row_deleted_object_kept b scenario.after_upload "row-0"
    scenario.report (run.delete1 b "row-0" "alice" scenario.after_upload).
Proof.
  apply (C2_delete1_skips_the_object_store
           (fixtures.backend (fixtures.failing [RemoveObject]))
           scenario.after_upload "row-0" "alice" scenario.report).
  - reflexivity.
  - reflexivity.
  - split; vm_compute; reflexivity.
  - right. reflexivity.
Defined.

(** The same input under the second implementation: the storage delete
    is attempted first and its failure leaves the row as it was. *)
Example delete2_on_the_same_input :
  let b := fixtures.backend (fixtures.failing [RemoveObject]) in
  outcome.storage_delete_failed b scenario.after_upload "row-0"
    "k/report.pdf" scenario.report (fixtures.broken RemoveObject)
    (run.delete2 b "row-0" "alice" scenario.after_upload).
Proof.
  apply delete2_storage_failure_keeps_row.
  - reflexivity.
  - split; vm_compute; reflexivity.
  - right. reflexivity.
  - reflexivity.
  - reflexivity.
Qed.

(** ** Read: cache-aside *)

Lemma redis_Get_missed (b : Backend) (w : World) (key : string) :
  outcome.cache_missed b w key ->
  exists e, forall (l : Level) (m : string),
    redis.Get b key (add_log l m w)
    = (inl e, record_call (call_cache_Get key) (add_log l m w)).
Proof.
  unfold redis.Get. intros [H|H].
  - destruct (faults b RedisGet) as [e|]; [|contradiction].
    exists e. reflexivity.
  - destruct (faults b RedisGet) as [e|]; [exists e; reflexivity|].
    exists (errors_New "cache miss"). intros l m. cbn. rewrite H. reflexivity.
Qed.

(** The second implementation, cache hit: the cached asset is returned
    and the cache read is the only call. *)
Lemma get2_hit (b : Backend) (w : World) (assetID : string) (a : Asset) :
  faults b RedisGet = None ->
  cache w !! ("assets:" +:+ assetID) = Some a ->
  fst (run.get2 b assetID w) = Ok a /\
  world.new_calls w (snd (run.get2 b assetID w))
  = [call_cache_Get ("assets:" +:+ assetID)].
Proof.
  intros Hget Hhit. unfold run.get2, part_008.GetAssetByID.
  unfold_world. remember ("assets:" +:+ assetID) as key.
  unfold_adapters. cbn. rewrite Hget. cbn.
  rewrite Hhit. cbn. split; [reflexivity | solve_calls].
Qed.

(** The second implementation, miss or cache error, row present: the
    asset comes from the repository and is written back; a failing
    write-back is logged and the asset is returned all the same. *)
Lemma get2_miss_found (b : Backend) (w : World) (assetID : string)
    (asset : Asset) :
  outcome.cache_missed b w ("assets:" +:+ assetID) ->
  faults b SqlSelect = None ->
  outcome.stored w assetID asset ->
  outcome.read_with_write_back b w assetID ("assets:" +:+ assetID) asset
    (run.get2 b assetID w).
Proof.
  intros Hmiss Hsel [Hrow Hvis].
  destruct (redis_Get_missed _ _ _ Hmiss) as [e He].
  unfold outcome.read_with_write_back, run.get2, part_008.GetAssetByID.
  unfold_world. rewrite He.
  remember ("assets:" +:+ assetID) as key.
  unfold_adapters. cbn. rewrite Hsel. cbn. rewrite Hrow. cbn.
  rewrite Hvis. cbn.
  destruct (faults b RedisSet) as [c|]; cbn;
    (split; [reflexivity|]); (split; [solve_calls|]);
    (split;
     [ intros H; first [discriminate H | apply lookup_insert_eq]
     | intros c' H; first [discriminate H | split; [reflexivity | set_solver]] ]).
Qed.

(** The second implementation, miss or cache error, no visible row: the
    call fails with [resource_not_found_error]. *)
Lemma get2_miss_not_found (b : Backend) (w : World) (assetID : string) :
  outcome.cache_missed b w ("assets:" +:+ assetID) ->
  faults b SqlSelect = None ->
  outcome.not_stored w assetID ->
  fst (run.get2 b assetID w)
  = Err (DomainError ResourceNotFoundError "Asset not found"
           (errors_New "asset not found")).
Proof.
  intros Hmiss Hsel Hrow.
  destruct (redis_Get_missed _ _ _ Hmiss) as [e He].
  unfold run.get2, part_008.GetAssetByID.
  unfold_world. rewrite He.
  unfold_adapters. cbn. rewrite Hsel. cbn.
  destruct Hrow as [Hrow|(a & Hrow & Hvis)]; rewrite Hrow; cbn;
    rewrite ?Hvis; reflexivity.
Qed.

(** C7 (the code at the failing input): [GetAssetByID] of
    [assets_service.go] on a cache miss (or cache error) with the row
    present. The asset is returned from the repository and nothing is
    written back: the cache read and the repository read are the only
    calls and the cache is as before. *)
Theorem C7_get1_does_not_write_back :
  forall (b : Backend) (w : World) (assetID : string) (asset : Asset),
    outcome.cache_missed b w assetID ->
    faults b SqlSelect = None ->
    outcome.stored w assetID asset ->
    outcome.read_without_write_back w assetID assetID asset
      (run.get1 b assetID w).
Proof.
  intros b w assetID asset Hmiss Hsel [Hrow Hvis].
  destruct (redis_Get_missed _ _ _ Hmiss) as [e He].
  unfold outcome.read_without_write_back, run.get1,
    assets_service.GetAssetByID.
  unfold_world. rewrite He.
  unfold_adapters. cbn. rewrite Hsel. cbn. rewrite Hrow. cbn.
  rewrite Hvis. cbn. repeat split; solve_calls.
Qed.

Lemma C7_get1_does_not_write_back_witness :
  outcome.read_without_write_back scenario.cold "row-0" "row-0"
    scenario.report
    (run.get1 (fixtures.backend fixtures.no_fault) "row-0" scenario.cold).
Proof.
  apply (C7_get1_does_not_write_back (fixtures.backend fixtures.no_fault)
           scenario.cold "row-0" scenario.report).
  - right. reflexivity.
  - reflexivity.
  - split; vm_compute; reflexivity.
Defined.

(** The same input under the second implementation: the asset is written
    back under [assets:row-0]. *)
Example get2_on_the_same_input :
  outcome.read_with_write_back (fixtures.backend fixtures.no_fault)
    scenario.cold "row-0" "assets:row-0" scenario.report
    (run.get2 (fixtures.backend fixtures.no_fault) "row-0" scenario.cold).
Proof.
  apply get2_miss_found.
  - right. reflexivity.
  - reflexivity.
  - split; vm_compute; reflexivity.
Qed.

(** ** Upload: input validation *)

(** What the gRPC entry point does check: a request with an empty
    filename, an empty user id or zero-length file data is answered with
    [InvalidArgument] before the service is called, whatever the service
    is, the only effect being the entry log line. *)
Lemma Server_UploadAsset_rejects {S : Type} (log : ports.Logger S)
    (service : CreateAssetDto -> bytes -> S -> result Asset * S)
    (req : grpc.UploadAssetRequest) (ws : S) :
  outcome.rejected req ->
  grpc.Server_UploadAsset log service req ws
  = (Err (status_Errorf "InvalidArgument"
            "filename, user_id, and file_data are required"),
     ports.Log log LInfo "gRPC UploadAsset called" ws).
Proof.
  intros Hrej. unfold grpc.Server_UploadAsset.
  destruct Hrej as [H|[H|H]]; rewrite H; cbn; rewrite ?orb_true_r;
    reflexivity.
Qed.

(** What it does not check: a request with a filename, a user id and
    file data is handed to the service, whatever its content-type. *)
Lemma grpc_passes_an_empty_content_type {S : Type} (log : ports.Logger S)
    (service : CreateAssetDto -> bytes -> S -> result Asset * S)
    (req : grpc.UploadAssetRequest) (ws : S) :
  grpc.req_Filename req <> "" ->
  grpc.req_UserId req <> "" ->
  grpc.req_FileData req <> [] ->
  outcome.handed_to_service log service req ws
    (grpc.Server_UploadAsset log service req ws).
Proof.
  intros Hf Hu Hd. apply String.eqb_neq in Hf, Hu.
  unfold outcome.handed_to_service, grpc.Server_UploadAsset. cbv zeta.
  rewrite Hf, Hu.
  destruct (grpc.req_FileData req) as [|x data] eqn:Hdata; [congruence|].
  cbn [length Nat.eqb orb].
  destruct (service _ _ _) as [[a|e|m] w1]; reflexivity.
Qed.

(** C3 (the code at the failing inputs): [UploadAsset] does not validate
    its request, in either implementation. Whatever the filename, the
    content-type and the bytes, empty ones included, its first port call
    is the object-store write under the derived key and it never answers
    [invalid_input_error]; when the object store and the insert work and
    the next row id is free, it returns an asset and leaves the object,
    with the bytes and the content-type of the request, and a new row
    behind ([assets_service.go]: when its metadata document marshals).
    The gRPC entry point does not make up for the content-type: a
    request with an empty content-type, a filename, a user id and file
    data is handed to the service with the empty content-type in the
    DTO. *)
Theorem C3_UploadAsset_does_not_validate :
  forall (b : Backend) (rt : Runtime) (GetStoreKey : CreateAssetDto -> string)
    (GetMetadata : CreateAssetDto -> string -> string -> string)
    (createDto : CreateAssetDto) (fileData : bytes) (w : World)
    (key1 metadataJSON : string),
    assets_service.fileKey createDto
      (assets_service.uniqueSlug (time_Now_Unix rt) (dto_Filename createDto))
    = Ok key1 ->
    (outcome.written_unchecked w key1 (run.upload1 b rt createDto fileData w) /\
     outcome.written_unchecked w (GetStoreKey createDto)
       (run.upload2 b rt GetStoreKey GetMetadata createDto fileData w)) /\
    (faults b PutObject = None -> faults b SqlInsert = None ->
     rows w !! gen_random_uuid b (db_seq w) = None ->
     (marshal_metadata rt (sha256_hex rt fileData) (time_Now_Unix rt) key1
        (assets_service.customMetadata rt createDto) = inr metadataJSON ->
      outcome.stored_unchecked w key1 createDto fileData
        (run.upload1 b rt createDto fileData w)) /\
     outcome.stored_unchecked w (GetStoreKey createDto) createDto fileData
       (run.upload2 b rt GetStoreKey GetMetadata createDto fileData w)) /\
    (forall (S : Type) (log : ports.Logger S)
       (service : CreateAssetDto -> bytes -> S -> result Asset * S)
       (req : grpc.UploadAssetRequest) (ws : S),
       grpc.req_ContentType req = "" ->
       grpc.req_Filename req <> "" -> grpc.req_UserId req <> "" ->
       grpc.req_FileData req <> [] ->
       dto_ContentType (grpc.createDto req) = "" /\
       outcome.handed_to_service log service req ws
         (grpc.Server_UploadAsset log service req ws)).
Proof.
  intros b rt K M createDto fileData w key1 meta Hkey.
  split; [|split].
  - unfold outcome.written_unchecked. split.
    + unfold run.upload1, assets_service.UploadAsset. rewrite Hkey.
      unfold assets_service.warn_customMetadata. unfold_world. unfold_adapters.
      world_cases;
        (split; [eapply head_new_calls; cbn; rewrite <- ?app_assoc; cbn;
                 reflexivity | discriminate]).
    + unfold run.upload2, part_008.UploadAsset. unfold_world. unfold_adapters.
      world_cases;
        (split; [eapply head_new_calls; cbn; rewrite <- ?app_assoc; cbn;
                 reflexivity | discriminate]).
  - intros Hput Hins Hfresh. unfold outcome.stored_unchecked. split.
    + intros Hmeta. unfold run.upload1, assets_service.UploadAsset. rewrite Hkey.
      unfold assets_service.warn_customMetadata. unfold_world. unfold_adapters.
      cbn. rewrite Hput. cbn. rewrite Hmeta. cbn. rewrite Hins. cbn.
      destruct (String.eqb (dto_Metadata createDto) "");
        [|destruct (custom_metadata_ok rt (dto_Metadata createDto))]; cbn;
        rewrite Hfresh; cbn;
        (destruct (faults b RedisSet); cbn; eexists;
         (split; [reflexivity|]); cbn;
         (split; [apply lookup_insert_eq|]);
         (split; [exact Hfresh | apply lookup_insert_eq])).
    + unfold run.upload2, part_008.UploadAsset. unfold_world. unfold_adapters.
      cbn. rewrite Hput. cbn. rewrite Hins. cbn. rewrite Hfresh. cbn.
      destruct (faults b RedisSet); cbn; eexists;
        (split; [reflexivity|]); cbn;
        (split; [apply lookup_insert_eq|]);
        (split; [exact Hfresh | apply lookup_insert_eq]).
  - intros S log service req ws Hct Hf Hu Hd.
    split; [exact Hct|].
    apply grpc_passes_an_empty_content_type; assumption.
Qed.

(** The request with an empty filename, an empty content-type and
    zero-length bytes, and a gRPC request with an empty content-type. *)
Lemma C3_UploadAsset_does_not_validate_witness :
  let b := fixtures.backend fixtures.no_fault in
  let req := {| grpc.req_Filename := "notes.txt"; grpc.req_ContentType := "";
                grpc.req_UserId := "alice"; grpc.req_FileData := fixtures.payload;
                grpc.req_ResourceId := ""; grpc.req_ResouceType := "";
                grpc.req_Metadata := None |} in
  let up1 := run.upload1 b fixtures.rt0 fixtures.blank_request []
               fixtures.empty_world in
  let up2 := run.upload2 b fixtures.rt0 fixtures.GetStoreKey
               fixtures.GetMetadata fixtures.blank_request []
               fixtures.empty_world in
  (outcome.written_unchecked fixtures.empty_world "orders/42/1700000000_" up1 /\
   outcome.written_unchecked fixtures.empty_world "k/" up2) /\
  (outcome.stored_unchecked fixtures.empty_world "orders/42/1700000000_"
     fixtures.blank_request [] up1 /\
   outcome.stored_unchecked fixtures.empty_world "k/" fixtures.blank_request
     [] up2) /\
  (dto_ContentType (grpc.createDto req) = "" /\
   outcome.handed_to_service world.log_service
     (run.upload2 b fixtures.rt0 fixtures.GetStoreKey fixtures.GetMetadata)
     req fixtures.empty_world
     (run.grpc_upload2 b fixtures.rt0 fixtures.GetStoreKey
        fixtures.GetMetadata req fixtures.empty_world)).
Proof.
  cbv zeta.
  destruct (C3_UploadAsset_does_not_validate
              (fixtures.backend fixtures.no_fault) fixtures.rt0
              fixtures.GetStoreKey fixtures.GetMetadata fixtures.blank_request
              [] fixtures.empty_world "orders/42/1700000000_"
              "{meta:orders/42/1700000000_}") as (H1 & H2 & H3).
  - reflexivity.
  - split; [exact H1|]. split.
    + destruct H2 as [H21 H22]; [reflexivity..|].
      split; [apply H21; reflexivity | exact H22].
    + apply (H3 World world.log_service); [reflexivity|discriminate..].
Defined.

(** The same inputs, evaluated: both implementations succeed on the
    blank request and leave an object, a row and a cache entry behind;
    the gRPC entry point stores an object with the empty content-type. *)
Example blank_request_is_uploaded :
  let b := fixtures.backend fixtures.no_fault in
  let up1 := run.upload1 b fixtures.rt0 fixtures.blank_request []
               fixtures.empty_world in
  let up2 := run.upload2 b fixtures.rt0 fixtures.GetStoreKey
               fixtures.GetMetadata fixtures.blank_request []
               fixtures.empty_world in
  let rpc := run.grpc_upload2 b fixtures.rt0 fixtures.GetStoreKey
               fixtures.GetMetadata
               {| grpc.req_Filename := "notes.txt"; grpc.req_ContentType := "";
                  grpc.req_UserId := "alice"; grpc.req_FileData := fixtures.payload;
                  grpc.req_ResourceId := ""; grpc.req_ResouceType := "";
                  grpc.req_Metadata := None |} fixtures.empty_world in
  (is_ok (fst up1) = true /\
   is_Some (objects (snd up1) !! "orders/42/1700000000_") /\
   size (rows (snd up1)) = 1%nat /\ size (cache (snd up1)) = 1%nat) /\
  (is_ok (fst up2) = true /\
   is_Some (objects (snd up2) !! "k/") /\
   size (rows (snd up2)) = 1%nat /\ size (cache (snd up2)) = 1%nat) /\
  (is_ok (fst rpc) = true /\
   (obj_content_type <$> objects (snd rpc) !! "k/notes.txt") = Some "").
Proof.
  cbv zeta.
  split; [|split].
  - split; [vm_compute; reflexivity|].
    split; [eexists; vm_compute; reflexivity|].
    split; vm_compute; reflexivity.
  - split; [vm_compute; reflexivity|].
    split; [eexists; vm_compute; reflexivity|].
    split; vm_compute; reflexivity.
  - split; vm_compute; reflexivity.
Qed.

(** ** Cache failures do not reach the caller *)

Section lockstep.
Context {S1 S2 : Type} (R : S1 -> S2 -> Prop).
Context (s1 : AssetsService S1) (s2 : AssetsService S2).
Hypothesis L : outcome.lockstep R s1 s2.

(** Relate the states of the two runs at the next port call and name
    its two outcomes. *)
Ltac related :=
  repeat first [ assumption
               | apply (outcome.ls_Log_l R s1 s2 L)
               | apply (outcome.ls_Log_r R s1 s2 L) ].

Ltac lock_answer lemma call1 call2 :=
  let H := fresh "H" in
  let HR := fresh "HR" in
  let r1 := fresh "r" in let w1 := fresh "w" in
  let r2 := fresh "r" in let w2 := fresh "w" in
  assert (H := lemma); 
  destruct call1 as [r1 w1]; destruct call2 as [r2 w2];
  cbn [fst snd] in H; destruct H as [H HR]; subst.

Ltac lock_cache lemma call1 call2 :=
  let HR := fresh "HR" in
  let r1 := fresh "r" in let w1 := fresh "w" in
  let r2 := fresh "r" in let w2 := fresh "w" in
  assert (HR := lemma);
  destruct call1 as [r1 w1]; destruct call2 as [r2 w2];
  cbn [fst snd] in HR.

Ltac lock_step :=
  lazymatch goal with
  | |- context [ports.UploadFile (storageService s1) ?k ?d ?c ?w1] =>
    lazymatch goal with
    | |- context [ports.UploadFile (storageService s2) k d c ?w2] =>
      let HRw := fresh "HRw" in
      assert (HRw : R w1 w2) by related;
      lock_answer (outcome.ls_UploadFile R s1 s2 L k d c w1 w2 HRw)
        (ports.UploadFile (storageService s1) k d c w1)
        (ports.UploadFile (storageService s2) k d c w2)
    end
  | |- context [ports.CreateAsset (assetsRepo s1) ?d ?w1] =>
    lazymatch goal with
    | |- context [ports.CreateAsset (assetsRepo s2) d ?w2] =>
      let HRw := fresh "HRw" in
      assert (HRw : R w1 w2) by related;
      lock_answer (outcome.ls_CreateAsset R s1 s2 L d w1 w2 HRw)
        (ports.CreateAsset (assetsRepo s1) d w1)
        (ports.CreateAsset (assetsRepo s2) d w2)
    end
  | |- context [ports.GetAssetByID (assetsRepo s1) ?d ?w1] =>
    lazymatch goal with
    | |- context [ports.GetAssetByID (assetsRepo s2) d ?w2] =>
      let HRw := fresh "HRw" in
      assert (HRw : R w1 w2) by related;
      lock_answer (outcome.ls_GetAssetByID R s1 s2 L d w1 w2 HRw)
        (ports.GetAssetByID (assetsRepo s1) d w1)
        (ports.GetAssetByID (assetsRepo s2) d w2)
    end
  | |- context [ports.DeleteFile (storageService s1) ?d ?w1] =>
    lazymatch goal with
    | |- context [ports.DeleteFile (storageService s2) d ?w2] =>
      let HRw := fresh "HRw" in
      assert (HRw : R w1 w2) by related;
      lock_answer (outcome.ls_DeleteFile R s1 s2 L d w1 w2 HRw)
        (ports.DeleteFile (storageService s1) d w1)
        (ports.DeleteFile (storageService s2) d w2)
    end
  | |- context [ports.DeleteAsset (assetsRepo s1) ?d ?w1] =>
    lazymatch goal with
    | |- context [ports.DeleteAsset (assetsRepo s2) d ?w2] =>
      let HRw := fresh "HRw" in
      assert (HRw : R w1 w2) by related;
      lock_answer (outcome.ls_DeleteAsset R s1 s2 L d w1 w2 HRw)
        (ports.DeleteAsset (assetsRepo s1) d w1)
        (ports.DeleteAsset (assetsRepo s2) d w2)
    end
  | |- context [ports.Set_ (cacheService s1) ?k1 ?a1 ?t1 ?w1] =>
    lazymatch goal with
    | |- context [ports.Set_ (cacheService s2) ?k2 ?a2 ?t2 ?w2] =>
      let HRw := fresh "HRw" in
      assert (HRw : R w1 w2) by related;
      lock_cache (outcome.ls_Set R s1 s2 L k1 a1 t1 k2 a2 t2 w1 w2 HRw)
        (ports.Set_ (cacheService s1) k1 a1 t1 w1)
        (ports.Set_ (cacheService s2) k2 a2 t2 w2)
    end
  | |- context [ports.Delete (cacheService s1) ?k1 ?w1] =>
    lazymatch goal with
    | |- context [ports.Delete (cacheService s2) ?k2 ?w2] =>
      let HRw := fresh "HRw" in
      assert (HRw : R w1 w2) by related;
      lock_cache (outcome.ls_Delete R s1 s2 L k1 k2 w1 w2 HRw)
        (ports.Delete (cacheService s1) k1 w1)
        (ports.Delete (cacheService s2) k2 w2)
    end
  end.

Ltac lock_done :=
  cbn [fst snd]; split; [reflexivity | solve [related]].

(** Case analysis on what is not a port call: a variable, or a pure
    function of the request. *)
Ltac lock_case :=
  first
    [ progress cbn beta iota zeta
    | match goal with
      | |- context [match ?x with _ => _ end] => is_var x; destruct x
      | |- context [match assets_service.fileKey ?d ?k with _ => _ end] =>
        destruct (assets_service.fileKey d k)
      | |- context [match marshal_metadata ?r ?h ?t ?k ?c with _ => _ end] =>
        destruct (marshal_metadata r h t k c)
      | |- context [if custom_metadata_ok ?r ?m then _ else _] =>
        destruct (custom_metadata_ok r m)
      | |- context [match UserID ?a with _ => _ end] => destruct (UserID a)
      | |- context [match deref ?p with _ => _ end] => destruct (deref p)
      | |- context [if negb (String.eqb ?x ?y) then _ else _] =>
        destruct (String.eqb x y)
      | |- context [if String.eqb ?x ?y then _ else _] =>
        destruct (String.eqb x y)
      end ].

Ltac lock_auto :=
  repeat first [ lock_done | lock_step | lock_case ].

Lemma upload1_lockstep (rt : Runtime) (createDto : CreateAssetDto)
    (fileData : bytes) (w1 : S1) (w2 : S2) :
  R w1 w2 ->
  outcome.agree R (assets_service.UploadAsset s1 rt createDto fileData w1)
    (assets_service.UploadAsset s2 rt createDto fileData w2).
Proof.
  intros HR. unfold outcome.agree, assets_service.UploadAsset,
    assets_service.warn_customMetadata.
  lock_auto.
Qed.

Lemma upload2_lockstep (rt : Runtime) (GetStoreKey : CreateAssetDto -> string)
    (GetMetadata : CreateAssetDto -> string -> string -> string)
    (createDto : CreateAssetDto) (fileData : bytes) (w1 : S1) (w2 : S2) :
  R w1 w2 ->
  outcome.agree R
    (part_008.UploadAsset s1 rt GetStoreKey GetMetadata createDto fileData w1)
    (part_008.UploadAsset s2 rt GetStoreKey GetMetadata createDto fileData w2).
Proof.
  intros HR. unfold outcome.agree, part_008.UploadAsset. lock_auto.
Qed.

Lemma delete1_lockstep (assetID userID : string) (w1 : S1) (w2 : S2) :
  R w1 w2 ->
  outcome.agree R (assets_service.DeleteAsset s1 assetID userID w1)
    (assets_service.DeleteAsset s2 assetID userID w2).
Proof.
  intros HR. unfold outcome.agree, assets_service.DeleteAsset. lock_auto.
Qed.

Lemma delete2_lockstep (assetID userID : string) (w1 : S1) (w2 : S2) :
  R w1 w2 ->
  outcome.agree R (part_008.DeleteAsset s1 assetID userID w1)
    (part_008.DeleteAsset s2 assetID userID w2).
Proof.
  intros HR. unfold outcome.agree, part_008.DeleteAsset. lock_auto.
Qed.

(** The reads, when neither run is served from the cache. *)
Lemma get1_lockstep (assetID : string) (w1 : S1) (w2 : S2) (e1 e2 : error) :
  R w1 w2 ->
  fst (ports.Get (cacheService s1) assetID
         (ports.Log (logger s1) LInfo "Getting asset by ID" w1)) = inl e1 ->
  fst (ports.Get (cacheService s2) assetID
         (ports.Log (logger s2) LInfo "Getting asset by ID" w2)) = inl e2 ->
  outcome.agree R (assets_service.GetAssetByID s1 assetID w1)
    (assets_service.GetAssetByID s2 assetID w2).
Proof.
  intros HR H1 H2. unfold outcome.agree, assets_service.GetAssetByID.
  assert (HRc := outcome.ls_Get R s1 s2 L assetID assetID
                   (ports.Log (logger s1) LInfo "Getting asset by ID" w1)
                   (ports.Log (logger s2) LInfo "Getting asset by ID" w2)
                   ltac:(related)).
  destruct (ports.Get (cacheService s1) _ _) as [r1 w1'].
  destruct (ports.Get (cacheService s2) _ _) as [r2 w2'].
  cbn [fst snd] in *. subst r1 r2. lock_auto.
Qed.

Lemma get2_lockstep (assetID : string) (w1 : S1) (w2 : S2) (e1 e2 : error) :
  R w1 w2 ->
  fst (ports.Get (cacheService s1) ("assets:" +:+ assetID)
         (ports.Log (logger s1) LInfo "Getting asset by ID" w1)) = inl e1 ->
  fst (ports.Get (cacheService s2) ("assets:" +:+ assetID)
         (ports.Log (logger s2) LInfo "Getting asset by ID" w2)) = inl e2 ->
  outcome.agree R (part_008.GetAssetByID s1 assetID w1)
    (part_008.GetAssetByID s2 assetID w2).
Proof.
  intros HR H1 H2. unfold outcome.agree, part_008.GetAssetByID.
  assert (HRc := outcome.ls_Get R s1 s2 L ("assets:" +:+ assetID)
                   ("assets:" +:+ assetID)
                   (ports.Log (logger s1) LInfo "Getting asset by ID" w1)
                   (ports.Log (logger s2) LInfo "Getting asset by ID" w2)
                   ltac:(related)).
  destruct (ports.Get (cacheService s1) _ _) as [r1 w1'].
  destruct (ports.Get (cacheService s2) _ _) as [r2 w2'].
  cbn [fst snd] in *. subst r1 r2. lock_auto.
Qed.

End lockstep.

(** Two backends that differ in the cache outcomes only are in lockstep
    on worlds that differ in the cache, the log and the record of calls
    only. *)
Lemma world_lockstep (b1 b2 : Backend) :
  outcome.same_backend_but_cache b1 b2 ->
  outcome.lockstep outcome.same_world_but_cache
    (world.NewAssetsService b1) (world.NewAssetsService b2).
Proof.
  intros (Hf & Hssl & Hep & Hbn & Hgen & Hnow).
  pose proof (Hf PutObject eq_refl) as Hput.
  pose proof (Hf RemoveObject eq_refl) as Hrm.
  pose proof (Hf SqlInsert eq_refl) as Hins.
  pose proof (Hf SqlSelect eq_refl) as Hsel.
  pose proof (Hf SqlUpdate eq_refl) as Hupd.
  unfold outcome.same_world_but_cache.
  constructor; unfold_world; intros.
  - assumption.
  - assumption.
  - unfold redis.Set_.
    destruct (faults b1 RedisSet), (faults b2 RedisSet); assumption.
  - unfold redis.Get.
    destruct (faults b1 RedisGet), (faults b2 RedisGet); cbn;
      repeat case_match; assumption.
  - unfold redis.Delete.
    destruct (faults b1 RedisDel), (faults b2 RedisDel); assumption.
  - destruct H as (Ho & Hr & Hs). unfold minio.UploadFile, minio.generateFileURL.
    rewrite Hput, Hssl, Hep, Hbn.
    destruct (faults b2 PutObject); cbn; rewrite ?Ho; auto.
  - destruct H as (Ho & Hr & Hs). unfold minio.DeleteFile. rewrite Hrm.
    destruct (faults b2 RemoveObject); cbn; rewrite ?Ho; auto.
  - destruct H as (Ho & Hr & Hs). unfold postgres.CreateAsset,
      postgres.inserted_row. rewrite Hins, Hgen, Hnow. cbn. rewrite Hr, Hs.
    destruct (faults b2 SqlInsert); cbn; [auto|].
    destruct (rows w2 !! gen_random_uuid b2 (db_seq w2)); cbn;
      rewrite ?Hr, ?Hs; auto.
  - destruct H as (Ho & Hr & Hs). unfold postgres.GetAssetByID. rewrite Hsel.
    cbn. rewrite Hr.
    destruct (faults b2 SqlSelect); cbn; [auto|].
    destruct (rows w2 !! id) as [a|]; cbn; [destruct (postgres.visible a)|];
      auto.
  - destruct H as (Ho & Hr & Hs). unfold postgres.DeleteAsset,
      postgres.soft_deleted. rewrite Hupd, Hnow. cbn. rewrite Hr.
    destruct (faults b2 SqlUpdate); cbn; [auto|].
    destruct (rows w2 !! id) as [a|]; cbn; [destruct (postgres.visible a)|];
      cbn; rewrite ?Hr; auto.
Qed.



(** ** Event dispatcher: commit on success only *)

Lemma new_reads_app (r r' : kafka.ReaderState) (l : list kafka.ReaderCall) :
  kafka.reads r' = (kafka.reads r ++ l)%list -> kafka.new_reads r r' = l.
Proof.
  intros H. unfold kafka.new_reads. rewrite H. apply drop_app_length.
Qed.

(** What a fetch that delivers a message says about the reader. *)
Lemma mem_Fetch_fetched (r : kafka.ReaderState) (m : kafka.Message) :
  fst (kafka.mem_Fetch r) = kafka.Fetched m ->
  kafka.cancelled r = false /\ kafka.fetch_errors r = [] /\
  kafka.pending r !! kafka.committed r = Some m.
Proof.
  unfold kafka.mem_Fetch.
  destruct (kafka.cancelled r); [discriminate|].
  destruct (kafka.fetch_errors r); [|discriminate].
  destruct (kafka.pending r !! kafka.committed r); [|discriminate].
  cbn. intros [= ->]. auto.
Qed.

Lemma handleMessage_succeeds {A : Type}
    (json_Unmarshal : bytes -> error + DomainEvent)
    (c : kafka.EventConsumer A) (m : kafka.Message) (a : A) :
  fst (kafka.handleMessage json_Unmarshal c m a) = Ok tt
  <-> outcome.handling_succeeds json_Unmarshal c m a.
Proof.
  unfold kafka.handleMessage, outcome.handling_succeeds,
    outcome.dispatch_state.
  destruct (json_Unmarshal (kafka.Value m)) as [err|ev]; cbn.
  - split; [discriminate|]. intros (ev & H & _). discriminate.
  - destruct (kafka.handlers c !! ev_Type ev) as [h|] eqn:Hh; cbn.
    + destruct (kafka.Handle h ev _) as [[[]| |] a'] eqn:Hr; cbn.
      * split; [|reflexivity]. intros _. exists ev. split; [reflexivity|].
        right. exists h. rewrite Hh, Hr. auto.
      * split; [discriminate|]. intros (ev' & [= <-] & [H|(h' & H & Hok)]).
        -- rewrite Hh in H. discriminate.
        -- rewrite Hh in H. injection H as <-. rewrite Hr in Hok.
           discriminate.
      * split; [discriminate|]. intros (ev' & [= <-] & [H|(h' & H & Hok)]).
        -- rewrite Hh in H. discriminate.
        -- rewrite Hh in H. injection H as <-. rewrite Hr in Hok.
           discriminate.
    + split; [|reflexivity]. intros _. exists ev. split; [reflexivity|].
      left. assumption.
Qed.

(** One pass of the loop over a delivered message. *)
Lemma iteration_commit_iff_handled {A : Type}
    (json : bytes -> error + DomainEvent) (c : kafka.EventConsumer A) (a : A)
    (r : kafka.ReaderState) (m : kafka.Message) :
  fst (kafka.mem_Fetch r) = kafka.Fetched m ->
  outcome.commit_iff_handled json c m a r.
Proof.
  intros Hfetch.
  destruct (mem_Fetch_fetched r m Hfetch) as (Hc & Hfe & Hp).
  unfold outcome.commit_iff_handled. cbv zeta.
  split; [apply handleMessage_succeeds|].
  unfold kafka.iteration, kafka.mem_reader.
  cbn [kafka.Done kafka.FetchMessage kafka.CommitMessages].
  rewrite Hc. unfold kafka.mem_Fetch. rewrite Hc, Hfe, Hp.
  destruct (kafka.handleMessage json c m a) as [[[]|e|p] a'] eqn:Hh;
    cbn [fst snd].
  - unfold kafka.mem_Commit. cbn.
    destruct (kafka.commit_fault r) as [ce|] eqn:Hcf; cbn.
    + repeat split; try discriminate.
      rewrite (new_reads_app r _ [kafka.call_Fetch; kafka.call_Commit m])
        by (cbn; rewrite <- app_assoc; reflexivity).
      set_solver.
    + repeat split; try discriminate.
      rewrite (new_reads_app r _ [kafka.call_Fetch; kafka.call_Commit m])
        by (cbn; rewrite <- app_assoc; reflexivity).
      set_solver.
  - rewrite (new_reads_app r _ [kafka.call_Fetch]) by reflexivity.
    split; [split; [intros H%list_elem_of_singleton; discriminate H | discriminate]|].
    split; [discriminate|].
    intros e' _. cbn. rewrite Hp. auto.
  - rewrite (new_reads_app r _ [kafka.call_Fetch]) by reflexivity.
    split; [split; [intros H%list_elem_of_singleton; discriminate H | discriminate]|].
    split; [discriminate|]. intros e' H. discriminate H.
Qed.

(** C5: for every message the reader delivers, one pass of the consume
    loop calls [CommitMessages] for it if and only if [handleMessage]
    returned nil, which is exactly when the body deserializes into an
    envelope and either no handler is registered for the envelope's type
    or the registered handler returns nil. After a deserialization
    failure or a handler error no commit is attempted, the committed
    offset is unchanged, the loop goes on, and the next fetch delivers
    the same message again. *)
Theorem C5_commit_iff_handling_succeeded :
  forall (A : Type) (json_Unmarshal : bytes -> error + DomainEvent)
    (c : kafka.EventConsumer A) (a : A) (r : kafka.ReaderState)
    (m : kafka.Message),
    fst (kafka.mem_Fetch r) = kafka.Fetched m ->
    outcome.commit_iff_handled json_Unmarshal c m a r.
Proof.
  intros A json c a r m Hfetch. apply iteration_commit_iff_handled, Hfetch.
Qed.

Lemma C5_commit_iff_handling_succeeded_witness :
  outcome.commit_iff_handled fixtures.json_Unmarshal_event scenario.consumer2
    (fixtures.message 0 "user.created:") fixtures.empty_world fixtures.reader0.
Proof.
  apply (C5_commit_iff_handling_succeeded World fixtures.json_Unmarshal_event
           scenario.consumer2 fixtures.empty_world fixtures.reader0
           (fixtures.message 0 "user.created:")).
  reflexivity.
Defined.

(** A run of the loop over [fixtures.reader0]: the first message is
    committed, the second one does not parse and is fetched again and
    again without ever being committed. *)
Example unparsable_message_is_refetched :
  let st := kafka.consumeMessages fixtures.json_Unmarshal_event
              scenario.consumer2 kafka.mem_reader 4
              (fixtures.empty_world, fixtures.reader0) in
  fst st = kafka.Continue /\
  kafka.reads (snd (snd st))
  = [kafka.call_Fetch; kafka.call_Commit (fixtures.message 0 "user.created:");
     kafka.call_Fetch; kafka.call_Fetch; kafka.call_Fetch] /\
  kafka.committed (snd (snd st)) = 1%nat.
Proof. vm_compute. repeat split. Qed.

(** ** The user-created handler *)

Lemma iteration_commits {A : Type} (json : bytes -> error + DomainEvent)
    (c : kafka.EventConsumer A) (m : kafka.Message) (a : A)
    (r : kafka.ReaderState) :
  fst (kafka.mem_Fetch r) = kafka.Fetched m ->
  fst (kafka.handleMessage json c m a) = Ok tt ->
  outcome.committed_by_pass json c m a r.
Proof.
  intros Hfetch Hok.
  destruct (mem_Fetch_fetched r m Hfetch) as (Hc & Hfe & Hp).
  unfold outcome.committed_by_pass. cbv zeta. split; [assumption|].
  unfold kafka.iteration, kafka.mem_reader.
  cbn [kafka.Done kafka.FetchMessage kafka.CommitMessages].
  rewrite Hc. unfold kafka.mem_Fetch. rewrite Hc, Hfe, Hp.
  destruct (kafka.handleMessage json c m a) as [h a']. cbn in Hok. subst h.
  unfold kafka.mem_Commit. cbn.
  destruct (kafka.commit_fault r) as [ce|]; cbn;
    (split; [reflexivity|]);
    (split; [apply new_reads_app; cbn; rewrite <- app_assoc; reflexivity|]);
    [discriminate | reflexivity].
Qed.

(** C10: for a user-created envelope whose decoded user id is empty, the
    registered handler returns nil and all it does is write log lines,
    whatever [UploadAsset] and the publisher are: neither is invoked.
    The dispatcher therefore takes the message as handled, and the pass
    of the consume loop that fetched it commits it, so that the reader
    moves past it. *)
Theorem C10_anonymous_user_created_is_a_no_op :
  forall (S : Type)
    (UploadAsset : CreateAssetDto -> bytes -> S -> result Asset * S)
    (eventPublisher : ports.EventPublisher S) (log : ports.Logger S)
    (EventTypeUserCreated : EventType) (GetDefaultAvatar : bytes)
    (json_Marshal : string -> error + bytes)
    (json_Unmarshal_user : bytes -> error + events.UserCreatedEvent)
    (json_Unmarshal_event : bytes -> error + DomainEvent)
    (c : kafka.EventConsumer S) (event : DomainEvent) (m : kafka.Message)
    (w : S) (r : kafka.ReaderState),
    outcome.anonymous_user_created EventTypeUserCreated json_Marshal
      json_Unmarshal_user event ->
    json_Unmarshal_event (kafka.Value m) = inr event ->
    fst (kafka.mem_Fetch r) = kafka.Fetched m ->
    outcome.handled_as_no_op log w
      (handlers.handleUserCreated UploadAsset eventPublisher log
         GetDefaultAvatar json_Marshal json_Unmarshal_user event
         (ports.Log log LInfo "Handling events" w))
      (handlers.Handle UploadAsset eventPublisher log EventTypeUserCreated
         GetDefaultAvatar json_Marshal json_Unmarshal_user event w) /\
    outcome.committed_by_pass json_Unmarshal_event
      (handlers.RegisterHandlers UploadAsset eventPublisher log
         EventTypeUserCreated GetDefaultAvatar json_Marshal
         json_Unmarshal_user c)
      m w r.
Proof.
  intros S UploadAsset pub log ty avatar marshal unmarshal json c event m w r
    (Hty & data & uce & Hm & Hu & Hid) Hev Hfetch.
  assert (Hinner : forall w0,
            handlers.handleUserCreated UploadAsset pub log avatar marshal
              unmarshal event w0
            = (Ok tt,
               ports.Log log LError "User created event missing UserID"
                 (ports.Log log LInfo "Processing user created event" w0))).
  { intros w0. unfold handlers.handleUserCreated. rewrite Hm, Hu, Hid.
    reflexivity. }
  assert (Houter : forall w0,
            fst (handlers.Handle UploadAsset pub log ty avatar marshal
                   unmarshal event w0) = Ok tt).
  { intros w0. unfold handlers.Handle. rewrite Hty, String.eqb_refl, Hinner.
    reflexivity. }
  split.
  - unfold outcome.handled_as_no_op. split; [apply Hinner|].
    unfold handlers.Handle. rewrite Hty, String.eqb_refl, !Hinner.
    reflexivity.
  - apply iteration_commits; [assumption|].
    unfold kafka.handleMessage, handlers.RegisterHandlers,
      kafka.RegisterHandler. rewrite Hev.
    cbn [kafka.handlers kafka.c_logger]. rewrite Hty, lookup_insert_eq.
    cbn [handlers.assetsHandler kafka.Handle].
    match goal with
    | |- context [handlers.Handle _ _ _ _ _ _ _ _ ?w0] =>
      specialize (Houter w0);
      destruct (handlers.Handle UploadAsset pub log ty avatar marshal
                  unmarshal event w0) as [h w']
    end.
    cbn in Houter. subst h. reflexivity.
Qed.

Lemma C10_anonymous_user_created_is_a_no_op_witness :
  let event := fixtures.event "user.created" "" in
  let m := fixtures.message 0 "user.created:" in
  let b := fixtures.backend fixtures.no_fault in
  outcome.handled_as_no_op world.log_service fixtures.empty_world
    (handlers.handleUserCreated (run.upload1 b fixtures.rt0)
       (world.publisher b) world.log_service fixtures.payload
       fixtures.json_Marshal fixtures.json_Unmarshal_user event
       (add_log LInfo "Handling events" fixtures.empty_world))
    (handlers.Handle (run.upload1 b fixtures.rt0) (world.publisher b)
       world.log_service "user.created" fixtures.payload
       fixtures.json_Marshal fixtures.json_Unmarshal_user event
       fixtures.empty_world) /\
  outcome.committed_by_pass fixtures.json_Unmarshal_event scenario.consumer1
    m fixtures.empty_world fixtures.reader0.
Proof.
  apply (C10_anonymous_user_created_is_a_no_op World
           (run.upload1 (fixtures.backend fixtures.no_fault) fixtures.rt0)
           (world.publisher (fixtures.backend fixtures.no_fault))
           world.log_service "user.created" fixtures.payload
           fixtures.json_Marshal fixtures.json_Unmarshal_user
           fixtures.json_Unmarshal_event
           {| kafka.handlers := ∅; kafka.c_logger := world.log_service |}
           (fixtures.event "user.created" "")
           (fixtures.message 0 "user.created:") fixtures.empty_world
           fixtures.reader0).
  - split; [reflexivity|]. eexists _, _. repeat split; reflexivity.
  - reflexivity.
  - reflexivity.
Defined.

(** The same handler on a user-created envelope with a user id, in front
    of each implementation of the service. With [assets_service.go] the
    request it builds (resource type ["users"], resource id nil) makes
    [UploadAsset] panic, and the panic takes the consumer down; with the
    second implementation the avatar is uploaded and the event
    published. *)
Example user_created_with_user_id :
  let r := {| kafka.pending := [fixtures.message 0 "user.created:user-1"];
              kafka.committed := 0; kafka.cancelled := false;
              kafka.fetch_errors := []; kafka.commit_fault := None;
              kafka.reads := [] |} in
  let pass c := kafka.iteration fixtures.json_Unmarshal_event c
                  kafka.mem_reader (fixtures.empty_world, r) in
  fst (pass scenario.consumer1) = kafka.Crashed nil_dereference /\
  fst (pass scenario.consumer2) = kafka.Continue /\
  published (fst (snd (pass scenario.consumer2)))
  = [("user-1", "http://minio:9000/assets/k/avatar.png")] /\
  kafka.committed (snd (snd (pass scenario.consumer2))) = 1%nat.
Proof. vm_compute. repeat split. Qed.

(** * Further properties of the code *)

(** What a successful upload by the second implementation tells. *)
Lemma upload2_ok_inv (b : Backend) (rt : Runtime)
    (K : CreateAssetDto -> string) (M : CreateAssetDto -> string -> string -> string)
    (dto : CreateAssetDto) (data : bytes) (w : World) (asset : Asset) :
  fst (run.upload2 b rt K M dto data w) = Ok asset ->
  let id := gen_random_uuid b (db_seq w) in
  faults b PutObject = None /\ faults b SqlInsert = None /\
  rows w !! id = None /\
  asset = postgres.inserted_row b id
            (part_008.assetDto dto (K dto) (minio.generateFileURL b (K dto))
               (M dto (K dto) (sha256_hex rt data)) (sha256_hex rt data)
               (Z.of_nat (length data))) /\
  objects (snd (run.upload2 b rt K M dto data w))
  = <[K dto := {| obj_data := data; obj_content_type := dto_ContentType dto |}]>
      (objects w) /\
  rows (snd (run.upload2 b rt K M dto data w)) = <[id := asset]> (rows w) /\
  cache (snd (run.upload2 b rt K M dto data w))
  = match faults b RedisSet with
    | Some _ => cache w
    | None => <["assets:" +:+ ID asset := asset]> (cache w)
    end /\
  world.new_calls w (snd (run.upload2 b rt K M dto data w))
  = [call_UploadFile (K dto); call_CreateAsset (Some (K dto));
     call_cache_Set ("assets:" +:+ ID asset)].
Proof.
  unfold run.upload2, part_008.UploadAsset. unfold_world. unfold_adapters.
  cbn. destruct (faults b PutObject); cbn; [intros H; discriminate H|].
  destruct (faults b SqlInsert); cbn;
    [destruct (faults b RemoveObject); cbn; intros H; discriminate H|].
  destruct (rows w !! gen_random_uuid b (db_seq w)) eqn:Hrow; cbn;
    [destruct (faults b RemoveObject); cbn; intros H; discriminate H|].
  destruct (faults b RedisSet); cbn; intros [= <-];
    repeat split; solve_calls.
Qed.

Lemma upload1_ok_inv (b : Backend) (rt : Runtime) (dto : CreateAssetDto)
    (data : bytes) (w : World) (asset : Asset) :
  fst (run.upload1 b rt dto data w) = Ok asset ->
  exists key meta,
    let id := gen_random_uuid b (db_seq w) in
    assets_service.fileKey dto
      (assets_service.uniqueSlug (time_Now_Unix rt) (dto_Filename dto)) = Ok key /\
    faults b PutObject = None /\ faults b SqlInsert = None /\
    rows w !! id = None /\
    asset = postgres.inserted_row b id
              (assets_service.assetDto dto key (minio.generateFileURL b key)
                 ("assets/" +:+ uuid_New rt) meta (sha256_hex rt data)
                 (Z.of_nat (length data))) /\
    objects (snd (run.upload1 b rt dto data w))
    = <[key := {| obj_data := data; obj_content_type := dto_ContentType dto |}]>
        (objects w) /\
    rows (snd (run.upload1 b rt dto data w)) = <[id := asset]> (rows w) /\
    cache (snd (run.upload1 b rt dto data w))
    = match faults b RedisSet with
      | Some _ => cache w
      | None => <["asset:" +:+ uuid_New rt := asset]> (cache w)
      end /\
    world.new_calls w (snd (run.upload1 b rt dto data w))
    = [call_UploadFile key; call_CreateAsset (Some key);
       call_cache_Set ("asset:" +:+ uuid_New rt)].
Proof.
  unfold run.upload1, assets_service.UploadAsset,
    assets_service.warn_customMetadata.
  destruct (assets_service.fileKey _ _) as [key|e|m];
    [|intros H; discriminate H..].
  unfold_world. unfold_adapters.
  cbn. destruct (faults b PutObject); cbn; [intros H; discriminate H|].
  destruct (marshal_metadata _ _ _ _ _) as [e|meta]; cbn;
    [intros H; discriminate H|].
  destruct (faults b SqlInsert); cbn;
    [destruct (faults b RemoveObject); cbn; intros H; discriminate H|].
  destruct (String.eqb (dto_Metadata dto) "");
    [|destruct (custom_metadata_ok rt (dto_Metadata dto))]; cbn;
    (destruct (rows w !! gen_random_uuid b (db_seq w)) eqn:Hrow; cbn;
     [destruct (faults b RemoveObject); cbn; intros H; discriminate H|]);
    (destruct (faults b RedisSet); cbn; intros [= <-];
     exists key, meta; repeat split; solve_calls).
Qed.

(** ** Reads of one asset *)

Lemma redis_Get_hit (b : Backend) (w : World) (key : string) (a : Asset) :
  faults b RedisGet = None -> cache w !! key = Some a ->
  forall (l : Level) (m : string),
    redis.Get b key (add_log l m w)
    = (inr a, record_call (call_cache_Get key) (add_log l m w)).
Proof.
  intros Hf Hc l m. unfold redis.Get. rewrite Hf. cbn. rewrite Hc. reflexivity.
Qed.

Lemma cache_hit_or_missed (b : Backend) (w : World) (key : string) :
  outcome.cache_missed b w key \/
  exists a, faults b RedisGet = None /\ cache w !! key = Some a.
Proof.
  unfold outcome.cache_missed.
  destruct (faults b RedisGet); [left; left; discriminate|].
  destruct (cache w !! key) as [a|]; [right; eauto | left; right; reflexivity].
Qed.

Lemma get1_hit (b : Backend) (w : World) (assetID : string) (a : Asset) :
  faults b RedisGet = None ->
  cache w !! assetID = Some a ->
  fst (run.get1 b assetID w) = Ok a /\
  world.new_calls w (snd (run.get1 b assetID w)) = [call_cache_Get assetID].
Proof.
  intros Hget Hhit. unfold run.get1, assets_service.GetAssetByID.
  unfold_world. rewrite (redis_Get_hit _ _ _ _ Hget Hhit).
  split; [reflexivity | solve_calls].
Qed.

Lemma get1_miss_found (b : Backend) (w : World) (assetID : string)
    (asset : Asset) :
  outcome.cache_missed b w assetID ->
  faults b SqlSelect = None ->
  outcome.stored w assetID asset ->
  fst (run.get1 b assetID w) = Ok asset.
Proof.
  intros Hmiss Hsel [Hrow Hvis].
  destruct (redis_Get_missed _ _ _ Hmiss) as [e He].
  unfold run.get1, assets_service.GetAssetByID.
  unfold_world. rewrite He.
  unfold_adapters. cbn. rewrite Hsel. cbn. rewrite Hrow. cbn.
  rewrite Hvis. reflexivity.
Qed.


(** ** Deletes *)

Lemma soft_deleted_hidden (b : Backend) (a : Asset) :
  postgres.visible (postgres.soft_deleted b a) = false.
Proof. unfold postgres.visible. cbn. apply andb_false_r. Qed.

Lemma owner_check_ok (asset : Asset) (userID : string) :
  match UserID asset with
  | Some owner => negb (String.eqb owner userID)
  | None => false
  end = false ->
  outcome.owner_ok asset userID.
Proof.
  unfold outcome.owner_ok. destruct (UserID asset) as [o|]; [|auto].
  intros H. apply negb_false_iff, String.eqb_eq in H. subst. auto.
Qed.

(** What a successful delete by the second implementation tells. *)
Lemma delete2_ok_inv (b : Backend) (w : World) (assetID userID : string) :
  fst (run.delete2 b assetID userID w) = Ok tt ->
  exists asset key,
    faults b SqlSelect = None /\ faults b RemoveObject = None /\
    faults b SqlUpdate = None /\
    outcome.stored w assetID asset /\ outcome.owner_ok asset userID /\
    StorageKey asset = Some key /\
    objects (snd (run.delete2 b assetID userID w)) = delete key (objects w) /\
    rows (snd (run.delete2 b assetID userID w))
    = <[assetID := postgres.soft_deleted b asset]> (rows w) /\
    cache (snd (run.delete2 b assetID userID w))
    = match faults b RedisDel with
      | Some _ => cache w
      | None => delete ("assets:" +:+ assetID) (cache w)
      end /\
    world.new_calls w (snd (run.delete2 b assetID userID w))
    = [call_GetAssetByID assetID; call_DeleteFile key;
       call_cache_Delete ("assets:" +:+ assetID); call_DeleteAsset assetID].
Proof.
  unfold run.delete2, part_008.DeleteAsset. unfold_world. unfold_adapters.
  cbn. destruct (faults b SqlSelect); cbn; [intros H; discriminate H|].
  destruct (rows w !! assetID) as [asset|] eqn:Hrow; cbn;
    [|intros H; discriminate H].
  destruct (postgres.visible asset) eqn:Hvis; cbn; [|intros H; discriminate H].
  destruct (match UserID asset with
            | Some owner => negb (String.eqb owner userID)
            | None => false
            end) eqn:Hown; cbn; [intros H; discriminate H|].
  apply owner_check_ok in Hown.
  destruct (StorageKey asset) as [key|] eqn:Hkey; cbn;
    [|intros H; discriminate H].
  destruct (faults b RemoveObject); cbn; [intros H; discriminate H|].
  destruct (faults b SqlUpdate); cbn;
    [destruct (faults b RedisDel); cbn; intros H; discriminate H|].
  destruct (faults b RedisDel); cbn; rewrite Hrow; cbn; rewrite Hvis; cbn;
    intros _; exists asset, key; unfold outcome.stored;
    repeat split; auto; solve_calls.
Qed.

(** What a successful delete by [assets_service.go] tells. *)
Lemma delete1_ok_inv (b : Backend) (w : World) (assetID userID : string) :
  fst (run.delete1 b assetID userID w) = Ok tt ->
  exists asset,
    faults b SqlSelect = None /\ faults b SqlUpdate = None /\
    outcome.stored w assetID asset /\ outcome.owner_ok asset userID /\
    objects (snd (run.delete1 b assetID userID w)) = objects w /\
    rows (snd (run.delete1 b assetID userID w))
    = <[assetID := postgres.soft_deleted b asset]> (rows w) /\
    cache (snd (run.delete1 b assetID userID w)) = cache w.
Proof.
  unfold run.delete1, assets_service.DeleteAsset. unfold_world. unfold_adapters.
  cbn. destruct (faults b SqlSelect); cbn; [intros H; discriminate H|].
  destruct (rows w !! assetID) as [asset|] eqn:Hrow; cbn;
    [|intros H; discriminate H].
  destruct (postgres.visible asset) eqn:Hvis; cbn; [|intros H; discriminate H].
  destruct (match UserID asset with
            | Some owner => negb (String.eqb owner userID)
            | None => false
            end) eqn:Hown; cbn; [intros H; discriminate H|].
  apply owner_check_ok in Hown.
  destruct (faults b SqlUpdate); cbn; [intros H; discriminate H|].
  rewrite Hrow; cbn; rewrite Hvis; cbn.
  intros _; exists asset; unfold outcome.stored; repeat split; auto.
Qed.

Lemma delete_of_missing_row (b : Backend) (w : World) (assetID userID : string) :
  faults b SqlSelect = None ->
  outcome.not_stored w assetID ->
  lifecycle.delete_not_found w assetID (run.delete1 b assetID userID w) /\
  lifecycle.delete_not_found w assetID (run.delete2 b assetID userID w).
Proof.
  intros Hsel Hrow.
  unfold lifecycle.delete_not_found, run.delete1, run.delete2,
    assets_service.DeleteAsset, part_008.DeleteAsset.
  unfold_world. unfold_adapters. cbn. rewrite Hsel. cbn.
  destruct Hrow as [Hrow|(a & Hrow & Hvis)]; rewrite Hrow; cbn;
    rewrite ?Hvis; cbn; repeat split; solve_calls.
Qed.

(** ** Compositions *)

Lemma inserted_row_visible (b : Backend) (id : string) (dto : CreateAssetDto) :
  postgres.visible (postgres.inserted_row b id dto) = true.
Proof. reflexivity. Qed.

(** A read by the second implementation returns [a] when the row is
    there and the cache, if it answers, answers [a]. *)
Lemma get2_returns (b : Backend) (w : World) (assetID : string) (a : Asset) :
  faults b SqlSelect = None ->
  outcome.stored w assetID a ->
  (forall c, cache w !! ("assets:" +:+ assetID) = Some c -> c = a) ->
  fst (run.get2 b assetID w) = Ok a.
Proof.
  intros Hsel Hst Hc.
  destruct (cache_hit_or_missed b w ("assets:" +:+ assetID))
    as [Hmiss|(c & Hget & Hhit)].
  - apply (get2_miss_found b w assetID a Hmiss Hsel Hst).
  - rewrite (Hc c Hhit) in Hhit. apply (get2_hit b w assetID a Hget Hhit).
Qed.

Lemma get1_returns (b : Backend) (w : World) (assetID : string) (a : Asset) :
  faults b SqlSelect = None ->
  outcome.stored w assetID a ->
  (forall c, cache w !! assetID = Some c -> c = a) ->
  fst (run.get1 b assetID w) = Ok a.
Proof.
  intros Hsel Hst Hc.
  destruct (cache_hit_or_missed b w assetID) as [Hmiss|(c & Hget & Hhit)].
  - apply (get1_miss_found b w assetID a Hmiss Hsel Hst).
  - rewrite (Hc c Hhit) in Hhit. apply (get1_hit b w assetID a Hget Hhit).
Qed.

(** X1: upload, then read, in the second implementation. When an upload
    returned an asset and the cache held nothing under the asset's key
    before, a read of the asset's id in the world the upload left returns
    that asset, whether or not the cache works; when the cache write and
    the cache read work, the read is served by the entry the upload
    wrote, and the cache read is its only call. *)
Theorem X1_upload2_then_get2 :
  forall (b : Backend) (rt : Runtime) (K : CreateAssetDto -> string)
    (M : CreateAssetDto -> string -> string -> string)
    (dto : CreateAssetDto) (data : bytes) (w : World) (a : Asset),
    fst (run.upload2 b rt K M dto data w) = Ok a ->
    faults b SqlSelect = None ->
    cache w !! ("assets:" +:+ ID a) = None ->
    let w' := snd (run.upload2 b rt K M dto data w) in
    fst (run.get2 b (ID a) w') = Ok a /\
    (faults b RedisSet = None -> faults b RedisGet = None ->
     world.new_calls w' (snd (run.get2 b (ID a) w'))
     = [call_cache_Get ("assets:" +:+ ID a)]).
Proof.
  intros b rt K M dto data w a Hok Hsel Hcold.
  destruct (upload2_ok_inv b rt K M dto data w a Hok)
    as (_ & _ & Hfresh & Ha & _ & Hrows & Hcache & _).
  cbv zeta.
  assert (Hid : ID a = gen_random_uuid b (db_seq w)) by (rewrite Ha; reflexivity).
  split.
  - apply get2_returns; [assumption| |].
    + split; [rewrite Hrows, Hid; apply lookup_insert_eq|].
      rewrite Ha. reflexivity.
    + intros c. rewrite Hcache. destruct (faults b RedisSet).
      * rewrite Hcold. discriminate.
      * rewrite lookup_insert_eq. congruence.
  - intros Hset Hget. eapply proj2, get2_hit; [assumption|].
    rewrite Hcache, Hset. apply lookup_insert_eq.
Qed.

Lemma X1_upload2_then_get2_witness :
  let b := fixtures.backend fixtures.no_fault in
  fst (run.get2 b "row-0" scenario.after_upload) = Ok scenario.report /\
  world.new_calls scenario.after_upload
    (snd (run.get2 b "row-0" scenario.after_upload))
  = [call_cache_Get "assets:row-0"].
Proof.
  destruct (X1_upload2_then_get2 (fixtures.backend fixtures.no_fault)
              fixtures.rt0 fixtures.GetStoreKey fixtures.GetMetadata
              fixtures.document_request fixtures.payload fixtures.empty_world
              scenario.report) as [H1 H2].
  - vm_compute. reflexivity.
  - reflexivity.
  - vm_compute. reflexivity.
  - split; [exact H1 | apply H2; reflexivity].
Defined.

(** X2: upload, then read, in [assets_service.go]. When an upload
    returned an asset, the database read works, the cache held nothing
    under the id of the new row before, and that id is not the key
    [asset:<uuid of the service>] the upload caches under, a read of the
    id returns the uploaded asset and takes it from the repository: its
    two calls are the cache read, which misses, and the repository read.
    The entry the upload wrote is under another key than the one the
    read looks up. *)
Theorem X2_upload1_then_get1 :
  forall (b : Backend) (rt : Runtime) (dto : CreateAssetDto) (data : bytes)
    (w : World) (a : Asset),
    fst (run.upload1 b rt dto data w) = Ok a ->
    faults b SqlSelect = None ->
    cache w !! ID a = None ->
    ID a <> "asset:" +:+ uuid_New rt ->
    let w' := snd (run.upload1 b rt dto data w) in
    fst (run.get1 b (ID a) w') = Ok a /\
    world.new_calls w' (snd (run.get1 b (ID a) w'))
    = [call_cache_Get (ID a); call_GetAssetByID (ID a)].
Proof.
  intros b rt dto data w a Hok Hsel Hcold Hne.
  destruct (upload1_ok_inv b rt dto data w a Hok)
    as (key & meta & _ & _ & _ & Hfresh & Ha & _ & Hrows & Hcache & _).
  cbv zeta.
  assert (Hid : ID a = gen_random_uuid b (db_seq w)) by (rewrite Ha; reflexivity).
  assert (Hst : outcome.stored (snd (run.upload1 b rt dto data w)) (ID a) a).
  { split; [rewrite Hrows, Hid; apply lookup_insert_eq|].
    rewrite Ha. reflexivity. }
  assert (Hmiss : outcome.cache_missed b (snd (run.upload1 b rt dto data w))
                    (ID a)).
  { right. rewrite Hcache. destruct (faults b RedisSet); [assumption|].
    rewrite lookup_insert_ne by congruence. assumption. }
  split; [apply get1_miss_found; assumption|].
  destruct Hst as [Hrow Hvis].
  destruct (redis_Get_missed _ _ _ Hmiss) as [e He].
  unfold run.get1, assets_service.GetAssetByID. unfold_world. rewrite He.
  unfold_adapters. cbn. rewrite Hsel. cbn. rewrite Hrow. cbn. rewrite Hvis.
  solve_calls.
Qed.

Lemma X2_upload1_then_get1_witness :
  let b := fixtures.backend fixtures.no_fault in
  let w' := snd (run.upload1 b fixtures.rt0 fixtures.document_request
                   fixtures.payload fixtures.empty_world) in
  fst (run.get1 b "row-0" w') = Ok lifecycle.report1 /\
  world.new_calls w' (snd (run.get1 b "row-0" w'))
  = [call_cache_Get "row-0"; call_GetAssetByID "row-0"].
Proof.
  apply (X2_upload1_then_get1 (fixtures.backend fixtures.no_fault) fixtures.rt0
           fixtures.document_request fixtures.payload fixtures.empty_world
           lifecycle.report1).
  - vm_compute. reflexivity.
  - reflexivity.
  - vm_compute. reflexivity.
  - intros H. vm_compute in H. discriminate H.
Defined.

(** X3: delete, then read, in the second implementation, the cache
    delete having worked: the read answers [resource_not_found_error]
    with the cause ["asset not found"]. *)
Theorem X3_delete2_then_get2_not_found :
  forall (b : Backend) (w : World) (assetID userID : string),
    fst (run.delete2 b assetID userID w) = Ok tt ->
    faults b RedisDel = None ->
    fst (run.get2 b assetID (snd (run.delete2 b assetID userID w)))
    = Err (DomainError ResourceNotFoundError "Asset not found"
             (errors_New "asset not found")).
Proof.
  intros b w assetID userID Hok Hdel.
  destruct (delete2_ok_inv b w assetID userID Hok)
    as (asset & key & Hsel & _ & _ & _ & _ & _ & _ & Hrows & Hcache & _).
  apply get2_miss_not_found; [|assumption|].
  - right. rewrite Hcache, Hdel. apply lookup_delete_eq.
  - right. exists (postgres.soft_deleted b asset).
    split; [rewrite Hrows; apply lookup_insert_eq | apply soft_deleted_hidden].
Qed.

Lemma X3_delete2_then_get2_not_found_witness :
  let b := fixtures.backend fixtures.no_fault in
  fst (run.get2 b "row-0"
         (snd (run.delete2 b "row-0" "alice" scenario.after_upload)))
  = Err (DomainError ResourceNotFoundError "Asset not found"
           (errors_New "asset not found")).
Proof.
  apply (X3_delete2_then_get2_not_found (fixtures.backend fixtures.no_fault)
           scenario.after_upload "row-0" "alice").
  - vm_compute. reflexivity.
  - reflexivity.
Defined.

(** X4: delete, then read, in the second implementation, the cache
    delete having failed. The delete swallows the failure and returns
    nil; the cache entry stays, and a read whose cache read works returns
    the cached asset although the row is soft-deleted and the object of
    the row is gone from the store. *)
Theorem X4_delete2_then_get2_stale :
  forall (b : Backend) (w : World) (assetID userID : string) (a : Asset)
    (d : error),
    fst (run.delete2 b assetID userID w) = Ok tt ->
    faults b RedisDel = Some d ->
    faults b RedisGet = None ->
    cache w !! ("assets:" +:+ assetID) = Some a ->
    let w' := snd (run.delete2 b assetID userID w) in
    fst (run.get2 b assetID w') = Ok a /\
    outcome.not_stored w' assetID /\
    (forall row key, rows w !! assetID = Some row ->
       StorageKey row = Some key -> objects w' !! key = None).
Proof.
  intros b w assetID userID a d Hok Hdel Hget Hc.
  destruct (delete2_ok_inv b w assetID userID Hok)
    as (asset & key & Hsel & _ & _ & [Hrow _] & _ & Hkey & Hobj & Hrows
        & Hcache & _).
  cbv zeta. split; [|split].
  - eapply proj1, get2_hit; [assumption|]. rewrite Hcache, Hdel. assumption.
  - right. exists (postgres.soft_deleted b asset).
    split; [rewrite Hrows; apply lookup_insert_eq | apply soft_deleted_hidden].
  - intros row k Hr Hk. rewrite Hrow in Hr. injection Hr as <-.
    rewrite Hkey in Hk. injection Hk as <-. rewrite Hobj.
    apply lookup_delete_eq.
Qed.

Lemma X4_delete2_then_get2_stale_witness :
  let b := fixtures.backend (fixtures.failing [RedisDel]) in
  let w' := snd (run.delete2 b "row-0" "alice" scenario.after_upload) in
  fst (run.get2 b "row-0" w') = Ok scenario.report /\
  outcome.not_stored w' "row-0" /\
  (forall row key, rows scenario.after_upload !! "row-0" = Some row ->
     StorageKey row = Some key -> objects w' !! key = None).
Proof.
  apply (X4_delete2_then_get2_stale
           (fixtures.backend (fixtures.failing [RedisDel]))
           scenario.after_upload "row-0" "alice" scenario.report
           (fixtures.broken RedisDel)).
  - vm_compute. reflexivity.
  - reflexivity.
  - reflexivity.
  - vm_compute. reflexivity.
Defined.

(** X5: delete twice. After a successful delete, a second delete of
    the same id, by anyone, answers [resource_not_found_error], makes the
    repository read as its only call and leaves the three stores as they
    are, in both implementations. *)
Theorem X5_delete_twice_not_found :
  forall (b : Backend) (w : World) (assetID userID other : string),
    (fst (run.delete1 b assetID userID w) = Ok tt ->
     lifecycle.delete_not_found (snd (run.delete1 b assetID userID w)) assetID
       (run.delete1 b assetID other (snd (run.delete1 b assetID userID w)))) /\
    (fst (run.delete2 b assetID userID w) = Ok tt ->
     lifecycle.delete_not_found (snd (run.delete2 b assetID userID w)) assetID
       (run.delete2 b assetID other (snd (run.delete2 b assetID userID w)))).
Proof.
  intros b w assetID userID other. split; intros Hok.
  - destruct (delete1_ok_inv b w assetID userID Hok)
      as (asset & Hsel & _ & _ & _ & _ & Hrows & _).
    apply delete_of_missing_row; [assumption|].
    right. exists (postgres.soft_deleted b asset).
    split; [rewrite Hrows; apply lookup_insert_eq | apply soft_deleted_hidden].
  - destruct (delete2_ok_inv b w assetID userID Hok)
      as (asset & key & Hsel & _ & _ & _ & _ & _ & _ & Hrows & _).
    apply delete_of_missing_row; [assumption|].
    right. exists (postgres.soft_deleted b asset).
    split; [rewrite Hrows; apply lookup_insert_eq | apply soft_deleted_hidden].
Qed.

Lemma X5_delete_twice_not_found_witness :
  let b := fixtures.backend fixtures.no_fault in
  let w1 := snd (run.delete1 b "row-0" "alice" scenario.after_upload) in
  let w2 := snd (run.delete2 b "row-0" "alice" scenario.after_upload) in
  lifecycle.delete_not_found w1 "row-0" (run.delete1 b "row-0" "alice" w1) /\
  lifecycle.delete_not_found w2 "row-0" (run.delete2 b "row-0" "alice" w2).
Proof.
  destruct (X5_delete_twice_not_found (fixtures.backend fixtures.no_fault)
              scenario.after_upload "row-0" "alice" "alice") as [H1 H2].
  split; [apply H1 | apply H2]; vm_compute; reflexivity.
Defined.

(** ** Deletes that stop half-way *)

(** X6: a delete of the second implementation whose soft delete fails.
    The storage delete and the cache delete come first and are not
    undone: the call answers [unable_to_delete_error], the object is
    gone, and the row is still there and visible. *)
Theorem X6_delete2_failed_soft_delete_loses_the_object :
  forall (b : Backend) (w : World) (assetID userID key : string)
    (asset : Asset) (e : error),
    faults b SqlSelect = None ->
    faults b RemoveObject = None ->
    faults b SqlUpdate = Some e ->
    outcome.stored w assetID asset ->
    outcome.owner_ok asset userID ->
    StorageKey asset = Some key ->
    let r := run.delete2 b assetID userID w in
    fst r = Err (DomainError UnableToDeleteError "Failed to delete asset"
                   (fmt_Errorf_w "failed to delete asset" e)) /\
    objects (snd r) !! key = None /\
    outcome.stored (snd r) assetID asset /\
    world.new_calls w (snd r)
    = [call_GetAssetByID assetID; call_DeleteFile key;
       call_cache_Delete ("assets:" +:+ assetID); call_DeleteAsset assetID].
Proof.
  intros b w assetID userID key asset e Hsel Hrm Hupd [Hrow Hvis] Hown Hkey.
  apply owner_ok_check in Hown.
  unfold run.delete2, part_008.DeleteAsset, outcome.stored.
  unfold_world. unfold_adapters. cbn. rewrite Hsel. cbn. rewrite Hrow. cbn.
  rewrite Hvis. cbn. rewrite Hown, Hkey. cbn. rewrite Hrm. cbn.
  destruct (faults b RedisDel); cbn; rewrite Hupd; cbn;
    (split; [reflexivity|]); (split; [apply lookup_delete_eq|]);
    (split; [split; [exact Hrow | reflexivity] | solve_calls]).
Qed.

Lemma X6_delete2_failed_soft_delete_loses_the_object_witness :
  let b := fixtures.backend (fixtures.failing [SqlUpdate]) in
  let r := run.delete2 b "row-0" "alice" scenario.after_upload in
  fst r = Err (DomainError UnableToDeleteError "Failed to delete asset"
                 (fmt_Errorf_w "failed to delete asset"
                    (fixtures.broken SqlUpdate))) /\
  objects (snd r) !! "k/report.pdf" = None /\
  outcome.stored (snd r) "row-0" scenario.report /\
  world.new_calls scenario.after_upload (snd r)
  = [call_GetAssetByID "row-0"; call_DeleteFile "k/report.pdf";
     call_cache_Delete "assets:row-0"; call_DeleteAsset "row-0"].
Proof.
  apply (X6_delete2_failed_soft_delete_loses_the_object
           (fixtures.backend (fixtures.failing [SqlUpdate]))
           scenario.after_upload "row-0" "alice" "k/report.pdf"
           scenario.report (fixtures.broken SqlUpdate)).
  - reflexivity.
  - reflexivity.
  - reflexivity.
  - split; vm_compute; reflexivity.
  - right. reflexivity.
  - reflexivity.
Defined.

(** X7: a delete by the owner of a row whose storage key is NULL. The
    second implementation dereferences the nil [StorageKey] after the
    ownership check: it panics, with the repository read as its only
    call and the stores untouched. [assets_service.go], which never
    reads the key, soft-deletes the row. *)
Theorem X7_delete_of_a_row_without_storage_key :
  forall (b : Backend) (w : World) (assetID userID : string) (asset : Asset),
    faults b SqlSelect = None ->
    faults b SqlUpdate = None ->
    outcome.stored w assetID asset ->
    outcome.owner_ok asset userID ->
    StorageKey asset = None ->
    (fst (run.delete2 b assetID userID w) = Panic nil_dereference /\
     world.new_calls w (snd (run.delete2 b assetID userID w))
     = [call_GetAssetByID assetID] /\
     world.stores (snd (run.delete2 b assetID userID w)) = world.stores w) /\
    (fst (run.delete1 b assetID userID w) = Ok tt /\
     outcome.not_stored (snd (run.delete1 b assetID userID w)) assetID).
Proof.
  intros b w assetID userID asset Hsel Hupd [Hrow Hvis] Hown Hkey.
  apply owner_ok_check in Hown.
  unfold run.delete1, run.delete2, part_008.DeleteAsset,
    assets_service.DeleteAsset, outcome.not_stored.
  unfold_world. unfold_adapters. cbn. rewrite Hsel. cbn. rewrite Hrow. cbn.
  rewrite Hvis. cbn. rewrite Hown, Hkey. cbn. rewrite Hupd. cbn.
  rewrite Hrow. cbn. rewrite Hvis. cbn.
  split; [split; [reflexivity | split; [solve_calls | reflexivity]]|].
  split; [reflexivity|]. right. exists (postgres.soft_deleted b asset).
  split; [apply lookup_insert_eq | apply soft_deleted_hidden].
Qed.

Lemma X7_delete_of_a_row_without_storage_key_witness :
  let b := fixtures.backend fixtures.no_fault in
  (fst (run.delete2 b "row-0" "alice" lifecycle.keyless) = Panic nil_dereference /\
   world.new_calls lifecycle.keyless
     (snd (run.delete2 b "row-0" "alice" lifecycle.keyless))
   = [call_GetAssetByID "row-0"] /\
   world.stores (snd (run.delete2 b "row-0" "alice" lifecycle.keyless))
   = world.stores lifecycle.keyless) /\
  (fst (run.delete1 b "row-0" "alice" lifecycle.keyless) = Ok tt /\
   outcome.not_stored (snd (run.delete1 b "row-0" "alice" lifecycle.keyless))
     "row-0").
Proof.
  apply (X7_delete_of_a_row_without_storage_key
           (fixtures.backend fixtures.no_fault) lifecycle.keyless "row-0"
           "alice" lifecycle.keyless_row).
  - reflexivity.
  - reflexivity.
  - split; vm_compute; reflexivity.
  - right. reflexivity.
  - reflexivity.
Defined.

(** ** Uploads *)



(** X9: what a returned asset means. When [UploadAsset] returns an
    asset, the object store holds the bytes and the content type of the
    request under the asset's storage key, the table holds the asset
    under its id, which was free before, the asset is visible, its size
    and hash are those of the bytes, its owner is the owner of the
    request, its URL is the URL of the object, and its public URL is
    [/assets/<id>], in both implementations. *)
Theorem X9_upload_returns_what_it_stored :
  forall (b : Backend) (rt : Runtime) (K : CreateAssetDto -> string)
    (M : CreateAssetDto -> string -> string -> string)
    (dto : CreateAssetDto) (data : bytes) (w : World) (a : Asset),
    (fst (run.upload1 b rt dto data w) = Ok a ->
     exists key,
       assets_service.fileKey dto
         (assets_service.uniqueSlug (time_Now_Unix rt) (dto_Filename dto))
       = Ok key /\
       lifecycle.uploaded_as b rt dto data key w
         (snd (run.upload1 b rt dto data w)) a) /\
    (fst (run.upload2 b rt K M dto data w) = Ok a ->
     lifecycle.uploaded_as b rt dto data (K dto) w
       (snd (run.upload2 b rt K M dto data w)) a).
Proof.
  intros b rt K M dto data w a. split; intros Hok.
  - destruct (upload1_ok_inv b rt dto data w a Hok)
      as (key & meta & Hkey & _ & _ & Hfresh & Ha & Hobj & Hrows & _).
    exists key. split; [assumption|]. unfold lifecycle.uploaded_as.
    rewrite Hobj, Hrows. subst a. cbn [ID postgres.inserted_row].
    rewrite !lookup_insert_eq. repeat split; first [assumption | reflexivity].
  - destruct (upload2_ok_inv b rt K M dto data w a Hok)
      as (_ & _ & Hfresh & Ha & Hobj & Hrows & _).
    unfold lifecycle.uploaded_as. rewrite Hobj, Hrows. subst a.
    cbn [ID postgres.inserted_row].
    rewrite !lookup_insert_eq. repeat split; first [assumption | reflexivity].
Qed.

Lemma X9_upload_returns_what_it_stored_witness :
  let b := fixtures.backend fixtures.no_fault in
  (exists key,
     assets_service.fileKey fixtures.document_request
       (assets_service.uniqueSlug 1700000000 "report.pdf") = Ok key /\
     lifecycle.uploaded_as b fixtures.rt0 fixtures.document_request
       fixtures.payload key fixtures.empty_world
       (snd (run.upload1 b fixtures.rt0 fixtures.document_request
               fixtures.payload fixtures.empty_world))
       lifecycle.report1) /\
  lifecycle.uploaded_as b fixtures.rt0 fixtures.document_request
    fixtures.payload "k/report.pdf" fixtures.empty_world scenario.after_upload
    scenario.report.
Proof.
  split.
  - apply (proj1 (X9_upload_returns_what_it_stored
                    (fixtures.backend fixtures.no_fault) fixtures.rt0
                    fixtures.GetStoreKey fixtures.GetMetadata
                    fixtures.document_request fixtures.payload
                    fixtures.empty_world lifecycle.report1)).
    vm_compute. reflexivity.
  - apply (proj2 (X9_upload_returns_what_it_stored
                    (fixtures.backend fixtures.no_fault) fixtures.rt0
                    fixtures.GetStoreKey fixtures.GetMetadata
                    fixtures.document_request fixtures.payload
                    fixtures.empty_world scenario.report)).
    vm_compute. reflexivity.
Defined.

(** ** Reads when the database fails *)

(** X10: a read that misses the cache while the database fails answers
    [resource_not_found_error] wrapping the database error, and the gRPC
    [GetAsset] in front of it answers with the code [NotFound], in both
    implementations, whether or not the row exists. *)
Theorem X10_read_reports_database_failure_as_not_found :
  forall (b : Backend) (w : World) (assetID : string) (e : error),
    faults b SqlSelect = Some e ->
    let err := DomainError ResourceNotFoundError "Asset not found"
                 (fmt_Errorf_w "failed to get asset" e) in
    (outcome.cache_missed b w assetID ->
     fst (run.get1 b assetID w) = Err err /\
     fst (rpc.GetAsset1 b assetID w)
     = Err (status_Errorf_v "NotFound" "asset not found" err)) /\
    (outcome.cache_missed b w ("assets:" +:+ assetID) ->
     fst (run.get2 b assetID w) = Err err /\
     fst (rpc.GetAsset2 b assetID w)
     = Err (status_Errorf_v "NotFound" "asset not found" err)).
Proof.
  intros b w assetID e Hsel. cbv zeta. split; intros Hmiss.
  - destruct (redis_Get_missed _ _ _ Hmiss) as [c Hc].
    assert (H : forall l m, fst (run.get1 b assetID (add_log l m w))
              = Err (DomainError ResourceNotFoundError "Asset not found"
                       (fmt_Errorf_w "failed to get asset" e))).
    { intros l m. unfold run.get1, assets_service.GetAssetByID.
      unfold_world.
      assert (Hm : outcome.cache_missed b (add_log l m w) assetID)
        by exact Hmiss.
      destruct (redis_Get_missed _ _ _ Hm) as [c' Hc']. rewrite Hc'.
      unfold_adapters. cbn. rewrite Hsel. reflexivity. }
    split.
    + unfold run.get1, assets_service.GetAssetByID. unfold_world. rewrite Hc.
      unfold_adapters. cbn. rewrite Hsel. reflexivity.
    + unfold rpc.GetAsset1, grpc_server.GetAsset. cbn [ports.Log world.log_service].
      specialize (H LInfo "gRPC GetAsset called").
      destruct (run.get1 b assetID (add_log LInfo "gRPC GetAsset called" w))
        as [r w']. cbn in H. rewrite H. reflexivity.
  - destruct (redis_Get_missed _ _ _ Hmiss) as [c Hc].
    assert (H : forall l m, fst (run.get2 b assetID (add_log l m w))
              = Err (DomainError ResourceNotFoundError "Asset not found"
                       (fmt_Errorf_w "failed to get asset" e))).
    { intros l m. unfold run.get2, part_008.GetAssetByID.
      unfold_world.
      assert (Hm : outcome.cache_missed b (add_log l m w)
                     ("assets:" +:+ assetID)) by exact Hmiss.
      destruct (redis_Get_missed _ _ _ Hm) as [c' Hc']. rewrite Hc'.
      unfold_adapters. cbn. rewrite Hsel. reflexivity. }
    split.
    + unfold run.get2, part_008.GetAssetByID. unfold_world. rewrite Hc.
      unfold_adapters. cbn. rewrite Hsel. reflexivity.
    + unfold rpc.GetAsset2, grpc_server.GetAsset. cbn [ports.Log world.log_service].
      specialize (H LInfo "gRPC GetAsset called").
      destruct (run.get2 b assetID (add_log LInfo "gRPC GetAsset called" w))
        as [r w']. cbn in H. rewrite H. reflexivity.
Qed.

Lemma X10_read_reports_database_failure_as_not_found_witness :
  let b := fixtures.backend (fixtures.failing [SqlSelect]) in
  let err := DomainError ResourceNotFoundError "Asset not found"
               (fmt_Errorf_w "failed to get asset" (fixtures.broken SqlSelect)) in
  (fst (run.get1 b "row-0" scenario.cold) = Err err /\
   fst (rpc.GetAsset1 b "row-0" scenario.cold)
   = Err (status_Errorf_v "NotFound" "asset not found" err)) /\
  (fst (run.get2 b "row-0" scenario.cold) = Err err /\
   fst (rpc.GetAsset2 b "row-0" scenario.cold)
   = Err (status_Errorf_v "NotFound" "asset not found" err)).
Proof.
  destruct (X10_read_reports_database_failure_as_not_found
              (fixtures.backend (fixtures.failing [SqlSelect]))
              scenario.cold "row-0" (fixtures.broken SqlSelect) eq_refl)
    as [H1 H2].
  split; [apply H1 | apply H2]; right; vm_compute; reflexivity.
Defined.

(** ** The gRPC delete *)

Lemma DeleteAsset_rpc_error {S : Type} (logger : ports.Logger S)
    (DeleteAsset : string -> string -> S -> result unit * S)
    (assetId userId : string) (w : S) (e : error) :
  fst (DeleteAsset assetId userId
         (ports.Log logger LInfo "gRPC DeleteAsset called" w)) = Err e ->
  fst (grpc_server.DeleteAsset_rpc logger DeleteAsset assetId userId w)
  = Err (status_Errorf_v "Internal" "failed to delete asset" e).
Proof.
  unfold grpc_server.DeleteAsset_rpc.
  destruct (DeleteAsset assetId userId _) as [r w']. cbn. intros ->.
  reflexivity.
Qed.

Lemma delete_by_non_owner (b : Backend) (w : World)
    (assetID userID owner : string) (asset : Asset) :
  faults b SqlSelect = None ->
  outcome.stored w assetID asset ->
  UserID asset = Some owner ->
  owner <> userID ->
  let e := DomainError UnauthorizedError "Asset does not belong to user"
             (errors_New "Asset not found") in
  (fst (run.delete1 b assetID userID w) = Err e /\
   world.stores (snd (run.delete1 b assetID userID w)) = world.stores w) /\
  (fst (run.delete2 b assetID userID w) = Err e /\
   world.stores (snd (run.delete2 b assetID userID w)) = world.stores w).
Proof.
  intros Hsel [Hrow Hvis] Hown Hne.
  apply String.eqb_neq in Hne.
  unfold run.delete1, run.delete2, assets_service.DeleteAsset,
    part_008.DeleteAsset.
  unfold_world. unfold_adapters. cbn. rewrite Hsel. cbn. rewrite Hrow. cbn.
  rewrite Hvis. cbn. rewrite Hown, Hne. cbn. repeat split.
Qed.

(** X11: the gRPC [DeleteAsset] called for a user who does not own the
    asset answers with the code [Internal], wrapping the
    [unauthorized_error] of the service, whose cause reads
    ["Asset not found"], in front of both implementations. *)
Theorem X11_grpc_delete_by_non_owner_answers_internal :
  forall (b : Backend) (w : World) (assetID userID owner : string)
    (asset : Asset),
    faults b SqlSelect = None ->
    outcome.stored w assetID asset ->
    UserID asset = Some owner ->
    owner <> userID ->
    let e := status_Errorf_v "Internal" "failed to delete asset"
               (DomainError UnauthorizedError "Asset does not belong to user"
                  (errors_New "Asset not found")) in
    fst (rpc.DeleteAsset1 b assetID userID w) = Err e /\
    fst (rpc.DeleteAsset2 b assetID userID w) = Err e.
Proof.
  intros b w assetID userID owner asset Hsel Hst Hown Hne. cbv zeta.
  destruct (delete_by_non_owner b
              (add_log LInfo "gRPC DeleteAsset called" w) assetID userID
              owner asset Hsel Hst Hown Hne) as [[H1 _] [H2 _]].
  split; apply DeleteAsset_rpc_error; assumption.
Qed.

Lemma X11_grpc_delete_by_non_owner_answers_internal_witness :
  let b := fixtures.backend fixtures.no_fault in
  let e := status_Errorf_v "Internal" "failed to delete asset"
             (DomainError UnauthorizedError "Asset does not belong to user"
                (errors_New "Asset not found")) in
  fst (rpc.DeleteAsset1 b "row-0" "mallory" scenario.after_upload) = Err e /\
  fst (rpc.DeleteAsset2 b "row-0" "mallory" scenario.after_upload) = Err e.
Proof.
  apply (X11_grpc_delete_by_non_owner_answers_internal
           (fixtures.backend fixtures.no_fault) scenario.after_upload
           "row-0" "mallory" "alice" scenario.report).
  - reflexivity.
  - split; vm_compute; reflexivity.
  - reflexivity.
  - discriminate.
Defined.

(** ** The list query *)

Lemma newer_first_total : Total listing.newer_first.
Proof. intros a b. unfold listing.newer_first. lia. Qed.

Lemma newer_first_trans : Transitive listing.newer_first.
Proof. intros a b c. unfold listing.newer_first. lia. Qed.

Lemma select_by_user_length (w : World) (userID : string) :
  length (listing.select_by_user w userID)
  = length (filter (listing.owned_by userID) (snd <$> map_to_list (rows w))).
Proof.
  unfold listing.select_by_user. apply Permutation_length.
  apply merge_sort_Permutation.
Qed.

Lemma select_by_user_elem (w : World) (userID : string) (a : Asset) :
  a ∈ listing.select_by_user w userID <->
  (exists id, rows w !! id = Some a) /\ listing.owned_by userID a.
Proof.
  unfold listing.select_by_user. rewrite merge_sort_Permutation.
  rewrite list_elem_of_filter, list_elem_of_fmap. split.
  - intros [Hown ([id a'] & -> & Hin)]. split; [|assumption].
    exists id. apply elem_of_map_to_list in Hin. assumption.
  - intros [[id Hid] Hown]. split; [assumption|].
    exists (id, a). split; [reflexivity|]. apply elem_of_map_to_list.
    assumption.
Qed.

Lemma list_assets_ok_inv (b : Backend) (w : World) (userID : string)
    (limit offset : Z) (page : list Asset) (total : Z) :
  fst (listing.list_assets b userID limit offset w) = Ok (page, total) ->
  faults b SqlSelect = None /\ 0 <= limit /\ 0 <= offset /\
  page = take (Z.to_nat limit)
           (drop (Z.to_nat offset) (listing.select_by_user w userID)) /\
  total = Z.of_nat (length (listing.select_by_user w userID)) /\
  snd (listing.list_assets b userID limit offset w)
  = add_log LInfo "Getting assets by user ID" w.
Proof.
  unfold listing.list_assets, listing.GetAssetsByUserID,
    listing.repo_GetAssetsByUserID. cbn [ports.Log world.log_service].
  destruct (faults b SqlSelect); cbn; [intros H; discriminate H|].
  destruct (limit <? 0) eqn:Hl; cbn; [intros H; discriminate H|].
  destruct (offset <? 0) eqn:Ho; cbn; [intros H; discriminate H|].
  intros [= <- <-]. apply Z.ltb_ge in Hl, Ho. repeat split; assumption.
Qed.

(** X12: a page of [GetAssetsByUserID]. When the call returns a page
    and a total, the total is the number of visible rows of the user,
    the page has [min(limit, max(0, total - offset))] assets, it is
    sorted by [created_at], newest first, every asset on it is a visible
    row of the user, and the stores are as before. *)
Theorem X12_list_assets_page :
  forall (b : Backend) (w : World) (userID : string) (limit offset : Z)
    (page : list Asset) (total : Z),
    fst (listing.list_assets b userID limit offset w) = Ok (page, total) ->
    total = Z.of_nat (length (filter (listing.owned_by userID)
                                (snd <$> map_to_list (rows w)))) /\
    Z.of_nat (length page) = Z.min limit (Z.max 0 (total - offset)) /\
    StronglySorted listing.newer_first page /\
    (forall a, a ∈ page ->
       (exists id, rows w !! id = Some a) /\
       UserID a = Some userID /\ postgres.visible a = true) /\
    world.stores (snd (listing.list_assets b userID limit offset w))
    = world.stores w.
Proof.
  intros b w userID limit offset page total Hok.
  destruct (list_assets_ok_inv b w userID limit offset page total Hok)
    as (_ & Hl & Ho & -> & -> & ->).
  split; [rewrite select_by_user_length; reflexivity|].
  split; [rewrite length_take, length_drop; lia|].
  split.
  - assert (Hs : StronglySorted listing.newer_first
                   (listing.select_by_user w userID))
      by (apply StronglySorted_merge_sort;
          [apply newer_first_trans | apply newer_first_total]).
    rewrite <- (take_drop (Z.to_nat offset)) in Hs.
    apply StronglySorted_app_1_r in Hs.
    rewrite <- (take_drop (Z.to_nat limit)) in Hs.
    apply StronglySorted_app_1_l in Hs. exact Hs.
  - split; [|reflexivity]. intros a Ha.
    apply select_by_user_elem.
    eapply elem_of_sublist; [|apply sublist_drop].
    eapply elem_of_sublist; [exact Ha | apply sublist_take].
Qed.

Lemma X12_list_assets_page_witness :
  let b := fixtures.backend fixtures.no_fault in
  1 = Z.of_nat (length (filter (listing.owned_by "alice")
                          (snd <$> map_to_list (rows scenario.after_upload)))) /\
  Z.of_nat (length [scenario.report]) = Z.min 10 (Z.max 0 (1 - 0)) /\
  StronglySorted listing.newer_first [scenario.report] /\
  (forall a, a ∈ [scenario.report] ->
     (exists id, rows scenario.after_upload !! id = Some a) /\
     UserID a = Some "alice" /\ postgres.visible a = true) /\
  world.stores (snd (listing.list_assets b "alice" 10 0 scenario.after_upload))
  = world.stores scenario.after_upload.
Proof.
  apply (X12_list_assets_page (fixtures.backend fixtures.no_fault)
           scenario.after_upload "alice" 10 0 [scenario.report] 1).
  vm_compute. reflexivity.
Defined.

(** The number of rows the list query counts for [userID]. *)
Lemma count_insert (m : gmap string Asset) (i : string) (x : Asset)
    (userID : string) :
  length (filter (listing.owned_by userID) (snd <$> map_to_list (<[i := x]> m)))
  = (length (filter (listing.owned_by userID) [x])
     + length (filter (listing.owned_by userID)
                 (snd <$> map_to_list (delete i m))))%nat.
Proof.
  rewrite <- insert_delete_eq.
  rewrite (Permutation_length
             (filter_Permutation _ _ _
                (fmap_Permutation snd _ _
                   (map_to_list_insert (delete i m) i x (lookup_delete_eq m i))))).
  rewrite fmap_cons. cbn [snd].
  rewrite filter_cons, (filter_cons _ x []), filter_nil.
  destruct (decide _); reflexivity.
Qed.

Lemma count_delete (m : gmap string Asset) (i : string) (y : Asset)
    (userID : string) :
  m !! i = Some y ->
  length (filter (listing.owned_by userID) (snd <$> map_to_list m))
  = (length (filter (listing.owned_by userID) [y])
     + length (filter (listing.owned_by userID)
                 (snd <$> map_to_list (delete i m))))%nat.
Proof.
  intros H.
  rewrite <- (Permutation_length
                (filter_Permutation _ _ _
                   (fmap_Permutation snd _ _ (map_to_list_delete m i y H)))).
  rewrite fmap_cons. cbn [snd].
  rewrite filter_cons, (filter_cons _ y []), filter_nil.
  destruct (decide _); reflexivity.
Qed.

Lemma visible_owned (userID : string) (a : Asset) :
  postgres.visible a = true ->
  length (filter (listing.owned_by userID) [a])
  = if decide (UserID a = Some userID) then 1%nat else 0%nat.
Proof.
  intros Hvis. rewrite filter_cons, filter_nil. unfold listing.owned_by.
  destruct (decide (UserID a = Some userID)) as [Hu|Hu];
    destruct (decide _) as [H|H]; try reflexivity; tauto.
Qed.

Lemma hidden_not_owned (userID : string) (a : Asset) :
  postgres.visible a = false ->
  length (filter (listing.owned_by userID) [a]) = 0%nat.
Proof.
  intros Hvis. rewrite filter_cons, filter_nil. unfold listing.owned_by.
  destruct (decide _) as [[_ H]|H]; [congruence | reflexivity].
Qed.

Lemma totals_after_soft_delete (b : Backend) (w w' : World)
    (assetID : string) (asset : Asset) :
  outcome.stored w assetID asset ->
  rows w' = <[assetID := postgres.soft_deleted b asset]> (rows w) ->
  totals.after_delete b w w' assetID.
Proof.
  intros [Hrow Hvis] Hrows u limit offset p p' t t' asset' Hrow' Hl Hl'.
  rewrite Hrow in Hrow'. injection Hrow' as <-.
  destruct (list_assets_ok_inv _ _ _ _ _ _ _ Hl) as (_ & _ & _ & _ & -> & _).
  destruct (list_assets_ok_inv _ _ _ _ _ _ _ Hl') as (_ & _ & _ & -> & -> & _).
  split.
  - rewrite !select_by_user_length, Hrows, count_insert.
    rewrite (count_delete _ _ _ u Hrow).
    rewrite (hidden_not_owned u _ (soft_deleted_hidden b asset)).
    rewrite (visible_owned u _ Hvis).
    destruct (decide (UserID asset = Some u)); lia.
  - intros a Ha Heq.
    assert (Hin : a ∈ listing.select_by_user w' u).
    { eapply elem_of_sublist; [|apply sublist_drop].
      eapply elem_of_sublist; [exact Ha | apply sublist_take]. }
    apply select_by_user_elem in Hin. destruct Hin as [_ [_ Hv]].
    rewrite Hrows, lookup_insert_eq in Heq. injection Heq as <-.
    rewrite soft_deleted_hidden in Hv. discriminate Hv.
Qed.

(** X13: the list query after a delete. After a successful delete, in
    either implementation, the total the list query returns for the
    owner of the row is one lower than before, the total of every other
    user is the same, and the deleted row is on no page. *)
Theorem X13_delete_lowers_the_owners_total :
  forall (b : Backend) (w : World) (assetID userID : string),
    (fst (run.delete1 b assetID userID w) = Ok tt ->
     totals.after_delete b w (snd (run.delete1 b assetID userID w)) assetID) /\
    (fst (run.delete2 b assetID userID w) = Ok tt ->
     totals.after_delete b w (snd (run.delete2 b assetID userID w)) assetID).
Proof.
  intros b w assetID userID. split; intros Hok.
  - destruct (delete1_ok_inv b w assetID userID Hok)
      as (asset & _ & _ & Hst & _ & _ & Hrows & _).
    exact (totals_after_soft_delete b w _ assetID asset Hst Hrows).
  - destruct (delete2_ok_inv b w assetID userID Hok)
      as (asset & key & _ & _ & _ & Hst & _ & _ & _ & Hrows & _).
    exact (totals_after_soft_delete b w _ assetID asset Hst Hrows).
Qed.

Lemma X13_delete_lowers_the_owners_total_witness :
  let b := fixtures.backend fixtures.no_fault in
  totals.after_delete b scenario.after_upload
    (snd (run.delete1 b "row-0" "alice" scenario.after_upload)) "row-0" /\
  totals.after_delete b scenario.after_upload
    (snd (run.delete2 b "row-0" "alice" scenario.after_upload)) "row-0".
Proof.
  destruct (X13_delete_lowers_the_owners_total
              (fixtures.backend fixtures.no_fault) scenario.after_upload
              "row-0" "alice") as [H1 H2].
  split; [apply H1 | apply H2]; vm_compute; reflexivity.
Defined.

Lemma totals_after_insert (b : Backend) (w w' : World) (a : Asset) :
  rows w !! ID a = None ->
  postgres.visible a = true ->
  rows w' = <[ID a := a]> (rows w) ->
  totals.after_upload b w w' a.
Proof.
  intros Hfresh Hvis Hrows u limit offset p p' t t' Hl Hl'.
  destruct (list_assets_ok_inv _ _ _ _ _ _ _ Hl) as (_ & _ & _ & _ & -> & _).
  destruct (list_assets_ok_inv _ _ _ _ _ _ _ Hl') as (_ & _ & _ & -> & -> & _).
  split.
  - rewrite !select_by_user_length, Hrows, count_insert.
    rewrite (delete_id _ _ Hfresh), (visible_owned u _ Hvis).
    destruct (decide (UserID a = Some u)); lia.
  - intros Hu -> Hlim. change (Z.to_nat 0) with 0%nat. rewrite drop_0.
    rewrite take_ge by lia.
    apply select_by_user_elem. split; [|split; assumption].
    exists (ID a). rewrite Hrows. apply lookup_insert_eq.
Qed.

(** X14: the list query after an upload. After a successful upload, in
    either implementation, the asset carries the owner of the request,
    the total the list query returns for that owner is one higher than
    before, the total of every other user is the same, and a page from
    offset 0 that is long enough for the new total has the asset on it. *)
Theorem X14_upload_raises_the_owners_total :
  forall (b : Backend) (rt : Runtime) (K : CreateAssetDto -> string)
    (M : CreateAssetDto -> string -> string -> string)
    (dto : CreateAssetDto) (data : bytes) (w : World) (a : Asset),
    (fst (run.upload1 b rt dto data w) = Ok a ->
     UserID a = dto_UserID dto /\
     totals.after_upload b w (snd (run.upload1 b rt dto data w)) a) /\
    (fst (run.upload2 b rt K M dto data w) = Ok a ->
     UserID a = dto_UserID dto /\
     totals.after_upload b w (snd (run.upload2 b rt K M dto data w)) a).
Proof.
  intros b rt K M dto data w a. split; intros Hok.
  - destruct (upload1_ok_inv b rt dto data w a Hok)
      as (key & meta & _ & _ & _ & Hfresh & Ha & _ & Hrows & _).
    assert (Hid : ID a = gen_random_uuid b (db_seq w)) by (rewrite Ha; reflexivity).
    split; [rewrite Ha; reflexivity|].
    apply totals_after_insert; rewrite ?Hid; try assumption.
    rewrite Ha. reflexivity.
  - destruct (upload2_ok_inv b rt K M dto data w a Hok)
      as (_ & _ & Hfresh & Ha & _ & Hrows & _).
    assert (Hid : ID a = gen_random_uuid b (db_seq w)) by (rewrite Ha; reflexivity).
    split; [rewrite Ha; reflexivity|].
    apply totals_after_insert; rewrite ?Hid; try assumption.
    rewrite Ha. reflexivity.
Qed.

Lemma X14_upload_raises_the_owners_total_witness :
  let b := fixtures.backend fixtures.no_fault in
  (UserID lifecycle.report1 = Some "alice" /\
   totals.after_upload b fixtures.empty_world
     (snd (run.upload1 b fixtures.rt0 fixtures.document_request
             fixtures.payload fixtures.empty_world)) lifecycle.report1) /\
  (UserID scenario.report = Some "alice" /\
   totals.after_upload b fixtures.empty_world scenario.after_upload
     scenario.report).
Proof.
  split.
  - apply (proj1 (X14_upload_raises_the_owners_total
                    (fixtures.backend fixtures.no_fault) fixtures.rt0
                    fixtures.GetStoreKey fixtures.GetMetadata
                    fixtures.document_request fixtures.payload
                    fixtures.empty_world lifecycle.report1)).
    vm_compute. reflexivity.
  - apply (proj2 (X14_upload_raises_the_owners_total
                    (fixtures.backend fixtures.no_fault) fixtures.rt0
                    fixtures.GetStoreKey fixtures.GetMetadata
                    fixtures.document_request fixtures.payload
                    fixtures.empty_world scenario.report)).
    vm_compute. reflexivity.
Defined.

(** X15: a list query that fails, because the database fails or because
    the limit or the offset handed through to it is negative, is
    answered by the service with [resource_not_found_error] and by the
    gRPC [GetAssetsByUser] with the code [Internal]; the stores are as
    before. *)
Theorem X15_list_failure_is_answered_as_not_found_and_internal :
  forall (b : Backend) (w : World) (userID : string) (limit offset : Z),
    faults b SqlSelect <> None \/ limit < 0 \/ offset < 0 ->
    exists cause,
      fst (listing.list_assets b userID limit offset w)
      = Err (DomainError ResourceNotFoundError "Failed to get assets" cause) /\
      fst (rpc.GetAssetsByUser b userID limit offset w)
      = Err (status_Errorf_v "Internal" "failed to get assets"
               (DomainError ResourceNotFoundError "Failed to get assets" cause)) /\
      world.stores (snd (rpc.GetAssetsByUser b userID limit offset w))
      = world.stores w.
Proof.
  intros b w userID limit offset H.
  unfold rpc.GetAssetsByUser, grpc_server.GetAssetsByUser, listing.list_assets,
    listing.GetAssetsByUserID, listing.repo_GetAssetsByUserID.
  cbn [ports.Log world.log_service].
  destruct (faults b SqlSelect) as [e|]; cbn.
  - eexists. repeat split.
  - destruct H as [H|H]; [congruence|].
    assert (Hb : (limit <? 0) || (offset <? 0) = true).
    { apply orb_true_iff. destruct H; [left | right]; apply Z.ltb_lt; assumption. }
    rewrite Hb. cbn. eexists. repeat split.
Qed.

Lemma X15_list_failure_is_answered_as_not_found_and_internal_witness :
  let b := fixtures.backend fixtures.no_fault in
  exists cause,
    fst (listing.list_assets b "alice" (-1) 0 scenario.after_upload)
    = Err (DomainError ResourceNotFoundError "Failed to get assets" cause) /\
    fst (rpc.GetAssetsByUser b "alice" (-1) 0 scenario.after_upload)
    = Err (status_Errorf_v "Internal" "failed to get assets"
             (DomainError ResourceNotFoundError "Failed to get assets" cause)) /\
    world.stores (snd (rpc.GetAssetsByUser b "alice" (-1) 0 scenario.after_upload))
    = world.stores scenario.after_upload.
Proof.
  apply (X15_list_failure_is_answered_as_not_found_and_internal
           (fixtures.backend fixtures.no_fault) scenario.after_upload "alice"
           (-1) 0).
  right. left. reflexivity.
Defined.

(** ** The dynamic queries *)

Lemma run_blocks_taken (blocks : list (string * option query.Arg))
    (q : query.Builder) :
  query.parts (query.run_blocks blocks q)
  = (query.parts q
     ++ imap (fun i block => fst block +:+ pretty (query.argIndex q + Z.of_nat i))
          (query.taken blocks))%list /\
  query.args (query.run_blocks blocks q)
  = (query.args q ++ (snd <$> query.taken blocks))%list /\
  query.argIndex (query.run_blocks blocks q)
  = query.argIndex q + Z.of_nat (length (query.taken blocks)).
Proof.
  revert q. induction blocks as [|[format [a|]] blocks IH]; intros q.
  - cbn. rewrite !app_nil_r. repeat split; lia.
  - unfold query.run_blocks. cbn [fold_left fst snd query.add_if].
    destruct (IH {| query.parts := (query.parts q
                      ++ [format +:+ pretty (query.argIndex q)])%list;
                    query.args := (query.args q ++ [a])%list;
                    query.argIndex := query.argIndex q + 1 |})
      as (Hp & Ha & Hi).
    unfold query.run_blocks in Hp, Ha, Hi. rewrite Hp, Ha, Hi.
    change (query.taken ((format, Some a) :: blocks))
      with ((format, a) :: query.taken blocks).
    cbn [query.parts query.args query.argIndex fst snd fmap list_fmap imap
         length].
    rewrite <- !app_assoc. cbn [app]. rewrite Z.add_0_r.
    split; [|split; [reflexivity | lia]].
    do 2 f_equal. apply imap_ext. intros i x _. cbn. do 2 f_equal. lia.
  - unfold query.run_blocks. cbn [fold_left fst snd query.add_if].
    apply IH.
Qed.

Lemma bound_to_cons (a : query.Arg) (l : list query.Arg) (n : Z) :
  1 <= n -> query.bound_to (a :: l) (n + 1) = query.bound_to l n.
Proof.
  intros Hn. unfold query.bound_to.
  destruct (Z.leb_spec (n + 1) 0); [lia|]. destruct (Z.leb_spec n 0); [lia|].
  replace (Z.to_nat (n + 1 - 1)) with (Datatypes.S (Z.to_nat (n - 1))) by lia.
  reflexivity.
Qed.

Lemma bound_to_nth (l : list query.Arg) (i : nat) :
  query.bound_to l (Z.of_nat i + 1) = l !! i.
Proof.
  unfold query.bound_to. destruct (Z.leb_spec (Z.of_nat i + 1) 0); [lia|].
  f_equal. lia.
Qed.

Lemma taken_clause (blocks : list (string * option query.Arg))
    (q : query.Builder) (i : nat) (format : string) (a : query.Arg) :
  query.taken blocks !! i = Some (format, a) ->
  query.parts (query.run_blocks blocks q) !! (length (query.parts q) + i)%nat
  = Some (format +:+ pretty (query.argIndex q + Z.of_nat i)) /\
  query.args (query.run_blocks blocks q) !! (length (query.args q) + i)%nat
  = Some a.
Proof.
  intros Hi. destruct (run_blocks_taken blocks q) as (Hp & Ha & _).
  rewrite Hp, Ha. rewrite !lookup_app_r by lia.
  replace (length (query.parts q) + i - length (query.parts q))%nat with i by lia.
  replace (length (query.args q) + i - length (query.args q))%nat with i by lia.
  rewrite list_lookup_imap, list_lookup_fmap, Hi. split; reflexivity.
Qed.

(** X16: the query [UpdateAsset] builds. The first [SET] clause is
    [updated_at = NOW()], [$1] is bound to the id, there are as many
    arguments as clauses, and the clause of the [i]-th field that is
    present carries the placeholder [$(i+2)], which the driver binds to
    the value of that field. *)
Theorem X16_UpdateAsset_placeholders_match_arguments :
  forall (asset : query.UpdateAssetDto),
    head (query.UpdateAsset_setParts asset) = Some "updated_at = NOW()" /\
    query.bound_to (query.UpdateAsset_finalArgs asset) 1
    = Some (query.ArgString (query.upd_ID asset)) /\
    length (query.UpdateAsset_setParts asset)
    = length (query.UpdateAsset_finalArgs asset) /\
    forall (i : nat) (format : string) (a : query.Arg),
      query.taken (query.update_blocks asset) !! i = Some (format, a) ->
      query.UpdateAsset_setParts asset !! Datatypes.S i
      = Some (format +:+ pretty (Z.of_nat i + 2)) /\
      query.bound_to (query.UpdateAsset_finalArgs asset) (Z.of_nat i + 2)
      = Some a.
Proof.
  intros asset.
  unfold query.UpdateAsset_setParts, query.UpdateAsset_finalArgs,
    query.UpdateAsset_build.
  set (q0 := {| query.parts := ["updated_at = NOW()"]; query.args := [];
                query.argIndex := 2 |}).
  destruct (run_blocks_taken (query.update_blocks asset) q0) as (Hp & Ha & _).
  split; [rewrite Hp; reflexivity|]. split; [reflexivity|].
  split.
  - rewrite Hp, Ha. cbn [q0 query.parts query.args app length].
    rewrite length_imap, length_fmap. reflexivity.
  - intros i format a Hi.
    destruct (taken_clause (query.update_blocks asset) q0 i format a Hi)
      as [H1 H2].
    cbn [q0 query.parts query.args query.argIndex length Nat.add] in H1, H2.
    split; [rewrite H1; do 3 f_equal; lia|].
    replace (Z.of_nat i + 2) with ((Z.of_nat i + 1) + 1) by lia.
    rewrite bound_to_cons by lia. rewrite bound_to_nth. exact H2.
Qed.

Lemma X16_UpdateAsset_placeholders_match_arguments_witness :
  query.UpdateAsset_setParts samples.rename !! 2%nat = Some "tags = $3" /\
  query.bound_to (query.UpdateAsset_finalArgs samples.rename) 3
  = Some (query.ArgArray ["final"]).
Proof.
  apply (proj2 (proj2 (proj2 (X16_UpdateAsset_placeholders_match_arguments
                                samples.rename)))
           1%nat "tags = $" (query.ArgArray ["final"])).
  reflexivity.
Defined.

(** X17: the queries [GetAssetsByFilter] builds. The [WHERE] clause
    always starts with [active = true] and [deleted_at IS NULL]; the
    clause of the [i]-th filter that is present carries the placeholder
    [$(i+1)], bound to the value of that filter in the count query and
    in the page query; the placeholders of [LIMIT] and [OFFSET] are
    bound to the limit and the offset of the filter, and the highest
    placeholder is the number of arguments. *)
Theorem X17_GetAssetsByFilter_placeholders_match_arguments :
  forall (filter : query.AssetFilter),
    take 2 (query.GetAssetsByFilter_whereClauses filter)
    = ["active = true"; "deleted_at IS NULL"] /\
    (forall (i : nat) (format : string) (a : query.Arg),
       query.taken (query.filter_blocks filter) !! i = Some (format, a) ->
       query.GetAssetsByFilter_whereClauses filter !! (2 + i)%nat
       = Some (format +:+ pretty (Z.of_nat i + 1)) /\
       query.bound_to (query.args (query.GetAssetsByFilter_build filter))
         (Z.of_nat i + 1) = Some a /\
       query.bound_to (query.GetAssetsByFilter_limitArgs filter)
         (Z.of_nat i + 1) = Some a) /\
    query.bound_to (query.GetAssetsByFilter_limitArgs filter)
      (query.GetAssetsByFilter_limit_placeholder filter)
    = Some (query.ArgInt (query.flt_Limit filter)) /\
    query.bound_to (query.GetAssetsByFilter_limitArgs filter)
      (query.GetAssetsByFilter_offset_placeholder filter)
    = Some (query.ArgInt (query.flt_Offset filter)) /\
    Z.of_nat (length (query.GetAssetsByFilter_limitArgs filter))
    = query.GetAssetsByFilter_offset_placeholder filter.
Proof.
  intros filter.
  unfold query.GetAssetsByFilter_whereClauses, query.GetAssetsByFilter_limitArgs,
    query.GetAssetsByFilter_limit_placeholder,
    query.GetAssetsByFilter_offset_placeholder, query.GetAssetsByFilter_build.
  set (q0 := {| query.parts := ["active = true"; "deleted_at IS NULL"];
                query.args := []; query.argIndex := 1 |}).
  destruct (run_blocks_taken (query.filter_blocks filter) q0) as (Hp & Ha & Hn).
  cbn [q0 query.parts query.args query.argIndex app] in Hp, Ha, Hn.
  split; [rewrite Hp; reflexivity|]. split.
  - intros i format a Hi.
    destruct (taken_clause (query.filter_blocks filter) q0 i format a Hi)
      as [H1 H2].
    cbn [q0 query.parts query.args query.argIndex length Nat.add] in H1, H2.
    split; [change (2 + i)%nat with (Datatypes.S (Datatypes.S i));
            rewrite H1; do 3 f_equal; lia|].
    rewrite !bound_to_nth. split; [exact H2|].
    apply lookup_app_l_Some. exact H2.
  - rewrite Hn, Ha.
    set (l := snd <$> query.taken (query.filter_blocks filter)).
    replace (length (query.taken (query.filter_blocks filter)))
      with (length l) by apply length_fmap.
    replace (1 + Z.of_nat (length l)) with (Z.of_nat (length l) + 1) by lia.
    replace (Z.of_nat (length l) + 1 + 1)
      with (Z.of_nat (Datatypes.S (length l)) + 1) by lia.
    rewrite !bound_to_nth. rewrite length_app. cbn [length].
    split; [|split; [|lia]].
    + rewrite lookup_app_r by lia. rewrite Nat.sub_diag. reflexivity.
    + rewrite lookup_app_r by lia.
      replace (Datatypes.S (length l) - length l)%nat with 1%nat by lia.
      reflexivity.
Qed.

Lemma X17_GetAssetsByFilter_placeholders_match_arguments_witness :
  query.GetAssetsByFilter_whereClauses samples.pdfs_of_alice !! 3%nat
  = Some "content_type = $2" /\
  query.bound_to (query.args (query.GetAssetsByFilter_build samples.pdfs_of_alice))
    2 = Some (query.ArgString "application/pdf") /\
  query.bound_to (query.GetAssetsByFilter_limitArgs samples.pdfs_of_alice) 2
  = Some (query.ArgString "application/pdf").
Proof.
  apply (proj1 (proj2 (X17_GetAssetsByFilter_placeholders_match_arguments
                         samples.pdfs_of_alice))
           1%nat "content_type = $" (query.ArgString "application/pdf")).
  reflexivity.
Defined.

(** ** Validation errors *)

Section validation.
Variable ToLower : string -> string.
Variable Split_space : string -> list string.

(** X18: [GetValidationError] answers every failure with its tag as the
    code, for the twenty tags it knows and for any other; the value is
    left out for [required] and for [min] on a field that is not a
    string, and for nothing else. *)
Theorem X18_GetValidationError_code_is_the_tag :
  forall (e : validations.FieldError),
    validations.Code (validations.GetValidationError Split_space e)
    = validations.fe_Tag e /\
    (validations.Value (validations.GetValidationError Split_space e) = None <->
     validations.fe_Tag e = "required" \/
     (validations.fe_Tag e = "min" /\ validations.fe_Kind e <> "string")).
Proof.
  intros [field tag param kind value].
  unfold validations.GetValidationError.
  cbn [validations.fe_Tag validations.fe_Kind validations.fe_Param
       validations.fe_Value].
  repeat match goal with
         | |- context [String.eqb tag ?s] =>
           destruct (String.eqb_spec tag s) as [->|?]
         | |- context [String.eqb kind ?s] =>
           destruct (String.eqb_spec kind s) as [->|?]
         end;
    cbn [validations.Code validations.Value];
    (split; [reflexivity|]);
    (split;
     [ intros H; first [discriminate H | auto]
     | intros [H|[H1 H2]]; first [reflexivity | discriminate | congruence] ]).
Qed.

(** What a key of the result holds after the loop has gone through
    [errs], for any map the loop starts from. *)
Lemma collect_lookup (errs : list validations.FieldError)
    (m : gmap string (list validations.ValidationError)) (f : string) :
  fold_left (validations.collect ToLower Split_space) errs m !! f
  = match filter (fun e => ToLower (validations.fe_Field e) = f) errs with
    | [] => m !! f
    | l => Some (default [] (m !! f)
                 ++ (validations.GetValidationError Split_space <$> l))%list
    end.
Proof.
  revert m. induction errs as [|e errs IH]; intros m; [reflexivity|].
  cbn [fold_left]. rewrite IH. rewrite filter_cons.
  unfold validations.collect.
  destruct (decide (ToLower (validations.fe_Field e) = f)) as [<-|Hne].
  - set (k := ToLower (validations.fe_Field e)).
    assert (Hk : default [] (match m !! k with
                             | Some _ => m
                             | None => <[k := []]> m
                             end !! k) = default [] (m !! k)).
    { destruct (m !! k) eqn:Hm; [rewrite Hm; reflexivity|].
      rewrite lookup_insert_eq. reflexivity. }
    rewrite Hk, lookup_insert_eq. cbn [default].
    destruct (filter _ errs) as [|e' l]; [reflexivity|].
    unfold id. rewrite <- app_assoc. reflexivity.
  - rewrite lookup_insert_ne by assumption.
    assert (Hk : match m !! ToLower (validations.fe_Field e) with
                 | Some _ => m
                 | None => <[ToLower (validations.fe_Field e) := []]> m
                 end !! f = m !! f).
    { destruct (m !! ToLower (validations.fe_Field e)); [reflexivity|].
      apply lookup_insert_ne. assumption. }
    rewrite Hk. reflexivity.
Qed.

(** X19: [GetValidationErrors] groups by the lower-cased field name. A
    key of the result holds the errors of the failures whose lower-cased
    field is that key, all of them, in the order of the input; a key
    with no such failure is absent. *)
Theorem X19_GetValidationErrors_groups_by_lowered_field :
  forall (errs : list validations.FieldError) (f : string),
    validations.GetValidationErrors ToLower Split_space errs !! f
    = match filter (fun e => ToLower (validations.fe_Field e) = f) errs with
      | [] => None
      | l => Some (validations.GetValidationError Split_space <$> l)
      end.
Proof.
  intros errs f. unfold validations.GetValidationErrors.
  rewrite collect_lookup, lookup_empty. reflexivity.
Qed.

End validation.

(** ** The welcome avatar *)

(** [Handle] on a user-created envelope with a user id, in terms of what
    the upload and the publication return. *)
Lemma Handle_user_created {S : Type}
    (UploadAsset : CreateAssetDto -> bytes -> S -> result Asset * S)
    (pub : ports.EventPublisher S) (log : ports.Logger S) (T : EventType)
    (avatar : bytes) (json_Marshal : string -> error + bytes)
    (json_Unmarshal : bytes -> error + events.UserCreatedEvent)
    (event : DomainEvent) (userID : string) (w : S) :
  welcome.user_created T json_Marshal json_Unmarshal event userID ->
  userID <> "" ->
  let w0 := ports.Log log LInfo "User created event processed successfully"
              (ports.Log log LInfo "Processing user created event"
                 (ports.Log log LInfo "Handling events" w)) in
  let up := UploadAsset (handlers.createDto userID avatar) avatar w0 in
  handlers.Handle UploadAsset pub log T avatar json_Marshal json_Unmarshal
    event w
  = match fst up with
    | Panic m => (Panic m, snd up)
    | Err err =>
      (Err (status_Errorf_v "Internal" "failed to upload asset" err),
       ports.Log log LError "Failed to handle user created event"
         (ports.Log log LError "Failed to upload asset" (snd up)))
    | Ok asset =>
      let p := ports.PublishAvatarUpdated pub userID (URL asset) (snd up) in
      match fst p with
      | Some err =>
        (Err (status_Errorf_v "Internal"
                "failed to publish avatar updated event" err),
         ports.Log log LError "Failed to handle user created event"
           (ports.Log log LError "Failed to publish avatar updated event"
              (snd p)))
      | None =>
        (Ok tt,
         ports.Log log LInfo "User created event handled successfully"
           (ports.Log log LInfo "Welcome avatar asset created successfully"
              (snd p)))
      end
    end.
Proof.
  intros (Hty & data & uce & Hm & Hu & Hid) Hne. cbv zeta.
  apply String.eqb_neq in Hne.
  unfold handlers.Handle, handlers.handleUserCreated.
  rewrite Hty, String.eqb_refl, Hm, Hu, Hid, Hne.
  destruct (UploadAsset _ _ _) as [[a|e|m] w1]; cbn [fst snd];
    [|reflexivity..].
  destruct (ports.PublishAvatarUpdated pub userID (URL a) w1) as [[e|] w2];
    reflexivity.
Qed.

(** The key derivation of [assets_service.go] panics: so does the
    upload, after its first log line. *)
Lemma upload1_key_panic (b : Backend) (rt : Runtime) (dto : CreateAssetDto)
    (data : bytes) (w : World) :
  assets_service.fileKey dto
    (assets_service.uniqueSlug (time_Now_Unix rt) (dto_Filename dto))
  = Panic nil_dereference ->
  run.upload1 b rt dto data w
  = (Panic nil_dereference, add_log LInfo "Uploading asset" w).
Proof.
  intros H. unfold run.upload1, assets_service.UploadAsset. rewrite H.
  reflexivity.
Qed.

(** The second implementation's upload succeeds when the object store
    and the insert work and the next row id is free; what it leaves in
    the record of calls and in the list of published events. *)
Lemma upload2_succeeds (b : Backend) (rt : Runtime)
    (K : CreateAssetDto -> string) (M : CreateAssetDto -> string -> string -> string)
    (dto : CreateAssetDto) (data : bytes) (w : World) :
  faults b PutObject = None -> faults b SqlInsert = None ->
  rows w !! gen_random_uuid b (db_seq w) = None ->
  exists a,
    fst (run.upload2 b rt K M dto data w) = Ok a /\
    published (snd (run.upload2 b rt K M dto data w)) = published w /\
    calls (snd (run.upload2 b rt K M dto data w))
    = (calls w ++ [call_UploadFile (K dto); call_CreateAsset (Some (K dto));
                   call_cache_Set ("assets:" +:+ ID a)])%list.
Proof.
  intros Hput Hins Hfresh.
  unfold run.upload2, part_008.UploadAsset. unfold_world. unfold_adapters.
  cbn. rewrite Hput. cbn. rewrite Hins. cbn. rewrite Hfresh. cbn.
  destruct (faults b RedisSet); cbn; eexists;
    (split; [reflexivity|]); (split; [reflexivity|]);
    rewrite <- ?app_assoc; reflexivity.
Qed.

(** What the handler leaves when the upload went through, by the
    outcome of the publication. *)
Lemma Handle2_after_upload (b : Backend) (rt : Runtime)
    (K : CreateAssetDto -> string) (M : CreateAssetDto -> string -> string -> string)
    (T : EventType) (avatar : bytes) (json_Marshal : string -> error + bytes)
    (json_Unmarshal : bytes -> error + events.UserCreatedEvent)
    (event : DomainEvent) (userID : string) (w : World) :
  welcome.user_created T json_Marshal json_Unmarshal event userID ->
  userID <> "" ->
  faults b PutObject = None -> faults b SqlInsert = None ->
  rows w !! gen_random_uuid b (db_seq w) = None ->
  let key := K (handlers.createDto userID avatar) in
  let id := gen_random_uuid b (db_seq w) in
  let r := welcome.Handle2 b rt K M T avatar json_Marshal json_Unmarshal
             event w in
  fst r = match faults b KafkaWrite with
          | Some e => Err (status_Errorf_v "Internal"
                             "failed to publish avatar updated event"
                             (fmt_Errorf_w "failed to publish event" e))
          | None => Ok tt
          end /\
  objects (snd r) !! key
  = Some {| obj_data := avatar; obj_content_type := "image/png" |} /\
  (exists a, rows (snd r) !! id = Some a /\ UserID a = Some userID /\
             StorageKey a = Some key /\ postgres.visible a = true) /\
  published (snd r)
  = match faults b KafkaWrite with
    | Some _ => published w
    | None => (published w ++ [(userID, minio.generateFileURL b key)])%list
    end /\
  world.new_calls w (snd r)
  = [call_UploadFile key; call_CreateAsset (Some key);
     call_cache_Set ("assets:" +:+ id);
     call_PublishAvatarUpdated userID (minio.generateFileURL b key)].
Proof.
  intros Hev Hne Hput Hins Hfresh. cbv zeta.
  unfold welcome.Handle2.
  rewrite (Handle_user_created _ _ _ _ _ _ _ _ userID w Hev Hne). cbv zeta.
  cbn [ports.Log world.log_service].
  set (w0 := add_log LInfo "User created event processed successfully" _).
  set (dto := handlers.createDto userID avatar).
  destruct (upload2_succeeds b rt K M dto avatar w0 Hput Hins Hfresh)
    as (a & Hok & Hpubl & Hcalls).
  destruct (upload2_ok_inv b rt K M dto avatar w0 a Hok)
    as (_ & _ & _ & Ha & Hobj & Hrows & _).
  rewrite Hok.
  assert (Hurl : URL a = minio.generateFileURL b (K dto))
    by (rewrite Ha; reflexivity).
  assert (Hid : ID a = gen_random_uuid b (db_seq w))
    by (rewrite Ha; reflexivity).
  unfold world.publisher. cbn [ports.PublishAvatarUpdated].
  unfold world.PublishAvatarUpdated. rewrite Hurl.
  assert (Hrow : exists a0, rows (snd (run.upload2 b rt K M dto avatar w0))
                            !! gen_random_uuid b (db_seq w) = Some a0 /\
                            UserID a0 = Some userID /\
                            StorageKey a0 = Some (K dto) /\
                            postgres.visible a0 = true).
  { exists a. rewrite Hrows. split; [apply lookup_insert_eq|].
    rewrite Ha. repeat split. }
  assert (Hobject : objects (snd (run.upload2 b rt K M dto avatar w0)) !! K dto
                    = Some {| obj_data := avatar;
                              obj_content_type := "image/png" |}).
  { rewrite Hobj. apply lookup_insert_eq. }
  destruct (faults b KafkaWrite); cbn [fst snd];
    (split; [reflexivity|]);
    cbn [objects rows published add_log add_published record_call];
    (split; [exact Hobject|]); (split; [exact Hrow|]);
    (split; [first [exact Hpubl | rewrite Hpubl; reflexivity]|]);
    apply new_calls_app;
    cbn [calls add_log add_published record_call];
    rewrite Hcalls, Hid, <- app_assoc; reflexivity.
Qed.

(** X20: a user-created event with a user id. In front of
    [assets_service.go] the handler panics before any adapter is called:
    the request it builds has the resource type ["users"] and no
    resource id. In front of the second implementation, when the object
    store, the insert and the publication work and the next row id is
    free, the handler returns nil, the default avatar is stored under
    the key of the request, a visible row of the user points to it, and
    one avatar-updated event with the user and the URL of the object is
    published. *)
Theorem X20_user_created_event_makes_the_welcome_avatar :
  forall (b : Backend) (rt : Runtime) (K : CreateAssetDto -> string)
    (M : CreateAssetDto -> string -> string -> string)
    (T : EventType) (avatar : bytes) (json_Marshal : string -> error + bytes)
    (json_Unmarshal : bytes -> error + events.UserCreatedEvent)
    (event : DomainEvent) (userID : string) (w : World),
    welcome.user_created T json_Marshal json_Unmarshal event userID ->
    userID <> "" ->
    welcome.crashed_untouched w
      (welcome.Handle1 b rt T avatar json_Marshal json_Unmarshal event w) /\
    (faults b PutObject = None -> faults b SqlInsert = None ->
     faults b KafkaWrite = None ->
     rows w !! gen_random_uuid b (db_seq w) = None ->
     welcome.avatar_created b avatar userID
       (K (handlers.createDto userID avatar)) w
       (welcome.Handle2 b rt K M T avatar json_Marshal json_Unmarshal event w)).
Proof.
  intros b rt K M T avatar jm ju event userID w Hev Hne. split.
  - unfold welcome.crashed_untouched, welcome.Handle1.
    rewrite (Handle_user_created _ _ _ _ _ _ _ _ userID w Hev Hne). cbv zeta.
    rewrite upload1_key_panic.
    + cbn [fst snd ports.Log world.log_service]. repeat split.
      unfold world.new_calls. cbn [calls add_log]. apply drop_all.
    + apply (fileKey_type_nil_id _ _ "users"); [reflexivity| |reflexivity].
      discriminate.
  - intros Hput Hins Hpub Hfresh.
    destruct (Handle2_after_upload b rt K M T avatar jm ju event userID w
                Hev Hne Hput Hins Hfresh) as (H1 & H2 & H3 & H4 & H5).
    rewrite Hpub in H1, H4. unfold welcome.avatar_created. auto.
Qed.

Lemma X20_user_created_event_makes_the_welcome_avatar_witness :
  let b := fixtures.backend fixtures.no_fault in
  let ev := fixtures.event "user.created" "user-1" in
  welcome.crashed_untouched fixtures.empty_world
    (welcome.Handle1 b fixtures.rt0 "user.created" fixtures.payload
       fixtures.json_Marshal fixtures.json_Unmarshal_user ev
       fixtures.empty_world) /\
  welcome.avatar_created b fixtures.payload "user-1" "k/avatar.png"
    fixtures.empty_world
    (welcome.Handle2 b fixtures.rt0 fixtures.GetStoreKey fixtures.GetMetadata
       "user.created" fixtures.payload fixtures.json_Marshal
       fixtures.json_Unmarshal_user ev fixtures.empty_world).
Proof.
  destruct (X20_user_created_event_makes_the_welcome_avatar
              (fixtures.backend fixtures.no_fault) fixtures.rt0
              fixtures.GetStoreKey fixtures.GetMetadata "user.created"
              fixtures.payload fixtures.json_Marshal
              fixtures.json_Unmarshal_user
              (fixtures.event "user.created" "user-1") "user-1"
              fixtures.empty_world) as [H1 H2].
  - split; [reflexivity|].
    exists (fixtures.text "user-1"). eexists. repeat split.
  - discriminate.
  - split; [exact H1 | apply H2; reflexivity].
Defined.

(** X21: a user-created event whose publication fails, in front of the
    second implementation. The handler answers with the code
    [Internal]; the avatar it has uploaded and the row stay, nothing is
    published, and no storage delete is among its calls. *)
Theorem X21_failed_publication_keeps_the_avatar :
  forall (b : Backend) (rt : Runtime) (K : CreateAssetDto -> string)
    (M : CreateAssetDto -> string -> string -> string)
    (T : EventType) (avatar : bytes) (json_Marshal : string -> error + bytes)
    (json_Unmarshal : bytes -> error + events.UserCreatedEvent)
    (event : DomainEvent) (userID : string) (w : World) (e : error),
    welcome.user_created T json_Marshal json_Unmarshal event userID ->
    userID <> "" ->
    faults b PutObject = None -> faults b SqlInsert = None ->
    faults b KafkaWrite = Some e ->
    rows w !! gen_random_uuid b (db_seq w) = None ->
    welcome_failure.avatar_kept_unpublished b avatar userID
      (K (handlers.createDto userID avatar)) w
      (welcome.Handle2 b rt K M T avatar json_Marshal json_Unmarshal event w).
Proof.
  intros b rt K M T avatar jm ju event userID w e Hev Hne Hput Hins Hpub
    Hfresh.
  destruct (Handle2_after_upload b rt K M T avatar jm ju event userID w
              Hev Hne Hput Hins Hfresh) as (H1 & H2 & (a & Ha & Hu & _ & Hv) & H4 & H5).
  rewrite Hpub in H1, H4. unfold welcome_failure.avatar_kept_unpublished.
  split; [eexists; exact H1|]. split; [exact H2|].
  split; [exists a; auto|]. auto.
Qed.

Lemma X21_failed_publication_keeps_the_avatar_witness :
  let b := fixtures.backend (fixtures.failing [KafkaWrite]) in
  welcome_failure.avatar_kept_unpublished b fixtures.payload "user-1"
    "k/avatar.png" fixtures.empty_world
    (welcome.Handle2 b fixtures.rt0 fixtures.GetStoreKey fixtures.GetMetadata
       "user.created" fixtures.payload fixtures.json_Marshal
       fixtures.json_Unmarshal_user (fixtures.event "user.created" "user-1")
       fixtures.empty_world).
Proof.
  apply (X21_failed_publication_keeps_the_avatar
           (fixtures.backend (fixtures.failing [KafkaWrite])) fixtures.rt0
           fixtures.GetStoreKey fixtures.GetMetadata "user.created"
           fixtures.payload fixtures.json_Marshal fixtures.json_Unmarshal_user
           (fixtures.event "user.created" "user-1") "user-1"
           fixtures.empty_world (fixtures.broken KafkaWrite)).
  - split; [reflexivity|].
    exists (fixtures.text "user-1"). eexists. repeat split.
  - discriminate.
  - reflexivity.
  - reflexivity.
  - reflexivity.
  - reflexivity.
Defined.

(** ** A message that cannot be handled *)

Lemma iteration_unparsable {A : Type} (json : bytes -> error + DomainEvent)
    (c : kafka.EventConsumer A) (a : A) (r : kafka.ReaderState)
    (m : kafka.Message) (err : error) :
  fst (kafka.mem_Fetch r) = kafka.Fetched m ->
  json (kafka.Value m) = inl err ->
  exists a' r',
    kafka.iteration json c kafka.mem_reader (a, r) = (kafka.Continue, (a', r')) /\
    kafka.reads r' = (kafka.reads r ++ [kafka.call_Fetch])%list /\
    kafka.committed r' = kafka.committed r /\
    fst (kafka.mem_Fetch r') = kafka.Fetched m.
Proof.
  intros Hfetch Hjson.
  destruct (mem_Fetch_fetched r m Hfetch) as (Hc & Hfe & Hp).
  unfold kafka.iteration, kafka.mem_reader.
  cbn [kafka.Done kafka.FetchMessage kafka.CommitMessages].
  rewrite Hc. unfold kafka.mem_Fetch. rewrite Hc, Hfe, Hp.
  unfold kafka.handleMessage. rewrite Hjson. cbn.
  eexists _, _. split; [reflexivity|]. cbn. rewrite Hp. auto.
Qed.

(** X22: a message whose body does not deserialize blocks its
    partition. However many passes the consume loop makes from a reader
    that delivers such a message, the loop goes on, every call on the
    reader is a fetch, the committed offset is where it was, and the
    next fetch delivers the same message. *)
Theorem X22_unparsable_message_is_never_committed :
  forall (A : Type) (json_Unmarshal : bytes -> error + DomainEvent)
    (c : kafka.EventConsumer A) (m : kafka.Message) (err : error) (n : nat)
    (a : A) (r : kafka.ReaderState),
    fst (kafka.mem_Fetch r) = kafka.Fetched m ->
    json_Unmarshal (kafka.Value m) = inl err ->
    let st := kafka.consumeMessages json_Unmarshal c kafka.mem_reader n (a, r) in
    fst st = kafka.Continue /\
    kafka.new_reads r (snd (snd st)) = replicate n kafka.call_Fetch /\
    kafka.committed (snd (snd st)) = kafka.committed r /\
    fst (kafka.mem_Fetch (snd (snd st))) = kafka.Fetched m.
Proof.
  intros A json c m err n. cbv zeta.
  assert (H : forall a r,
            fst (kafka.mem_Fetch r) = kafka.Fetched m ->
            json (kafka.Value m) = inl err ->
            let st := kafka.consumeMessages json c kafka.mem_reader n (a, r) in
            fst st = kafka.Continue /\
            kafka.reads (snd (snd st))
            = (kafka.reads r ++ replicate n kafka.call_Fetch)%list /\
            kafka.committed (snd (snd st)) = kafka.committed r /\
            fst (kafka.mem_Fetch (snd (snd st))) = kafka.Fetched m).
  { induction n as [|n IH]; intros a r Hfetch Hjson; cbv zeta.
    - cbn. rewrite app_nil_r. auto.
    - destruct (iteration_unparsable json c a r m err Hfetch Hjson)
        as (a' & r' & Hit & Hreads & Hcom & Hnext).
      cbn [kafka.consumeMessages]. rewrite Hit.
      destruct (IH a' r' Hnext Hjson) as (H1 & H2 & H3 & H4).
      split; [assumption|]. split; [|split; [congruence | assumption]].
      rewrite H2, Hreads, <- app_assoc. reflexivity. }
  intros a r Hfetch Hjson.
  destruct (H a r Hfetch Hjson) as (H1 & H2 & H3 & H4).
  split; [assumption|]. split; [|split; assumption].
  apply new_reads_app. assumption.
Qed.

Lemma X22_unparsable_message_is_never_committed_witness :
  let r := {| kafka.pending := [fixtures.message 0 "{"];
              kafka.committed := 0; kafka.cancelled := false;
              kafka.fetch_errors := []; kafka.commit_fault := None;
              kafka.reads := [] |} in
  let st := kafka.consumeMessages fixtures.json_Unmarshal_event
              scenario.consumer2 kafka.mem_reader 5
              (fixtures.empty_world, r) in
  fst st = kafka.Continue /\
  kafka.new_reads r (snd (snd st)) = replicate 5 kafka.call_Fetch /\
  kafka.committed (snd (snd st)) = kafka.committed r /\
  fst (kafka.mem_Fetch (snd (snd st))) = kafka.Fetched (fixtures.message 0 "{").
Proof.
  apply (X22_unparsable_message_is_never_committed World
           fixtures.json_Unmarshal_event scenario.consumer2
           (fixtures.message 0 "{")
           (errors_New "invalid character looking for beginning of value")
           5%nat fixtures.empty_world).
  - reflexivity.
  - reflexivity.
Defined.

(** ** Two reads in a row *)

(** X23: two reads in a row, in the second implementation, with a
    working cache. The first read misses, takes the asset from the
    repository and writes it back; the second read returns the same
    asset with the cache read as its only call. *)
Theorem X23_get2_second_read_is_served_from_the_cache :
  forall (b : Backend) (w : World) (assetID : string) (asset : Asset),
    outcome.cache_missed b w ("assets:" +:+ assetID) ->
    faults b SqlSelect = None ->
    faults b RedisSet = None ->
    faults b RedisGet = None ->
    outcome.stored w assetID asset ->
    let w' := snd (run.get2 b assetID w) in
    fst (run.get2 b assetID w) = Ok asset /\
    fst (run.get2 b assetID w') = Ok asset /\
    world.new_calls w' (snd (run.get2 b assetID w'))
    = [call_cache_Get ("assets:" +:+ assetID)].
Proof.
  intros b w assetID asset Hmiss Hsel Hset Hget Hst. cbv zeta.
  destruct (get2_miss_found b w assetID asset Hmiss Hsel Hst)
    as (Hok & _ & Hcache & _).
  split; [assumption|]. apply get2_hit; [assumption|]. apply Hcache, Hset.
Qed.

Lemma X23_get2_second_read_is_served_from_the_cache_witness :
  let b := fixtures.backend fixtures.no_fault in
  let w' := snd (run.get2 b "row-0" scenario.cold) in
  fst (run.get2 b "row-0" scenario.cold) = Ok scenario.report /\
  fst (run.get2 b "row-0" w') = Ok scenario.report /\
  world.new_calls w' (snd (run.get2 b "row-0" w'))
  = [call_cache_Get "assets:row-0"].
Proof.
  apply (X23_get2_second_read_is_served_from_the_cache
           (fixtures.backend fixtures.no_fault) scenario.cold "row-0"
           scenario.report).
  - right. vm_compute. reflexivity.
  - reflexivity.
  - reflexivity.
  - reflexivity.
  - split; vm_compute; reflexivity.
Defined.

(** ** A gRPC upload with a resource type and no resource id *)

(** X24: a gRPC upload in front of [assets_service.go] that passes the
    validation of the entry point, names a resource type and leaves the
    resource id empty. The entry point turns the empty id into a nil
    pointer, and the key derivation of the service dereferences it: the
    call panics before any adapter is called. *)
Theorem X24_grpc_upload_without_resource_id_panics :
  forall (b : Backend) (rt : Runtime) (req : grpc.UploadAssetRequest)
    (w : World),
    grpc.req_Filename req <> "" ->
    grpc.req_UserId req <> "" ->
    grpc.req_FileData req <> [] ->
    grpc.req_ResouceType req <> "" ->
    grpc.req_ResourceId req = "" ->
    let r := rpc.UploadAsset1 b rt req w in
    fst r = Panic nil_dereference /\
    world.new_calls w (snd r) = [] /\
    world.stores (snd r) = world.stores w.
Proof.
  intros b rt req w Hf Hu Hd Ht Hi. cbv zeta.
  apply String.eqb_neq in Hf, Hu.
  unfold rpc.UploadAsset1, grpc.Server_UploadAsset. rewrite Hf, Hu.
  destruct (grpc.req_FileData req) as [|x data] eqn:Hdata; [congruence|].
  cbn [length Nat.eqb orb].
  unfold run.upload1, assets_service.UploadAsset.
  rewrite (fileKey_type_nil_id _ _ (grpc.req_ResouceType req)).
  - cbn. repeat split. unfold world.new_calls. cbn. apply drop_all.
  - unfold grpc.createDto. cbn [dto_ResourceType].
    apply String.eqb_neq in Ht. rewrite Ht. reflexivity.
  - assumption.
  - unfold grpc.createDto. cbn [dto_ResourceID]. rewrite Hi. reflexivity.
Qed.

Lemma X24_grpc_upload_without_resource_id_panics_witness :
  let r := rpc.UploadAsset1 (fixtures.backend fixtures.no_fault) fixtures.rt0
             requests.typed_without_id fixtures.empty_world in
  fst r = Panic nil_dereference /\
  world.new_calls fixtures.empty_world (snd r) = [] /\
  world.stores (snd r) = world.stores fixtures.empty_world.
Proof.
  apply (X24_grpc_upload_without_resource_id_panics
           (fixtures.backend fixtures.no_fault) fixtures.rt0
           requests.typed_without_id fixtures.empty_world).
  - discriminate.
  - discriminate.
  - discriminate.
  - discriminate.
  - reflexivity.
Defined.

(** ** The event publisher *)

(** X25: the publisher [NewEventPublisher] builds has a writer for
    [config.Topics.ActivityLogs] only: [publishEvent] to any other topic
    returns ["no writer found for topic: <topic>"] and does nothing
    else. *)
Theorem X25_publishEvent_needs_the_activity_logs_topic :
  forall (S : Type) (logger : ports.Logger S) (ActivityLogs : string)
    (WriteMessages : string -> publisher.Message -> S -> option error * S)
    (json_Marshal_event : DomainEvent -> error + bytes)
    (topic : string) (event : DomainEvent) (w : S),
    topic <> ActivityLogs ->
    publisher.publishEvent (publisher.NewEventPublisher ActivityLogs logger)
      WriteMessages json_Marshal_event topic event w
    = (Some (errors_New ("no writer found for topic: " +:+ topic)), w).
Proof.
  intros S logger T W jm topic event w Hne.
  unfold publisher.publishEvent, publisher.NewEventPublisher.
  cbn [publisher.writers fold_left].
  rewrite lookup_insert_ne by congruence. rewrite lookup_empty. reflexivity.
Qed.

Lemma X25_publishEvent_needs_the_activity_logs_topic_witness :
  publisher.publishEvent
    (publisher.NewEventPublisher "activity.logs" publisher.outbox_logger)
    (publisher.outbox_Write None) (fun _ => inr [])
    "assets.avatar-updated" (fixtures.event "avatar.updated" "user-1")
    {| publisher.sent := []; publisher.out_logs := [] |}
  = (Some (errors_New "no writer found for topic: assets.avatar-updated"),
     {| publisher.sent := []; publisher.out_logs := [] |}).
Proof.
  apply (X25_publishEvent_needs_the_activity_logs_topic publisher.Outbox
           publisher.outbox_logger "activity.logs"
           (publisher.outbox_Write None) (fun _ => inr [])
           "assets.avatar-updated" (fixtures.event "avatar.updated" "user-1")
           {| publisher.sent := []; publisher.out_logs := [] |}).
  discriminate.
Defined.

(** X26: [LogActivity] over the publisher [NewEventPublisher] builds
    never fails for want of a writer. When it returns nil, it has
    written one message to the activity-logs topic, keyed by the user
    id, with the headers [event-type: log_activity], [event-id] and
    [correlation-id]; when it returns an error, it has written nothing. *)
Theorem X26_LogActivity_writes_one_message_or_none :
  forall (ActivityLogs : string) (write_fault : option error)
    (json_Marshal_event : DomainEvent -> error + bytes)
    (json_Marshal_metadata : publisher.LogActivityMetadata -> error + bytes)
    (id1 id2 : string) (eventToMap : publisher.LogActivityEvent -> string)
    (correlationID now_text : string) (now : Z) (userID action : string)
    (metadata : option publisher.LogActivityMetadata) (o : publisher.Outbox),
    let r := publisher.LogActivity
               (publisher.NewEventPublisher ActivityLogs publisher.outbox_logger)
               (publisher.outbox_Write write_fault) json_Marshal_event
               json_Marshal_metadata id1 id2 eventToMap correlationID now_text
               now userID action metadata o in
    match fst r with
    | None =>
      exists body,
        publisher.sent (snd r)
        = (publisher.sent o
           ++ [(ActivityLogs,
                {| publisher.Key := userID; publisher.Value := body;
                   publisher.Headers :=
                     [("event-type", "log_activity"); ("event-id", id2);
                      ("correlation-id", correlationID)] |})])%list
    | Some e =>
      publisher.sent (snd r) = publisher.sent o /\
      e <> errors_New ("no writer found for topic: " +:+ ActivityLogs)
    end.
Proof.
  intros T fault jm jmm id1 id2 e2m cid ts now userID action metadata o.
  cbv zeta. unfold publisher.LogActivity.
  destruct (jmm _) as [err|mj]; cbn; [split; [reflexivity | discriminate]|].
  unfold publisher.publishEvent, publisher.NewEventPublisher.
  cbn [publisher.writers publisher.Topics_ActivityLogs fold_left].
  rewrite lookup_insert_eq.
  destruct (jm _) as [err|ej]; cbn; [split; [reflexivity | discriminate]|].
  destruct fault as [err|]; cbn; [split; [reflexivity | discriminate]|].
  eexists. reflexivity.
Qed.

(** ** The HTTP route *)

(** A read leaves the object store as it is. *)
Lemma get_keeps_objects (b : Backend) (w : World) (assetID : string) :
  objects (snd (run.get1 b assetID w)) = objects w /\
  objects (snd (run.get2 b assetID w)) = objects w.
Proof.
  unfold run.get1, run.get2, assets_service.GetAssetByID,
    part_008.GetAssetByID.
  unfold_world. unfold_adapters. split; world_cases; reflexivity.
Qed.

(** The route on an asset the service returns. *)
Lemma handleGetAssetById_found {S : Type}
    (GetAssetByID : string -> S -> result Asset * S)
    (Serve : string -> S -> (error + Object) * S) (id : string) (w : S)
    (a : Asset) :
  id <> "" ->
  fst (GetAssetByID id w) = Ok a ->
  http.handleGetAssetById GetAssetByID Serve id w
  = match StorageKey a with
    | None =>
      (Ok (http.responseWithError 500
             (DomainError UnableToFetchError "Asset storage key is missing"
                (errors_New "Asset not found"))), snd (GetAssetByID id w))
    | Some key =>
      if String.eqb key "" then
        (Ok (http.responseWithError 500
               (DomainError UnableToFetchError "Asset storage key is missing"
                  (errors_New "Asset not found"))), snd (GetAssetByID id w))
      else
        match fst (Serve key (snd (GetAssetByID id w))) with
        | inl err => (Ok (http.responseWithError 500 err),
                      snd (Serve key (snd (GetAssetByID id w))))
        | inr obj => (Ok (http.Streamed (obj_content_type obj) (obj_data obj)),
                      snd (Serve key (snd (GetAssetByID id w))))
        end
    end.
Proof.
  intros Hid Hok. apply String.eqb_neq in Hid.
  unfold http.handleGetAssetById. rewrite Hid.
  destruct (GetAssetByID id w) as [r w1]. cbn [fst snd] in *. subst r.
  destruct (StorageKey a) as [key|]; [|reflexivity].
  destruct (String.eqb key ""); [reflexivity|].
  destruct (Serve key w1) as [[err|obj] w2]; reflexivity.
Qed.

(** X27: upload, then [GET /assets/{id}], in front of the second
    implementation. The public URL of a returned asset is the route of
    its id; when the database read and [GetObject] work, the cache held
    nothing under the asset's key before, and the id and the storage key
    are not empty, the route streams the uploaded bytes with the content
    type of the request. *)
Theorem X27_http_serves_what_was_uploaded :
  forall (b : Backend) (rt : Runtime) (K : CreateAssetDto -> string)
    (M : CreateAssetDto -> string -> string -> string)
    (dto : CreateAssetDto) (data : bytes) (w : World) (a : Asset),
    fst (run.upload2 b rt K M dto data w) = Ok a ->
    faults b SqlSelect = None ->
    cache w !! ("assets:" +:+ ID a) = None ->
    ID a <> "" ->
    K dto <> "" ->
    PublicURL a = "/assets/" +:+ ID a /\
    fst (http.get2 b None (ID a) (snd (run.upload2 b rt K M dto data w)))
    = Ok (http.Streamed (dto_ContentType dto) data).
Proof.
  intros b rt K M dto data w a Hok Hsel Hcold Hid Hkey.
  destruct (upload2_ok_inv b rt K M dto data w a Hok)
    as (_ & _ & _ & Ha & Hobj & Hrows & Hcache & _).
  split; [rewrite Ha; reflexivity|].
  set (w' := snd (run.upload2 b rt K M dto data w)) in *.
  assert (Hget : fst (run.get2 b (ID a) w') = Ok a).
  { apply get2_returns; [assumption| |].
    - split; [|rewrite Ha; reflexivity].
      rewrite Hrows. rewrite Ha at 1. apply lookup_insert_eq.
    - intros c. rewrite Hcache. destruct (faults b RedisSet).
      + rewrite Hcold. discriminate.
      + rewrite lookup_insert_eq. congruence. }
  unfold http.get2.
  rewrite (handleGetAssetById_found _ _ _ _ a Hid Hget).
  assert (Hk : StorageKey a = Some (K dto)) by (rewrite Ha; reflexivity).
  rewrite Hk. apply String.eqb_neq in Hkey. rewrite Hkey.
  unfold http.Serve.
  rewrite (proj2 (get_keeps_objects b w' (ID a))), Hobj, lookup_insert_eq.
  reflexivity.
Qed.

Lemma X27_http_serves_what_was_uploaded_witness :
  PublicURL scenario.report = "/assets/row-0" /\
  fst (http.get2 (fixtures.backend fixtures.no_fault) None "row-0"
         scenario.after_upload)
  = Ok (http.Streamed "application/pdf" fixtures.payload).
Proof.
  apply (X27_http_serves_what_was_uploaded (fixtures.backend fixtures.no_fault)
           fixtures.rt0 fixtures.GetStoreKey fixtures.GetMetadata
           fixtures.document_request fixtures.payload fixtures.empty_world
           scenario.report).
  - vm_compute. reflexivity.
  - reflexivity.
  - vm_compute. reflexivity.
  - discriminate.
  - discriminate.
Defined.

(** X28: [GET /assets/{id}] on a row without a storage key. For a
    visible row whose storage key is NULL or the empty string, when the
    id is not empty, the database read works and a cache entry for the
    id, if there is one, is that row, the route answers 500 with
    [unable_to_fetch_error], ["Asset storage key is missing"], in front
    of both implementations; [Serve] is not called, whatever it is: the
    state is the one the read left. *)
Theorem X28_http_answers_500_for_a_row_without_storage_key :
  forall (b : Backend) (w : World) (id : string) (a : Asset)
    (Serve : string -> World -> (error + Object) * World),
    id <> "" ->
    faults b SqlSelect = None ->
    outcome.stored w id a ->
    StorageKey a = None \/ StorageKey a = Some "" ->
    (forall c, cache w !! id = Some c -> c = a) ->
    (forall c, cache w !! ("assets:" +:+ id) = Some c -> c = a) ->
    let answer :=
      Ok (http.responseWithError 500
            (DomainError UnableToFetchError "Asset storage key is missing"
               (errors_New "Asset not found"))) in
    http.handleGetAssetById (run.get1 b) Serve id w
    = (answer, snd (run.get1 b id w)) /\
    http.handleGetAssetById (run.get2 b) Serve id w
    = (answer, snd (run.get2 b id w)).
Proof.
  intros b w id a Serve Hid Hsel Hst Hkey Hc1 Hc2. cbv zeta.
  assert (H1 : fst (run.get1 b id w) = Ok a)
    by (apply get1_returns; assumption).
  assert (H2 : fst (run.get2 b id w) = Ok a)
    by (apply get2_returns; assumption).
  rewrite (handleGetAssetById_found _ Serve _ _ a Hid H1).
  rewrite (handleGetAssetById_found _ Serve _ _ a Hid H2).
  destruct Hkey as [Hk|Hk]; rewrite Hk; split; reflexivity.
Qed.

Lemma X28_http_answers_500_for_a_row_without_storage_key_witness :
  let b := fixtures.backend fixtures.no_fault in
  let answer :=
    Ok (http.responseWithError 500
          (DomainError UnableToFetchError "Asset storage key is missing"
             (errors_New "Asset not found"))) in
  http.get1 b None "row-0" lifecycle.keyless
  = (answer, snd (run.get1 b "row-0" lifecycle.keyless)) /\
  http.get2 b None "row-0" lifecycle.keyless
  = (answer, snd (run.get2 b "row-0" lifecycle.keyless)).
Proof.
  apply (X28_http_answers_500_for_a_row_without_storage_key
           (fixtures.backend fixtures.no_fault) lifecycle.keyless "row-0"
           lifecycle.keyless_row (http.Serve None)).
  - discriminate.
  - reflexivity.
  - split; vm_compute; reflexivity.
  - left. reflexivity.
  - intros c H. vm_compute in H. discriminate H.
  - intros c H. vm_compute in H. discriminate H.
Defined.

(** ** Two uploads in the same second *)

(** X29: two successful uploads by [assets_service.go] of the same
    request in the same second. The storage key is made of the resource,
    the Unix second and the filename, so both assets get the same key:
    there are two rows with different ids, the first still with the hash
    of the first bytes, and the one object they share holds the bytes of
    the second upload. *)
Theorem X29_upload1_same_second_overwrites_the_object :
  forall (b : Backend) (rt rt' : Runtime) (dto : CreateAssetDto)
    (data1 data2 : bytes) (w : World) (a1 a2 : Asset),
    fst (run.upload1 b rt dto data1 w) = Ok a1 ->
    fst (run.upload1 b rt' dto data2 (snd (run.upload1 b rt dto data1 w)))
    = Ok a2 ->
    time_Now_Unix rt' = time_Now_Unix rt ->
    let w2 := snd (run.upload1 b rt' dto data2
                     (snd (run.upload1 b rt dto data1 w))) in
    exists key,
      StorageKey a1 = Some key /\ StorageKey a2 = Some key /\
      ID a1 <> ID a2 /\
      rows w2 !! ID a1 = Some a1 /\ rows w2 !! ID a2 = Some a2 /\
      FileHash a1 = sha256_hex rt data1 /\
      objects w2 !! key
      = Some {| obj_data := data2; obj_content_type := dto_ContentType dto |}.
Proof.
  intros b rt rt' dto data1 data2 w a1 a2 Hok1 Hok2 Htime. cbv zeta.
  destruct (upload1_ok_inv b rt dto data1 w a1 Hok1)
    as (key & meta & Hkey & _ & _ & _ & Ha1 & _ & Hrows1 & _).
  destruct (upload1_ok_inv b rt' dto data2 _ a2 Hok2)
    as (key' & meta' & Hkey' & _ & _ & Hfresh2 & Ha2 & Hobj2 & Hrows2 & _).
  rewrite Htime, Hkey in Hkey'. injection Hkey' as <-.
  set (w1 := snd (run.upload1 b rt dto data1 w)) in *.
  assert (Hid1 : ID a1 = gen_random_uuid b (db_seq w))
    by (rewrite Ha1; reflexivity).
  assert (Hid2 : ID a2 = gen_random_uuid b (db_seq w1))
    by (rewrite Ha2; reflexivity).
  assert (Hne : ID a1 <> ID a2).
  { intros Heq. rewrite Hid2 in Heq. rewrite <- Heq, Hrows1, Hid1 in Hfresh2.
    rewrite lookup_insert_eq in Hfresh2. discriminate Hfresh2. }
  exists key.
  split; [rewrite Ha1; reflexivity|]. split; [rewrite Ha2; reflexivity|].
  split; [assumption|].
  split.
  { rewrite Hrows2, <- Hid2, lookup_insert_ne by congruence.
    rewrite Hrows1, <- Hid1. apply lookup_insert_eq. }
  split; [rewrite Hrows2, <- Hid2; apply lookup_insert_eq|].
  split; [rewrite Ha1; reflexivity|].
  rewrite Hobj2. apply lookup_insert_eq.
Qed.

Lemma X29_upload1_same_second_overwrites_the_object_witness :
  let b := fixtures.backend fixtures.no_fault in
  let w1 := snd (run.upload1 b fixtures.rt0 fixtures.document_request
                   fixtures.payload fixtures.empty_world) in
  let w2 := snd (run.upload1 b fixtures.rt0 fixtures.document_request [] w1) in
  exists key,
    StorageKey lifecycle.report1 = Some key /\
    StorageKey lifecycle.report1_again = Some key /\
    ID lifecycle.report1 <> ID lifecycle.report1_again /\
    rows w2 !! ID lifecycle.report1 = Some lifecycle.report1 /\
    rows w2 !! ID lifecycle.report1_again = Some lifecycle.report1_again /\
    FileHash lifecycle.report1 = sha256_hex fixtures.rt0 fixtures.payload /\
    objects w2 !! key
    = Some {| obj_data := [];
              obj_content_type := dto_ContentType fixtures.document_request |}.
Proof.
  apply (X29_upload1_same_second_overwrites_the_object
           (fixtures.backend fixtures.no_fault) fixtures.rt0 fixtures.rt0
           fixtures.document_request fixtures.payload [] fixtures.empty_world
           lifecycle.report1 lifecycle.report1_again).
  - vm_compute. reflexivity.
  - vm_compute. reflexivity.
  - reflexivity.
Defined.

(** ** Fetch errors *)

Lemma iteration_fetch_failed {A : Type} (json : bytes -> error + DomainEvent)
    (c : kafka.EventConsumer A) (a : A) (r : kafka.ReaderState)
    (err : error) (rest : list error) :
  kafka.cancelled r = false ->
  kafka.fetch_errors r = err :: rest ->
  exists a' r',
    kafka.iteration json c kafka.mem_reader (a, r) = (kafka.Continue, (a', r')) /\
    kafka.cancelled r' = false /\ kafka.fetch_errors r' = rest /\
    kafka.pending r' = kafka.pending r /\
    kafka.committed r' = kafka.committed r /\
    kafka.commit_fault r' = kafka.commit_fault r /\
    kafka.reads r' = (kafka.reads r ++ [kafka.call_Fetch])%list.
Proof.
  intros Hc Hfe.
  unfold kafka.iteration, kafka.mem_reader.
  cbn [kafka.Done kafka.FetchMessage kafka.CommitMessages].
  rewrite Hc. unfold kafka.mem_Fetch. rewrite Hc, Hfe.
  eexists _, _. split; [reflexivity|]. cbn. auto 10.
Qed.

Lemma iteration_handled {A : Type} (json : bytes -> error + DomainEvent)
    (c : kafka.EventConsumer A) (a : A) (r : kafka.ReaderState)
    (m : kafka.Message) :
  kafka.cancelled r = false ->
  kafka.fetch_errors r = [] ->
  kafka.pending r !! kafka.committed r = Some m ->
  kafka.commit_fault r = None ->
  fst (kafka.handleMessage json c m a) = Ok tt ->
  exists a' r',
    kafka.iteration json c kafka.mem_reader (a, r) = (kafka.Continue, (a', r')) /\
    kafka.committed r' = Datatypes.S (Z.to_nat (kafka.Offset m)) /\
    kafka.reads r'
    = (kafka.reads r ++ [kafka.call_Fetch; kafka.call_Commit m])%list.
Proof.
  intros Hc Hfe Hp Hcf Hok.
  unfold kafka.iteration, kafka.mem_reader.
  cbn [kafka.Done kafka.FetchMessage kafka.CommitMessages].
  rewrite Hc. unfold kafka.mem_Fetch. rewrite Hc, Hfe, Hp.
  destruct (kafka.handleMessage json c m a) as [h a'].
  cbn [fst] in Hok. subst h.
  unfold kafka.mem_Commit. cbn. rewrite Hcf.
  eexists _, _. split; [reflexivity|]. cbn. rewrite <- app_assoc. auto.
Qed.

(** X30: fetch errors are retried. From a reader with [k] transient
    fetch errors ahead of a message whose handling succeeds, [k + 1]
    passes of the consume loop make [k] failed fetches, then fetch the
    message and commit it: the committed offset is past the message and
    the loop goes on. *)
Theorem X30_fetch_errors_are_retried_until_the_message_arrives :
  forall (A : Type) (json_Unmarshal : bytes -> error + DomainEvent)
    (c : kafka.EventConsumer A) (m : kafka.Message) (errs : list error)
    (a : A) (r : kafka.ReaderState),
    kafka.cancelled r = false ->
    kafka.fetch_errors r = errs ->
    kafka.pending r !! kafka.committed r = Some m ->
    kafka.commit_fault r = None ->
    (forall a', fst (kafka.handleMessage json_Unmarshal c m a') = Ok tt) ->
    let st := kafka.consumeMessages json_Unmarshal c kafka.mem_reader
                (Datatypes.S (length errs)) (a, r) in
    fst st = kafka.Continue /\
    kafka.new_reads r (snd (snd st))
    = (replicate (length errs) kafka.call_Fetch
       ++ [kafka.call_Fetch; kafka.call_Commit m])%list /\
    kafka.committed (snd (snd st)) = Datatypes.S (Z.to_nat (kafka.Offset m)).
Proof.
  intros A json c m errs a r Hc Hfe Hp Hcf Hok. cbv zeta.
  assert (H : fst (kafka.consumeMessages json c kafka.mem_reader
                     (Datatypes.S (length errs)) (a, r)) = kafka.Continue /\
              kafka.reads (snd (snd (kafka.consumeMessages json c
                                       kafka.mem_reader
                                       (Datatypes.S (length errs)) (a, r))))
              = (kafka.reads r ++ replicate (length errs) kafka.call_Fetch
                 ++ [kafka.call_Fetch; kafka.call_Commit m])%list /\
              kafka.committed (snd (snd (kafka.consumeMessages json c
                                           kafka.mem_reader
                                           (Datatypes.S (length errs)) (a, r))))
              = Datatypes.S (Z.to_nat (kafka.Offset m))).
  { revert a r Hc Hfe Hp Hcf.
    induction errs as [|err rest IH]; intros a r Hc Hfe Hp Hcf.
    - destruct (iteration_handled json c a r m Hc Hfe Hp Hcf (Hok a))
        as (a' & r' & Hit & Hcom & Hreads).
      cbn [length kafka.consumeMessages replicate app]. rewrite Hit.
      cbn [fst snd]. auto.
    - destruct (iteration_fetch_failed json c a r err rest Hc Hfe)
        as (a' & r' & Hit & Hc' & Hfe' & Hp' & Hcom' & Hcf' & Hreads').
      cbn [length]. change (kafka.consumeMessages json c kafka.mem_reader
                              (Datatypes.S (Datatypes.S (length rest))) (a, r))
        with (match kafka.iteration json c kafka.mem_reader (a, r) with
              | (kafka.Continue, st') =>
                kafka.consumeMessages json c kafka.mem_reader
                  (Datatypes.S (length rest)) st'
              | stop => stop
              end).
      rewrite Hit.
      destruct (IH a' r' Hc' Hfe') as (H1 & H2 & H3).
      + rewrite Hp', Hcom'. assumption.
      + rewrite Hcf'. assumption.
      + split; [assumption|]. split; [|assumption].
        rewrite H2, Hreads', <- app_assoc. reflexivity. }
  destruct H as (H1 & H2 & H3).
  split; [assumption|]. split; [|assumption].
  apply new_reads_app. assumption.
Qed.

Lemma X30_fetch_errors_are_retried_until_the_message_arrives_witness :
  let m := fixtures.message 0 "order.created" in
  let r := {| kafka.pending := [m]; kafka.committed := 0;
              kafka.cancelled := false;
              kafka.fetch_errors := [fixtures.broken KafkaWrite;
                                     fixtures.broken KafkaWrite];
              kafka.commit_fault := None; kafka.reads := [] |} in
  let st := kafka.consumeMessages fixtures.json_Unmarshal_event
              scenario.consumer2 kafka.mem_reader 3
              (fixtures.empty_world, r) in
  fst st = kafka.Continue /\
  kafka.new_reads r (snd (snd st))
  = (replicate 2 kafka.call_Fetch ++ [kafka.call_Fetch; kafka.call_Commit m])%list /\
  kafka.committed (snd (snd st)) = 1%nat.
Proof.
  apply (X30_fetch_errors_are_retried_until_the_message_arrives World
           fixtures.json_Unmarshal_event scenario.consumer2
           (fixtures.message 0 "order.created")
           [fixtures.broken KafkaWrite; fixtures.broken KafkaWrite]
           fixtures.empty_world).
  - reflexivity.
  - reflexivity.
  - reflexivity.
  - reflexivity.
  - intros a'. reflexivity.
Defined.
